(** * QZKP: bounded-disclosure commitment / proof protocol

    A shallow embedding of the protocol core of the qzkp repository:

    - [src/comprehensive_qzkp_real_hardware.py]
      ([SecureQuantumStateVector], [SecureQuantumZKP]), the 128-bit variant;
    - [src/tests/security/ultra_secure_qzkp_256bit.py]
      ([UltraSecureQuantumStateVector], [UltraSecureQuantumZKP]);
    - [src/tests/security/bytes_to_quantum_state_test.py]
      ([BytesToQuantumStateConverter], [UltraSecureBytesQZKP]).

    Python [float] is IEEE binary64 and is modelled by Rocq's primitive
    floats; Python [int] by [Z]; [bytes] and [str] by [string] (one character
    per byte, respectively per code point below 256); [dict] by association
    lists in insertion order.  Every source of non-determinism ([os.urandom],
    [time.time], [time.time_ns], the quantum backend) is an explicit input. *)

From Stdlib Require Import ZArith List String Ascii Bool Lia Floats Uint63.
From Stdlib Require Import DecimalString Permutation Sorted.
Import ListNotations.

Local Open Scope string_scope.
Local Open Scope list_scope.
Local Open Scope Z_scope.

(** String concatenation, kept apart from list append. *)
Infix "+++" := String.append (right associativity, at level 60).

(* ================================================================= *)
(** ** Bytes and hexadecimal text *)

(** Python [bytes]: a sequence of 8-bit values. *)
Definition bytes := string.

Definition byte_val (c : ascii) : Z := Z.of_N (N_of_ascii c).
Definition byte_chr (z : Z) : ascii := ascii_of_N (Z.to_N (z mod 256)).

(** [list(b)] for a [bytes] object [b]: its integer values. *)
Definition bytes_to_list (b : bytes) : list Z :=
  map byte_val (list_ascii_of_string b).

Definition bytes_of_list (l : list Z) : bytes :=
  string_of_list_ascii (map byte_chr l).

Definition hex_digit (z : Z) : ascii :=
  if z <? 10 then ascii_of_N (Z.to_N (48 + z))
  else ascii_of_N (Z.to_N (87 + z)).

(** Two lowercase hexadecimal digits of one byte. *)
Definition hex_byte (z : Z) : string :=
  String (hex_digit (z / 16 mod 16)) (String (hex_digit (z mod 16)) EmptyString).

Fixpoint hex_of_list (l : list Z) : string :=
  match l with
  | [] => EmptyString
  | b :: l' => hex_byte b +++ hex_of_list l'
  end.

(** [s[:n]] on a string, for an integer [n >= 0]. *)
Definition py_prefix (n : Z) (s : string) : string :=
  substring 0 (Z.to_nat n) s.

(** The value of one hexadecimal digit, in either case. *)
Definition hex_value (c : ascii) : option Z :=
  let n := byte_val c in
  if (48 <=? n) && (n <=? 57) then Some (n - 48)
  else if (97 <=? n) && (n <=? 102) then Some (n - 87)
  else if (65 <=? n) && (n <=? 70) then Some (n - 55)
  else None.

(** [list(bytes.fromhex(s))] for text without white space; [None] where
    Python raises [ValueError]. *)
Fixpoint bytes_fromhex (s : string) : option (list Z) :=
  match s with
  | EmptyString => Some []
  | String a (String b s') =>
      match hex_value a, hex_value b, bytes_fromhex s' with
      | Some x, Some y, Some l => Some (16 * x + y :: l)
      | _, _, _ => None
      end
  | String _ EmptyString => None
  end.

(* ================================================================= *)
(** ** [hashlib.sha256] (FIPS 180-4)

    The library hash is modelled concretely, on 32-bit words carried in [Z]
    with the wrap-around written out. *)

Module SHA256.

Definition w32 : Z := 4294967296.

Definition add32 (a b : Z) : Z := (a + b) mod w32.

Definition rotr (n x : Z) : Z :=
  Z.lor (Z.shiftr x n) (Z.shiftl x (32 - n) mod w32).

Definition shr (n x : Z) : Z := Z.shiftr x n.

Definition not32 (x : Z) : Z := Z.lxor x (w32 - 1).

Definition Ch (x y z : Z) : Z :=
  Z.lxor (Z.land x y) (Z.land (not32 x) z).

Definition Maj (x y z : Z) : Z :=
  Z.lxor (Z.lxor (Z.land x y) (Z.land x z)) (Z.land y z).

Definition Sigma0 (x : Z) : Z :=
  Z.lxor (Z.lxor (rotr 2 x) (rotr 13 x)) (rotr 22 x).

Definition Sigma1 (x : Z) : Z :=
  Z.lxor (Z.lxor (rotr 6 x) (rotr 11 x)) (rotr 25 x).

Definition sigma0 (x : Z) : Z :=
  Z.lxor (Z.lxor (rotr 7 x) (rotr 18 x)) (shr 3 x).

Definition sigma1 (x : Z) : Z :=
  Z.lxor (Z.lxor (rotr 17 x) (rotr 19 x)) (shr 10 x).

(** The first 64 primes. *)
Definition primes : list Z :=
  [ 2; 3; 5; 7; 11; 13; 17; 19; 23; 29; 31; 37; 41; 43; 47; 53;
    59; 61; 67; 71; 73; 79; 83; 89; 97; 101; 103; 107; 109; 113; 127; 131;
    137; 139; 149; 151; 157; 163; 167; 173; 179; 181; 191; 193; 197; 199;
    211; 223; 227; 229; 233; 239; 241; 251; 257; 263; 269; 271; 277; 281;
    283; 293; 307; 311 ].

(** The integer cube root, one bit at a time from bit [bits - 1] down. *)
Fixpoint cube_root (bits : nat) (n r : Z) : Z :=
  match bits with
  | O => r
  | S b =>
      let c := r + 2 ^ Z.of_nat b in
      cube_root b n (if c * c * c <=? n then c else r)
  end.

(** The first 32 bits of the fractional part of the cube root, and of the
    square root, of [p]. *)
Definition frac_cbrt (p : Z) : Z := cube_root 40 (p * 2 ^ 96) 0 mod w32.
Definition frac_sqrt (p : Z) : Z := Z.sqrt (p * 2 ^ 64) mod w32.

(** The round constants: from the cube roots of the first 64 primes. *)
Definition K : list Z := Eval vm_compute in map frac_cbrt primes.

(** The eight working words [a .. h]. *)
Record regs := Regs {
  ra : Z; rb : Z; rc : Z; rd : Z; re : Z; rf : Z; rg : Z; rh : Z }.

(** The initial hash value: from the square roots of the first 8 primes. *)
Definition H0 : regs :=
  Eval vm_compute in
    Regs (frac_sqrt 2) (frac_sqrt 3) (frac_sqrt 5) (frac_sqrt 7)
         (frac_sqrt 11) (frac_sqrt 13) (frac_sqrt 17) (frac_sqrt 19).

Definition round (s : regs) (k w : Z) : regs :=
  let t1 := add32 (add32 (add32 (add32 (rh s) (Sigma1 (re s)))
                                 (Ch (re s) (rf s) (rg s))) k) w in
  let t2 := add32 (Sigma0 (ra s)) (Maj (ra s) (rb s) (rc s)) in
  Regs (add32 t1 t2) (ra s) (rb s) (rc s) (add32 (rd s) t1) (re s) (rf s) (rg s).

(** The message schedule, kept as a sliding window of sixteen words:
    [W t = sigma1 (W (t-2)) + W (t-7) + sigma0 (W (t-15)) + W (t-16)]. *)
Definition next_word (w : list Z) : Z :=
  add32 (add32 (add32 (sigma1 (nth 14 w 0)) (nth 9 w 0)) (sigma0 (nth 1 w 0)))
        (nth 0 w 0).

Fixpoint rounds (ks : list Z) (w : list Z) (s : regs) : regs :=
  match ks with
  | [] => s
  | k :: ks' => rounds ks' (tl w ++ [next_word w]) (round s k (nth 0 w 0))
  end.

Definition compress (s : regs) (block : list Z) : regs :=
  let t := rounds K block s in
  Regs (add32 (ra s) (ra t)) (add32 (rb s) (rb t)) (add32 (rc s) (rc t))
       (add32 (rd s) (rd t)) (add32 (re s) (re t)) (add32 (rf s) (rf t))
       (add32 (rg s) (rg t)) (add32 (rh s) (rh t)).

(** Big-endian bytes of a word and back. *)
Definition word_bytes (x : Z) : list Z :=
  [ x / 16777216 mod 256; x / 65536 mod 256; x / 256 mod 256; x mod 256 ].

Fixpoint words_of_bytes (n : nat) (l : list Z) : list Z :=
  match n, l with
  | S n', b0 :: b1 :: b2 :: b3 :: l' =>
      (b0 * 16777216 + b1 * 65536 + b2 * 256 + b3) :: words_of_bytes n' l'
  | _, _ => []
  end.

(** Padding: a [0x80] byte, zeros up to 56 modulo 64, then the bit length
    as a 64-bit big-endian integer. *)
Definition pad (msg : list Z) : list Z :=
  let len := Z.of_nat (List.length msg) in
  let zeros := Z.to_nat ((55 - len) mod 64) in
  let bits := len * 8 in
  msg ++ [128] ++ repeat 0 zeros
      ++ word_bytes (bits / w32 mod w32) ++ word_bytes (bits mod w32).

Fixpoint blocks (n : nat) (ws : list Z) (s : regs) : regs :=
  match n with
  | O => s
  | S n' => blocks n' (skipn 16 ws) (compress s (firstn 16 ws))
  end.

Definition hash_words (msg : list Z) : regs :=
  let p := pad msg in
  let ws := words_of_bytes (Nat.div (List.length p) 4) p in
  blocks (Nat.div (List.length p) 64) ws H0.

Definition regs_bytes (s : regs) : list Z :=
  word_bytes (ra s) ++ word_bytes (rb s) ++ word_bytes (rc s) ++ word_bytes (rd s)
  ++ word_bytes (re s) ++ word_bytes (rf s) ++ word_bytes (rg s) ++ word_bytes (rh s).

(** [hashlib.sha256(m).digest()] as its 32 integer values. *)
Definition digest_list (m : bytes) : list Z :=
  regs_bytes (hash_words (bytes_to_list m)).

(** [hashlib.sha256(m).digest()]. *)
Definition digest (m : bytes) : bytes := bytes_of_list (digest_list m).

(** [hashlib.sha256(m).hexdigest()]. *)
Definition hexdigest (m : bytes) : string := hex_of_list (digest_list m).

End SHA256.

(* ================================================================= *)
(** ** Python values, exceptions and dictionaries *)

(** The values a proof or commitment record can hold (what [json] reads and
    writes). *)
#[warnings="-register-all"]
Inductive value :=
| VNone
| VBool (b : bool)
| VInt (z : Z)
| VFloat (f : float)
| VStr (s : string)
| VList (l : list value)
| VDict (d : list (string * value)).

(** A [dict] with string keys, in insertion order; keys are unique. *)
Definition dict := list (string * value).

Inductive exn :=
| KeyError (k : string)
| TypeError
| AttributeError
| OverflowError
| ValueError (msg : string)
| BackendError (msg : string).

(** A call either returns or raises. *)
Inductive result (A : Type) :=
| Ok (a : A)
| Raise (e : exn).
Arguments Ok {A} a.
Arguments Raise {A} e.

Definition bind {A B} (r : result A) (k : A -> result B) : result B :=
  match r with
  | Ok a => k a
  | Raise e => Raise e
  end.

Notation "x <- r ;; k" := (bind r (fun x => k))
  (at level 61, r at next level, right associativity).

(** [d.get(k)], [None] standing for an absent key. *)
Fixpoint dict_get (k : string) (d : dict) : option value :=
  match d with
  | [] => None
  | (k', v) :: d' => if String.eqb k k' then Some v else dict_get k d'
  end.

(** [d.get(k)] as Python returns it: [None] for an absent key. *)
Definition dict_get_none (k : string) (d : dict) : value :=
  match dict_get k d with Some v => v | None => VNone end.

(** [d[k]]. *)
Definition dict_getitem (k : string) (d : dict) : result value :=
  match dict_get k d with
  | Some v => Ok v
  | None => Raise (KeyError k)
  end.

Fixpoint dict_remove (k : string) (d : dict) : dict :=
  match d with
  | [] => []
  | (k', v) :: d' =>
      if String.eqb k k' then dict_remove k d' else (k', v) :: dict_remove k d'
  end.

(** [d.pop(k)]: the value and the dictionary left. *)
Definition dict_pop (k : string) (d : dict) : result (value * dict) :=
  match dict_get k d with
  | Some v => Ok (v, dict_remove k d)
  | None => Raise (KeyError k)
  end.

(** [d.pop(k, default)]. *)
Definition dict_pop_default (k : string) (dflt : value) (d : dict) : value * dict :=
  match dict_get k d with
  | Some v => (v, dict_remove k d)
  | None => (dflt, d)
  end.

(** [d[k] = v]: an existing key keeps its place, a new one goes last. *)
Fixpoint dict_set (k : string) (v : value) (d : dict) : dict :=
  match d with
  | [] => [(k, v)]
  | (k', v') :: d' =>
      if String.eqb k k' then (k, v) :: d' else (k', v') :: dict_set k v d'
  end.

Definition dict_keys (d : dict) : list string := map fst d.

(* ----------------------------------------------------------------- *)
(** *** Floats and the numeric tower *)

Local Open Scope float_scope.

(** [float(z)] for an integer: the nearest binary64 value, ties to even
    (beyond the float range Python raises [OverflowError]; the model gives an
    infinity there). *)
Definition float_of_Z (z : Z) : float :=
  SF2Prim (SpecFloat.binary_normalize prec emax z 0 false).

(** [x == z] for a float [x] and an integer [z]: Python compares the exact
    values. *)
Definition float_eq_Z (x : float) (z : Z) : bool :=
  match Prim2SF x with
  | S754_zero _ => (z =? 0)%Z
  | S754_finite s m e =>
      let sgn := if s then (-1)%Z else 1%Z in
      if (0 <=? e)%Z then (sgn * (Z.pos m * 2 ^ e) =? z)%Z
      else ((Z.pos m mod 2 ^ (- e) =? 0)%Z
            && (sgn * (Z.pos m / 2 ^ (- e)) =? z)%Z)%bool
  | _ => false
  end.

(** [bool(v)]. *)
Definition py_truthy (v : value) : bool :=
  match v with
  | VNone => false
  | VBool b => b
  | VInt z => negb (z =? 0)%Z
  | VFloat f => negb (PrimFloat.eqb f 0)
  | VStr s => negb (String.eqb s "")
  | VList l => match l with [] => false | _ => true end
  | VDict d => match d with [] => false | _ => true end
  end.

(** [v < 0]: defined on numbers, a [TypeError] otherwise. *)
Definition py_lt0 (v : value) : result bool :=
  match v with
  | VBool _ => Ok false
  | VInt z => Ok (z <? 0)%Z
  | VFloat f => Ok (PrimFloat.ltb f 0)
  | _ => Raise TypeError
  end.

(** [v == z] for an integer [z]. *)
Definition py_eq_int (v : value) (z : Z) : bool :=
  match v with
  | VBool b => ((if b then 1 else 0) =? z)%Z
  | VInt n => (n =? z)%Z
  | VFloat f => float_eq_Z f z
  | _ => false
  end.

(** [v == s] for a string [s]. *)
Definition py_eq_str (v : value) (s : string) : bool :=
  match v with
  | VStr s' => String.eqb s' s
  | _ => false
  end.

Local Close Scope float_scope.

(** [str(z)] for an integer. *)
Definition str_of_Z (z : Z) : string := NilZero.string_of_int (Z.to_int z).

(** [s.encode()] (UTF-8) for code points below 256. *)
Fixpoint encode (s : string) : bytes :=
  match s with
  | EmptyString => EmptyString
  | String c s' =>
      let n := byte_val c in
      if n <? 128 then String c (encode s')
      else String (byte_chr (192 + n / 64))
                  (String (byte_chr (128 + n mod 64)) (encode s'))
  end.

(* ================================================================= *)
(** ** [json.dumps(v, sort_keys=True)]

    Default separators, [ensure_ascii=True], [allow_nan=True].  The text is
    given for every value of the model; the library itself gives up on two
    kinds of them, which the records of the protocol do not contain: an
    integer of more than 4300 digits (from CPython 3.11 on) and a nesting
    deeper than the interpreter's recursion limit. *)

Definition dquote : string := String "034"%char EmptyString.

(** One character of a JSON string literal: the quote and the backslash are
    escaped, the five short escapes are used, and every other character outside
    [' ' .. '~'] becomes a [\u00XX] escape. *)
Definition json_escape_char (c : ascii) : string :=
  let n := byte_val c in
  if n =? 34 then "\" +++ dquote
  else if n =? 92 then "\\"
  else if n =? 10 then "\n"
  else if n =? 13 then "\r"
  else if n =? 9 then "\t"
  else if n =? 8 then "\b"
  else if n =? 12 then "\f"
  else if (32 <=? n) && (n <=? 126) then String c EmptyString
  else "\u00" +++ hex_byte n.

Fixpoint json_escape (s : string) : string :=
  match s with
  | EmptyString => EmptyString
  | String c s' => json_escape_char c +++ json_escape s'
  end.

Definition json_string (s : string) : string :=
  dquote +++ json_escape s +++ dquote.

Fixpoint join (sep : string) (l : list string) : string :=
  match l with
  | [] => EmptyString
  | [x] => x
  | x :: l' => x +++ sep +++ join sep l'
  end.

(** [sorted(d.items())]: insertion by key, in code-point order. *)
Fixpoint insert_item {A} (kv : string * A) (l : list (string * A)) : list (string * A) :=
  match l with
  | [] => [kv]
  | kv' :: l' =>
      if String.leb (fst kv) (fst kv') then kv :: l else kv' :: insert_item kv l'
  end.

Fixpoint sort_items {A} (l : list (string * A)) : list (string * A) :=
  match l with
  | [] => []
  | kv :: l' => insert_item kv (sort_items l')
  end.

Definition json_member (kv : string * string) : string :=
  json_string (fst kv) +++ ": " +++ snd kv.

Section Json.

(** [float.__repr__] on finite floats: the shortest decimal text that reads
    back as the same float.  A function of the Python runtime, taken as given. *)
Variable float_repr : float -> string.

Definition json_float (f : float) : string :=
  if PrimFloat.is_nan f then "NaN"
  else if PrimFloat.is_infinity f then
    (if PrimFloat.ltb f 0 then "-Infinity" else "Infinity")
  else float_repr f.

Fixpoint json_dumps (v : value) : string :=
  match v with
  | VNone => "null"
  | VBool b => if b then "true" else "false"
  | VInt z => str_of_Z z
  | VFloat f => json_float f
  | VStr s => json_string s
  | VList l => "[" +++ join ", " (map json_dumps l) +++ "]"
  | VDict d =>
      "{" +++ join ", " (map json_member
                (sort_items (map (fun kv => (fst kv, json_dumps (snd kv))) d)))
          +++ "}"
  end.

End Json.

(** What the protocol takes from the Python runtime and numpy without the
    repository defining it. *)
Class PyRuntime := {
  (** [float.__repr__], also [str(x)] for a float [x] *)
  float_repr : float -> string;
  (** [np.log2(n)] for an integer [n] *)
  np_log2 : Z -> float
}.

(** [str(v)], of which the protocol relies on one fact: the text of a string
    is the string. *)
Class PyStr := {
  py_str : value -> string;
  py_str_str : forall s, py_str (VStr s) = s
}.

(* ================================================================= *)
(** ** State vectors and their normalization *)

(** [np.linalg.norm(x)] on a complex vector, written over the arithmetic
    it uses.  Each product and each sum is rounded, and the sums are taken
    from left to right (the order inside [dot] is the BLAS library's). *)
Section Normalize.

Variable F : Type.
Variables (f0 : F) (fadd fmul : F -> F -> F) (fsqrt : F -> F).

(** [x.dot(y)] *)
Definition dot (xs ys : list F) : F :=
  fold_left fadd (map (fun p => fmul (fst p) (snd p)) (combine xs ys)) f0.

(** [sqnorm = x_real.dot(x_real) + x_imag.dot(x_imag)] *)
Definition sqnorm (v : list (F * F)) : F :=
  fadd (dot (map fst v) (map fst v)) (dot (map snd v) (map snd v)).

(** [np.linalg.norm(v)] *)
Definition linalg_norm (v : list (F * F)) : F := fsqrt (sqnorm v).

End Normalize.

(** A complex128 array. *)
Definition vector := list (float * float).

Definition np_linalg_norm : vector -> float :=
  linalg_norm float 0%float PrimFloat.add PrimFloat.mul PrimFloat.sqrt.

(** [x / y] on two complex128 numbers, as numpy's division loop has it
    (Smith's method): the quotient is a product by the reciprocal of the
    scaled divisor, and a zero divisor divides each part by [0.0]. *)
Definition complex_div (x y : float * float) : float * float :=
  let (in1r, in1i) := x in
  let (in2r, in2i) := y in
  let in2r_abs := PrimFloat.abs in2r in
  let in2i_abs := PrimFloat.abs in2i in
  if PrimFloat.leb in2i_abs in2r_abs then
    if PrimFloat.eqb in2r_abs 0%float && PrimFloat.eqb in2i_abs 0%float then
      (PrimFloat.div in1r in2r_abs, PrimFloat.div in1i in2r_abs)
    else
      let rat := PrimFloat.div in2i in2r in
      let scl := PrimFloat.div 1%float (PrimFloat.add in2r (PrimFloat.mul in2i rat)) in
      (PrimFloat.mul (PrimFloat.add in1r (PrimFloat.mul in1i rat)) scl,
       PrimFloat.mul (PrimFloat.sub in1i (PrimFloat.mul in1r rat)) scl)
  else
    let rat := PrimFloat.div in2r in2i in
    let scl := PrimFloat.div 1%float (PrimFloat.add in2i (PrimFloat.mul in2r rat)) in
    (PrimFloat.mul (PrimFloat.add (PrimFloat.mul in1r rat) in1i) scl,
     PrimFloat.mul (PrimFloat.sub (PrimFloat.mul in1i rat) in1r) scl).

(** [v / n] for a complex128 array [v] and a float64 scalar [n]: the scalar
    is promoted to the complex number [n + 0j] and every entry is divided
    by it. *)
Definition np_divide (v : vector) (n : float) : vector :=
  map (fun c => complex_div c (n, 0%float)) v.

(** [v / np.linalg.norm(v)] *)
Definition np_normalize (v : vector) : vector :=
  np_divide v (np_linalg_norm v).

(** [len(v)] *)
Definition len {A} (l : list A) : Z := Z.of_nat (List.length l).

(** [int(np.log2(dimension))] for a positive [dimension]: the floor of the
    binary logarithm.  It is exact on the powers of two, which is where the
    protocol uses it, and is what the code gets for every dimension up to
    about [2^49]; from there on the binary64 logarithm of a number just below
    a power of two rounds up to the next integer. *)
Definition int_log2 (dimension : Z) : Z := Z.log2 dimension.

(* ================================================================= *)
(** ** src/comprehensive_qzkp_real_hardware.py: [SecureQuantumStateVector] *)

Module SecureQuantumStateVector.

Record t := {
  coordinates : vector;
  dimension : Z;
  entanglement_bound : float;
  coherence_bound : float;
  commitment_hash : string
}.

Definition _calculate_entanglement_bound (dimension : Z) : float :=
  let num_qubits := int_log2 dimension in
  if num_qubits <? 2 then 0%float
  else float_of_Z (num_qubits - 1).

Definition _calculate_coherence_bound (dimension : Z) : float :=
  float_of_Z dimension.

(** [nonce] is what [os.urandom(32)] returns. *)
Definition _generate_secure_commitment (dimension : Z) (nonce : bytes) : string :=
  py_prefix 16 (SHA256.hexdigest (encode (str_of_Z dimension) +++ nonce)).

Definition __init__ (state_vector : vector) (nonce : bytes) : result t :=
  if len state_vector =? 0 then Raise (ValueError "State vector must not be empty.")
  else
    let dimension := len state_vector in
    Ok {| coordinates := np_normalize state_vector;
          dimension := dimension;
          entanglement_bound := _calculate_entanglement_bound dimension;
          coherence_bound := _calculate_coherence_bound dimension;
          commitment_hash := _generate_secure_commitment dimension nonce |}.

End SecureQuantumStateVector.

(* ================================================================= *)
(** ** src/tests/security/ultra_secure_qzkp_256bit.py:
       [UltraSecureQuantumStateVector] *)

Module UltraSecureQuantumStateVector.

Record t := {
  coordinates : vector;
  dimension : Z;
  entanglement_bound : float;
  coherence_bound : float;
  commitment_hash : string
}.

Definition _calculate_entanglement_bound (dimension : Z) : float :=
  let num_qubits := int_log2 dimension in
  if num_qubits <? 2 then 0%float
  else float_of_Z (num_qubits - 1).

Definition _calculate_coherence_bound (dimension : Z) : float :=
  float_of_Z dimension.

(** [nonce] is what [os.urandom(64)] returns and [now_ns] what
    [time.time_ns()] returns. *)
Definition _generate_ultra_secure_commitment
    (dimension : Z) (nonce : bytes) (now_ns : Z) : string :=
  py_prefix 32
    (SHA256.hexdigest (encode (str_of_Z dimension) +++ nonce
                         +++ encode (str_of_Z now_ns))).

Definition __init__ (state_vector : vector) (nonce : bytes) (now_ns : Z) : result t :=
  if len state_vector =? 0 then Raise (ValueError "State vector must not be empty.")
  else
    let dimension := len state_vector in
    Ok {| coordinates := np_normalize state_vector;
          dimension := dimension;
          entanglement_bound := _calculate_entanglement_bound dimension;
          coherence_bound := _calculate_coherence_bound dimension;
          commitment_hash := _generate_ultra_secure_commitment dimension nonce now_ns |}.

End UltraSecureQuantumStateVector.

(* ================================================================= *)
(** ** The quantum execution backend, as the protocol sees it *)

(** Measurement counts: outcome bit string to number of shots. *)
Definition counts := list (string * Z).

(** [result[0].data] of a finished job: whether it has the attribute [meas]
    or [c], what [get_counts()] on it does, and what [get_bitstrings()] does. *)
Record pub_data := {
  data_meas : option (result counts);
  data_c : option (result counts);
  data_get_bitstrings : result (list string)
}.

(** A job that ran: what the transpiler, the sampler and the clock gave. *)
Record job := {
  job_id : string;
  backend_name : string;
  execution_time : float;
  circuit_depth : Z;
  job_data : pub_data;
  finished_at : float
}.

(** The same job with another result payload. *)
Definition job_with_data (j : job) (d : pub_data) : job :=
  {| job_id := job_id j;
     backend_name := backend_name j;
     execution_time := execution_time j;
     circuit_depth := circuit_depth j;
     job_data := d;
     finished_at := finished_at j |}.

Fixpoint counts_get (k : string) (c : counts) : option Z :=
  match c with
  | [] => None
  | (k', n) :: c' => if String.eqb k k' then Some n else counts_get k c'
  end.

Fixpoint counts_set (k : string) (n : Z) (c : counts) : counts :=
  match c with
  | [] => [(k, n)]
  | (k', n') :: c' =>
      if String.eqb k k' then (k, n) :: c' else (k', n') :: counts_set k n c'
  end.

(** The loop
    [for bitstring in bitstrings:
       if bitstring not in counts: counts[bitstring] = 0
       counts[bitstring] += 1]. *)
Fixpoint count_bitstrings (bitstrings : list string) (c : counts) : counts :=
  match bitstrings with
  | [] => c
  | b :: rest =>
      let c1 := match counts_get b c with
                | None => counts_set b 0 c
                | Some _ => c
                end in
      let n := match counts_get b c1 with Some n => n | None => 0 end in
      count_bitstrings rest (counts_set b (n + 1) c1)
  end.

(** The body of the [try] block that reads the counts. *)
Definition read_counts (d : pub_data) : result counts :=
  match data_meas d with
  | Some get_counts => get_counts
  | None =>
      match data_c d with
      | Some get_counts => get_counts
      | None =>
          bitstrings <- data_get_bitstrings d ;;
          Ok (count_bitstrings bitstrings [])
      end
  end.

(** [try: ... except Exception: counts = fallback]. *)
Definition extract_counts (fallback : counts) (d : pub_data) : counts :=
  match read_counts d with
  | Ok c => c
  | Raise _ => fallback
  end.

(** [sum(counts.values())] *)
Definition counts_total (c : counts) : Z :=
  fold_left Z.add (map snd c) 0.

(** The outcome of verification: the value returned ([True] on acceptance,
    [False] otherwise) together with the diagnostic line printed just before
    a [return False]. *)
Inductive diagnostic :=
| SignatureVerificationFailed   (* "Signature verification failed" *)
| NoSignatureFound              (* "No signature found" *)
| DimensionMismatch             (* "Dimension mismatch" *)
| SecurityLevelMismatch         (* "Security level mismatch" *)
| GuaranteesNotMet              (* "Ultra-secure guarantees not met" *)
| InvalidBounds                 (* "Invalid bounds" *)
| MissingExecutionMetadata.     (* "Missing execution metadata" *)

Inductive verdict :=
| Accepted
| Rejected (why : diagnostic).

(** The Boolean the verifier returns. *)
Definition returned (v : verdict) : bool :=
  match v with
  | Accepted => true
  | Rejected _ => false
  end.

(** [exec_meta.get(k)] on whatever [proof["execution_metadata"]] holds: only
    a dictionary has [get]. *)
Definition value_get (k : string) (v : value) : result value :=
  match v with
  | VDict d => Ok (dict_get_none k d)
  | _ => Raise AttributeError
  end.

(** The two checks on which both verifiers end, each written once.

    [proof["entanglement_bound"] < 0 or proof["coherence_bound"] < 0] *)
Definition bounds_negative (proof : dict) : result bool :=
  entanglement_bound <- dict_getitem "entanglement_bound" proof ;;
  ent_negative <- py_lt0 entanglement_bound ;;
  if ent_negative then Ok true
  else
    coherence_bound <- dict_getitem "coherence_bound" proof ;;
    py_lt0 coherence_bound.

(** [exec_meta = proof["execution_metadata"]], then
    [not exec_meta.get("job_id") or not exec_meta.get("backend")] *)
Definition evidence_missing (proof : dict) : result bool :=
  exec_meta <- dict_getitem "execution_metadata" proof ;;
  job_id <- value_get "job_id" exec_meta ;;
  backend <- value_get "backend" exec_meta ;;
  Ok (negb (py_truthy job_id) || negb (py_truthy backend)).

(* ================================================================= *)
(** ** src/comprehensive_qzkp_real_hardware.py: [SecureQuantumZKP] *)

Module SecureQuantumZKP.

Section WithRuntime.
Context {RT : PyRuntime}.

(** The attributes of [self] the protocol reads. *)
Record t := {
  dimensions : Z;
  security_level : Z;
  shots : Z
}.

(** What one run of [secure_prove_vector_knowledge] draws from outside, in
    the order of the calls: the state's nonce, the backend run, and three
    readings of [time.time()].  The backend run is the outcome, for the
    vector and the identifier of this call, of [build_secure_circuit]
    followed by the transpiler and the sampler: circuit construction belongs
    to the quantum execution library, which refuses (raises on) a vector it
    cannot prepare, such as one of norm zero or one longer than the
    register. *)
Record env := {
  state_nonce : bytes;
  backend_run : result job;
  commit_hash_time : float;
  commit_time : float;
  proof_time : float
}.

(** The same draws around another backend run. *)
Definition env_with_run (e : env) (run : result job) : env :=
  {| state_nonce := state_nonce e;
     backend_run := run;
     commit_hash_time := commit_hash_time e;
     commit_time := commit_time e;
     proof_time := proof_time e |}.

(** [counts = {"00": 450, "11": 507, "01": 28, "10": 15}] *)
Definition synthetic_counts : counts :=
  [("00", 450); ("11", 507); ("01", 28); ("10", 15)].

Record execution_result := {
  er_job_id : string;
  er_backend : string;
  er_counts : counts;
  er_execution_time : float;
  er_circuit_depth : Z;
  er_shots : Z;
  er_timestamp : float
}.

Definition execute_on_real_hardware (self : t) (run : result job)
  : result execution_result :=
  j <- run ;;
  let counts := extract_counts synthetic_counts (job_data j) in
  Ok {| er_job_id := job_id j;
        er_backend := backend_name j;
        er_counts := counts;
        er_execution_time := execution_time j;
        er_circuit_depth := circuit_depth j;
        er_shots := shots self;
        er_timestamp := finished_at j |}.

Definition _generate_secure_commitment
    (state : SecureQuantumStateVector.t) (identifier : string)
    (hash_time now : float) : dict :=
  let h := encode (SecureQuantumStateVector.commitment_hash state)
           +++ encode identifier
           +++ encode (float_repr hash_time) in
  [ ("hash", VStr (py_prefix 32 (SHA256.hexdigest h)));
    ("dimension", VInt (SecureQuantumStateVector.dimension state));
    ("timestamp", VFloat now) ].

Definition _secure_measurement_analysis (c : counts) : dict :=
  let total_shots := counts_total c in
  [ ("total_measurements", VInt total_shots);
    ("unique_outcomes", VInt (len c));
    ("entropy_bound", VFloat (np_log2 (len c)));
    ("distribution_type", VStr "quantum_measurement") ].

Definition _sign_secure_proof (proof commitment : dict) : string :=
  SHA256.hexdigest
    (encode (json_dumps float_repr (VDict proof))
     +++ encode (json_dumps float_repr (VDict commitment))).

(** The dictionary literal [proof = {...}] of
    [secure_prove_vector_knowledge], before it is signed. *)
Definition proof_record
    (self : t) (secure_state : SecureQuantumStateVector.t)
    (execution_result : execution_result) (identifier : string) (now : float)
  : dict :=
    [ ("quantum_dimensions", VInt (dimensions self));
      ("security_level", VInt (security_level self));
      ("identifier_hash",
        VStr (py_prefix 16 (SHA256.hexdigest (encode identifier))));
      ("commitment_hash",
        VStr (SecureQuantumStateVector.commitment_hash secure_state));
      ("entanglement_bound",
        VFloat (SecureQuantumStateVector.entanglement_bound secure_state));
      ("coherence_bound",
        VFloat (SecureQuantumStateVector.coherence_bound secure_state));
      ("execution_metadata", VDict
        [ ("job_id", VStr (er_job_id execution_result));
          ("backend", VStr (er_backend execution_result));
          ("execution_time", VFloat (er_execution_time execution_result));
          ("circuit_depth", VInt (er_circuit_depth execution_result));
          ("shots", VInt (er_shots execution_result)) ]);
      ("measurement_statistics",
        VDict (_secure_measurement_analysis (er_counts execution_result)));
      ("timestamp", VFloat now) ].

Definition secure_prove_vector_knowledge
    (self : t) (vector : vector) (identifier : string) (e : env)
  : result (dict * dict) :=
  secure_state <- SecureQuantumStateVector.__init__ vector (state_nonce e) ;;
  execution_result <- execute_on_real_hardware self (backend_run e) ;;
  let commitment :=
    _generate_secure_commitment secure_state identifier
      (commit_hash_time e) (commit_time e) in
  let proof :=
    proof_record self secure_state execution_result identifier (proof_time e) in
  let proof := dict_set "signature"
                 (VStr (_sign_secure_proof proof commitment)) proof in
  Ok (commitment, proof).

Definition verify_secure_proof (self : t) (commitment proof : dict)
  : result verdict :=
  (* temp_proof = proof.copy(); signature = temp_proof.pop("signature") *)
  popped <- dict_pop "signature" proof ;;
  let signature := fst popped in
  let temp_proof := snd popped in
  let computed_signature := _sign_secure_proof temp_proof commitment in
  if negb (py_eq_str signature computed_signature) then
    Ok (Rejected SignatureVerificationFailed)
  else
    quantum_dimensions <- dict_getitem "quantum_dimensions" proof ;;
    if negb (py_eq_int quantum_dimensions (dimensions self)) then
      Ok (Rejected DimensionMismatch)
    else
      negative <- bounds_negative proof ;;
      if negative then Ok (Rejected InvalidBounds)
      else
        missing <- evidence_missing proof ;;
        if missing then Ok (Rejected MissingExecutionMetadata)
        else Ok Accepted.

End WithRuntime.

End SecureQuantumZKP.

(* ================================================================= *)
(** ** src/tests/security/ultra_secure_qzkp_256bit.py: [UltraSecureQuantumZKP] *)

Module UltraSecureQuantumZKP.

Section WithRuntime.
Context {RT : PyRuntime}.

Record t := {
  dimensions : Z;
  security_level : Z;
  shots : Z
}.

(** What one run of [ultra_secure_prove_vector_knowledge] draws from
    outside, in the order of the calls.  As in the 128-bit variant,
    [backend_run] is the outcome, for the vector and the identifier of this
    call, of [build_ultra_secure_circuit] followed by the transpiler and the
    sampler. *)
Record env := {
  state_nonce : bytes;          (* os.urandom(64) *)
  state_time_ns : Z;            (* time.time_ns() *)
  backend_run : result job;
  commit_hash_time_ns : Z;      (* time.time_ns() *)
  commit_nonce : bytes;         (* os.urandom(32) *)
  commit_time_ns : Z;           (* time.time_ns() *)
  proof_time : float;           (* time.time() *)
  sign_nonce : bytes            (* os.urandom(32) *)
}.

(** The same draws around another backend run. *)
Definition env_with_run (e : env) (run : result job) : env :=
  {| state_nonce := state_nonce e;
     state_time_ns := state_time_ns e;
     backend_run := run;
     commit_hash_time_ns := commit_hash_time_ns e;
     commit_nonce := commit_nonce e;
     commit_time_ns := commit_time_ns e;
     proof_time := proof_time e;
     sign_nonce := sign_nonce e |}.

(** [counts = {"00": 485, "11": 492, "01": 12, "10": 11}] *)
Definition synthetic_counts : counts :=
  [("00", 485); ("11", 492); ("01", 12); ("10", 11)].

Record execution_result := {
  er_job_id : string;
  er_backend : string;
  er_counts : counts;
  er_execution_time : float;
  er_circuit_depth : Z;
  er_shots : Z;
  er_security_level : Z;
  er_timestamp : float
}.

Definition execute_on_real_hardware (self : t) (run : result job)
  : result execution_result :=
  j <- run ;;
  let counts := extract_counts synthetic_counts (job_data j) in
  Ok {| er_job_id := job_id j;
        er_backend := backend_name j;
        er_counts := counts;
        er_execution_time := execution_time j;
        er_circuit_depth := circuit_depth j;
        er_shots := shots self;
        er_security_level := security_level self;
        er_timestamp := finished_at j |}.

Definition _generate_ultra_secure_commitment
    (self : t) (state : UltraSecureQuantumStateVector.t) (identifier : string)
    (hash_time_ns : Z) (nonce : bytes) (now_ns : Z) : dict :=
  let h := encode (UltraSecureQuantumStateVector.commitment_hash state)
           +++ encode identifier
           +++ encode (str_of_Z hash_time_ns)
           +++ nonce in
  [ ("hash", VStr (SHA256.hexdigest h));
    ("dimension", VInt (UltraSecureQuantumStateVector.dimension state));
    ("security_level", VInt (security_level self));
    ("timestamp", VInt now_ns) ].

Definition _ultra_secure_measurement_analysis (self : t) (c : counts) : dict :=
  let total_shots := counts_total c in
  [ ("total_measurements", VInt total_shots);
    ("unique_outcomes", VInt (len c));
    ("entropy_bound", VFloat (np_log2 (len c)));
    ("distribution_type", VStr "ultra_secure_quantum_measurement");
    ("security_level", VInt (security_level self)) ].

(** [nonce] is what [os.urandom(32)] returns. *)
Definition _sign_ultra_secure_proof
    (self : t) (proof commitment : dict) (nonce : bytes) : string :=
  SHA256.hexdigest
    (encode (json_dumps float_repr (VDict proof))
     +++ encode (json_dumps float_repr (VDict commitment))
     +++ encode (str_of_Z (security_level self))
     +++ nonce).

(** The dictionary literal [proof = {...}] of
    [ultra_secure_prove_vector_knowledge], before it is signed. *)
Definition proof_record
    (self : t) (ultra_secure_state : UltraSecureQuantumStateVector.t)
    (execution_result : execution_result) (identifier : string) (now : float)
  : dict :=
    [ ("quantum_dimensions", VInt (dimensions self));
      ("security_level", VInt (security_level self));
      ("soundness_error", VStr ("2^-" +++ str_of_Z (security_level self)));
      ("identifier_hash",
        VStr (py_prefix 32 (SHA256.hexdigest (encode identifier))));
      ("commitment_hash",
        VStr (UltraSecureQuantumStateVector.commitment_hash ultra_secure_state));
      ("entanglement_bound",
        VFloat (UltraSecureQuantumStateVector.entanglement_bound ultra_secure_state));
      ("coherence_bound",
        VFloat (UltraSecureQuantumStateVector.coherence_bound ultra_secure_state));
      ("execution_metadata", VDict
        [ ("job_id", VStr (er_job_id execution_result));
          ("backend", VStr (er_backend execution_result));
          ("execution_time", VFloat (er_execution_time execution_result));
          ("circuit_depth", VInt (er_circuit_depth execution_result));
          ("shots", VInt (er_shots execution_result));
          ("security_level", VInt (er_security_level execution_result)) ]);
      ("measurement_statistics",
        VDict (_ultra_secure_measurement_analysis self
                 (er_counts execution_result)));
      ("security_guarantees", VDict
        [ ("zero_knowledge", VBool true);
          ("soundness_bits", VInt (security_level self));
          ("post_quantum_secure", VBool true);
          ("information_theoretic_security", VBool true);
          ("long_term_secure", VBool true) ]);
      ("timestamp", VFloat now) ].

Definition ultra_secure_prove_vector_knowledge
    (self : t) (vector : vector) (identifier : string) (e : env)
  : result (dict * dict) :=
  ultra_secure_state <-
    UltraSecureQuantumStateVector.__init__ vector (state_nonce e) (state_time_ns e) ;;
  execution_result <- execute_on_real_hardware self (backend_run e) ;;
  let commitment :=
    _generate_ultra_secure_commitment self ultra_secure_state identifier
      (commit_hash_time_ns e) (commit_nonce e) (commit_time_ns e) in
  let proof :=
    proof_record self ultra_secure_state execution_result identifier (proof_time e) in
  let proof := dict_set "signature"
                 (VStr (_sign_ultra_secure_proof self proof commitment (sign_nonce e)))
                 proof in
  Ok (commitment, proof).

(** The verdict of [verify_ultra_secure_proof].  What the function prints is
    not modelled, and its opening line formats
    [proof.get('security_level', 'unknown')]: formatting returns for an
    absent entry and for every scalar but an integer of more than 4300
    digits (from CPython 3.11 on), so the verdict below is that of the code
    for proofs whose [security_level] is of that kind. *)
Definition verify_ultra_secure_proof (self : t) (commitment proof : dict)
  : result verdict :=
  (* temp_proof = proof.copy(); signature = temp_proof.pop("signature", "") *)
  let signature := fst (dict_pop_default "signature" (VStr "") proof) in
  if negb (py_truthy signature) then Ok (Rejected NoSignatureFound)
  else if negb (py_eq_int (dict_get_none "security_level" proof)
                          (security_level self)) then
    Ok (Rejected SecurityLevelMismatch)
  else
    let security_guarantees :=
      match dict_get "security_guarantees" proof with
      | Some v => v
      | None => VDict []
      end in
    zero_knowledge <- value_get "zero_knowledge" security_guarantees ;;
    post_quantum_secure <- value_get "post_quantum_secure" security_guarantees ;;
    information_theoretic_security <-
      value_get "information_theoretic_security" security_guarantees ;;
    long_term_secure <- value_get "long_term_secure" security_guarantees ;;
    if negb (forallb py_truthy
               [zero_knowledge; post_quantum_secure;
                information_theoretic_security; long_term_secure]) then
      Ok (Rejected GuaranteesNotMet)
    else
      negative <- bounds_negative proof ;;
      if negative then Ok (Rejected InvalidBounds)
      else
        missing <- evidence_missing proof ;;
        if missing then Ok (Rejected MissingExecutionMetadata)
        else
          (* the closing report reads these two fields *)
          _ <- dict_getitem "security_level" proof ;;
          _ <- dict_getitem "soundness_error" proof ;;
          Ok Accepted.

End WithRuntime.

End UltraSecureQuantumZKP.

(* ================================================================= *)
(** ** src/tests/security/bytes_to_quantum_state_test.py *)

(** [range(0, stop, 2)] *)
Definition range_step2 (stop : Z) : list Z :=
  map (fun k => 2 * Z.of_nat k) (seq 0 (Z.to_nat ((stop + 1) / 2))).

Module BytesToQuantumStateConverter.

Record t := {
  target_dimension : Z;
  num_qubits : Z
}.

(** [BytesToQuantumStateConverter(target_dimension)]: [np.log2] gives
    [-inf] at zero and [nan] below, which [int] refuses. *)
Definition __init__ (target_dimension : Z) : result t :=
  if target_dimension =? 0 then Raise OverflowError
  else if target_dimension <? 0 then
    Raise (ValueError "cannot convert float NaN to integer")
  else
    Ok {| target_dimension := target_dimension;
          num_qubits := int_log2 target_dimension |}.

(** The loop body: one amplitude from the bytes at [i] and [i + 1]. *)
Definition amplitude_at (hash_bytes : list Z) (i : Z) : float * float :=
  let byte_at (j : Z) : Z := nth (Z.to_nat j) hash_bytes 0 in
  if i + 1 <? len hash_bytes then
    let real_part := PrimFloat.div (float_of_Z (byte_at i - 128)) 128%float in
    let imag_part := PrimFloat.div (float_of_Z (byte_at (i + 1) - 128)) 128%float in
    (real_part, imag_part)
  else
    (PrimFloat.div (float_of_Z (byte_at i)) 255%float, 0%float).

(** [while len(amplitudes) < target_dimension: amplitudes.append(0j)], the
    loop counted by the number of iterations left. *)
Fixpoint pad_loop (todo : nat) (amplitudes : vector) : vector :=
  match todo with
  | O => amplitudes
  | S todo' => pad_loop todo' (amplitudes ++ [(0%float, 0%float)])
  end.

(** The list [amplitudes] when it is handed to [np.array]. *)
Definition amplitudes_of (self : t) (data_bytes : bytes) : vector :=
  let hash_bytes := SHA256.digest_list data_bytes in
  let amplitudes :=
    map (amplitude_at hash_bytes)
        (range_step2 (Z.min (len hash_bytes) (target_dimension self * 2))) in
  let amplitudes :=
    pad_loop (Z.to_nat (target_dimension self - len amplitudes)) amplitudes in
  firstn (Z.to_nat (target_dimension self)) amplitudes.

Definition bytes_to_quantum_state (self : t) (data_bytes : bytes) (label : string)
  : vector * dict :=
  let state_vector := np_normalize (amplitudes_of self data_bytes) in
  let metadata : dict :=
    [ ("original_bytes_length", VInt (Z.of_nat (String.length data_bytes)));
      ("hash_sha256", VStr (SHA256.hexdigest data_bytes));
      ("label", VStr label);
      ("dimension", VInt (target_dimension self));
      ("num_qubits", VInt (num_qubits self));
      ("norm", VFloat (np_linalg_norm state_vector));
      ("conversion_method", VStr "sha256_hash_to_complex_amplitudes") ] in
  (state_vector, metadata).

End BytesToQuantumStateConverter.

(** The encoder as the specification words it, to compare with the loop of
    [bytes_to_quantum_state]: the digest is split into byte pairs, each pair
    is mapped to an amplitude by the affine map [b -> (b - 128) / 128] on
    both parts, and the sequence is padded with zero amplitudes or truncated
    to the target dimension. *)
Module EncoderSpec.

Fixpoint byte_pairs (l : list Z) : list (Z * Z) :=
  match l with
  | a :: b :: l' => (a, b) :: byte_pairs l'
  | _ => []
  end.

Definition affine (b : Z) : float :=
  PrimFloat.div (float_of_Z (b - 128)) 128%float.

Definition amplitude (p : Z * Z) : float * float :=
  (affine (fst p), affine (snd p)).

Definition amplitudes (secret : bytes) (target_dimension : Z) : vector :=
  let all := map amplitude (byte_pairs (SHA256.digest_list secret)) in
  firstn (Z.to_nat target_dimension)
         (all ++ repeat (0%float, 0%float) (Z.to_nat target_dimension)).

(** Both parts of an amplitude lie in [[-1, 1]]. *)
Definition in_unit_square (c : float * float) : bool :=
  PrimFloat.leb (-1)%float (fst c) && PrimFloat.leb (fst c) 1%float
  && PrimFloat.leb (-1)%float (snd c) && PrimFloat.leb (snd c) 1%float.

End EncoderSpec.

Module UltraSecureBytesQZKP.

Section WithRuntime.
Context {RT : PyRuntime}.

Record t := {
  security_level : Z
}.

(** [nonce] is what [os.urandom(32)] returns, [now_ns] what [time.time_ns()]
    returns. *)
Definition _generate_bytes_commitment
    (self : t) (data_bytes : bytes) (hash_sha256 : string)
    (nonce : bytes) (now_ns : Z) : dict :=
  let h := data_bytes
           +++ encode hash_sha256
           +++ encode (str_of_Z (security_level self))
           +++ nonce in
  [ ("hash", VStr (SHA256.hexdigest h));
    ("bytes_length", VInt (Z.of_nat (String.length data_bytes)));
    ("security_level", VInt (security_level self));
    ("timestamp", VInt now_ns) ].

(** [nonce] is what [os.urandom(32)] returns. *)
Definition _sign_bytes_proof
    (proof commitment : dict) (data_bytes : bytes) (nonce : bytes) : string :=
  SHA256.hexdigest
    (encode (json_dumps float_repr (VDict proof))
     +++ encode (json_dumps float_repr (VDict commitment))
     +++ SHA256.digest data_bytes
     +++ nonce).

End WithRuntime.

Section Prover.
Context {RT : PyRuntime} {ST : PyStr}.

(** [self.converter = BytesToQuantumStateConverter()], set once, in
    [__init__]: the default target dimension, 4. *)
Definition converter : BytesToQuantumStateConverter.t :=
  {| BytesToQuantumStateConverter.target_dimension := 4;
     BytesToQuantumStateConverter.num_qubits := int_log2 4 |}.

(** What one run of [prove_bytes_knowledge] draws from outside, in the order
    of the calls: the backend run (building, transpiling and running the
    circuit, which may raise), then the nonces and the clock. *)
Record env := {
  backend_run : result job;
  commit_nonce : bytes;         (* os.urandom(32) *)
  commit_time_ns : Z;           (* time.time_ns() *)
  proof_time : float;           (* time.time() *)
  sign_nonce : bytes            (* os.urandom(32) *)
}.

(** [counts = {"00": 250, "01": 250, "10": 250, "11": 250}] *)
Definition synthetic_counts : counts :=
  [("00", 250); ("01", 250); ("10", 250); ("11", 250)].

Record execution_result := {
  er_job_id : string;
  er_backend : string;
  er_counts : counts;
  er_execution_time : float;
  er_circuit_depth : Z;
  er_shots : Z
}.

Definition _execute_on_real_hardware (run : result job) : result execution_result :=
  j <- run ;;
  let counts := extract_counts synthetic_counts (job_data j) in
  Ok {| er_job_id := job_id j;
        er_backend := backend_name j;
        er_counts := counts;
        er_execution_time := execution_time j;
        er_circuit_depth := circuit_depth j;
        er_shots := 1000 |}.

(** The dictionary literal [proof = {...}] of [prove_bytes_knowledge], before
    it is signed; the entries of [conversion_metadata] are looked up in the
    order of the literal. *)
Definition proof_record
    (self : t) (data_bytes : bytes) (label : string) (conversion_metadata : dict)
    (execution_result : execution_result) (now : float) : result dict :=
  hash_sha256 <- dict_getitem "hash_sha256" conversion_metadata ;;
  conversion_method <- dict_getitem "conversion_method" conversion_metadata ;;
  dimension <- dict_getitem "dimension" conversion_metadata ;;
  num_qubits <- dict_getitem "num_qubits" conversion_metadata ;;
  norm <- dict_getitem "norm" conversion_metadata ;;
  Ok [ ("security_level", VInt (security_level self));
       ("soundness_error", VStr ("2^-" +++ str_of_Z (security_level self)));
       ("bytes_metadata", VDict
         [ ("label", VStr label);
           ("bytes_length", VInt (Z.of_nat (String.length data_bytes)));
           ("hash_sha256", hash_sha256);
           ("conversion_method", conversion_method) ]);
       ("quantum_state_metadata", VDict
         [ ("dimension", dimension);
           ("num_qubits", num_qubits);
           ("norm", norm) ]);
       ("execution_metadata", VDict
         [ ("job_id", VStr (er_job_id execution_result));
           ("backend", VStr (er_backend execution_result));
           ("execution_time", VFloat (er_execution_time execution_result));
           ("circuit_depth", VInt (er_circuit_depth execution_result));
           ("shots", VInt (er_shots execution_result)) ]);
       ("security_guarantees", VDict
         [ ("zero_knowledge", VBool true);
           ("bytes_privacy", VBool true);
           ("quantum_state_privacy", VBool true);
           ("soundness_bits", VInt (security_level self));
           ("post_quantum_secure", VBool true);
           ("ultra_secure", VBool true) ]);
       ("timestamp", VFloat now) ].

Definition prove_bytes_knowledge
    (self : t) (data_bytes : bytes) (label : string) (e : env)
  : result (dict * dict * dict) :=
  let conversion :=
    BytesToQuantumStateConverter.bytes_to_quantum_state converter data_bytes label in
  let conversion_metadata := snd conversion in
  execution_result <- _execute_on_real_hardware (backend_run e) ;;
  (* commitment = self._generate_bytes_commitment(data_bytes, conversion_metadata) *)
  hash_sha256 <- dict_getitem "hash_sha256" conversion_metadata ;;
  let commitment :=
    _generate_bytes_commitment self data_bytes (py_str hash_sha256)
      (commit_nonce e) (commit_time_ns e) in
  proof <- proof_record self data_bytes label conversion_metadata
             execution_result (proof_time e) ;;
  let proof := dict_set "signature"
                 (VStr (_sign_bytes_proof proof commitment data_bytes (sign_nonce e)))
                 proof in
  Ok (commitment, proof, conversion_metadata).

End Prover.

End UltraSecureBytesQZKP.

(* ================================================================= *)
(** ** The verifiers over a store of shared, mutable dictionaries

    Python passes [commitment] and [proof] by reference, and [proof.copy()]
    is a shallow copy.  To state what a verifier does to the objects it is
    handed, the two verifiers are written again over an explicit store: a
    dictionary slot holds a scalar or the address of a container. *)

Module Store.

Definition addr := nat.

Inductive slot :=
| SNone
| SBool (b : bool)
| SInt (z : Z)
| SFloat (f : float)
| SStr (s : string)
| SRef (a : addr).

Inductive object :=
| ODict (d : list (string * slot))
| OList (l : list slot).

(** The store: the object at address [a] is the [a]-th element. *)
Definition heap := list object.

Definition load (a : addr) (h : heap) : option object := nth_error h a.

Fixpoint store (a : addr) (o : object) (h : heap) : heap :=
  match h, a with
  | [], _ => []
  | _ :: h', O => o :: h'
  | x :: h', S a' => x :: store a' o h'
  end.

(** A computation on the store: it returns or raises, and leaves a store. *)
Definition M (A : Type) := heap -> result A * heap.

Definition ret {A} (a : A) : M A := fun h => (Ok a, h).

Definition raise {A} (e : exn) : M A := fun h => (Raise e, h).

Definition bindM {A B} (m : M A) (k : A -> M B) : M B :=
  fun h =>
    match m h with
    | (Ok a, h') => k a h'
    | (Raise e, h') => (Raise e, h')
    end.

(** A computation that only reads the store. *)
Definition reading {A} (f : heap -> result A) : M A := fun h => (f h, h).

Notation "x <~ m ;; k" := (bindM m (fun x => k))
  (at level 61, m at next level, right associativity).

(** [m] keeps the first [lo] objects of the store as they are, never shrinks
    the store, and returns only values satisfying [Q]. *)
Definition frames {A} (lo : nat) (Q : A -> Prop) (m : M A) : Prop :=
  forall h, (lo <= List.length h)%nat ->
    firstn lo (snd (m h)) = firstn lo h
    /\ (List.length h <= List.length (snd (m h)))%nat
    /\ (forall a, fst (m h) = Ok a -> Q a).

Definition anything {A} (_ : A) : Prop := True.

Definition alloc (o : object) : M addr :=
  fun h => (Ok (List.length h), h ++ [o]).

Fixpoint slot_get (k : string) (d : list (string * slot)) : option slot :=
  match d with
  | [] => None
  | (k', v) :: d' => if String.eqb k k' then Some v else slot_get k d'
  end.

Fixpoint slot_remove (k : string) (d : list (string * slot)) : list (string * slot) :=
  match d with
  | [] => []
  | (k', v) :: d' =>
      if String.eqb k k' then slot_remove k d' else (k', v) :: slot_remove k d'
  end.

(** [x.copy()]: a new object with the same slots (dictionaries and lists
    both have [copy]). *)
Definition obj_copy (a : addr) : M addr :=
  fun h =>
    match load a h with
    | Some o => alloc o h
    | None => (Raise AttributeError, h)
    end.

(** [x.pop(k)] for a string [k]: removes the key from the dictionary at
    [a], in place; a list refuses a string index. *)
Definition dict_pop (a : addr) (k : string) : M slot :=
  fun h =>
    match load a h with
    | Some (ODict d) =>
        match slot_get k d with
        | Some v => (Ok v, store a (ODict (slot_remove k d)) h)
        | None => (Raise (KeyError k), h)
        end
    | _ => (Raise TypeError, h)
    end.

(** [x.pop(k, default)] *)
Definition dict_pop_default (a : addr) (k : string) (dflt : slot) : M slot :=
  fun h =>
    match load a h with
    | Some (ODict d) =>
        match slot_get k d with
        | Some v => (Ok v, store a (ODict (slot_remove k d)) h)
        | None => (Ok dflt, h)
        end
    | _ => (Raise TypeError, h)
    end.

(** [x[k]] for a string [k] *)
Definition dict_getitem (a : addr) (k : string) : M slot :=
  reading (fun h =>
    match load a h with
    | Some (ODict d) =>
        match slot_get k d with
        | Some v => Ok v
        | None => Raise (KeyError k)
        end
    | _ => Raise TypeError
    end).

(** [x.get(k)] where [x] is given by address: only a dictionary has [get]. *)
Definition dict_get_none (a : addr) (k : string) : M slot :=
  reading (fun h =>
    match load a h with
    | Some (ODict d) =>
        Ok (match slot_get k d with Some v => v | None => SNone end)
    | _ => Raise AttributeError
    end).

(** [x.get(k, {})]: the default is a fresh, empty dictionary. *)
Definition dict_get_default_empty (a : addr) (k : string) : M slot :=
  fun h =>
    match load a h with
    | Some (ODict d) =>
        match slot_get k d with
        | Some v => (Ok v, h)
        | None => (Ok (SRef (List.length h)), h ++ [ODict []])
        end
    | _ => (Raise AttributeError, h)
    end.

(** [v.get(k)] on whatever a slot holds. *)
Definition slot_get_none (v : slot) (k : string) : M slot :=
  match v with
  | SRef a => dict_get_none a k
  | _ => raise AttributeError
  end.

(** What truth tests and comparisons with a number or a string see of a
    slot: a scalar as it is, a container by its kind and size only. *)
Definition view (v : slot) : M value :=
  reading (fun h =>
    Ok (match v with
        | SNone => VNone
        | SBool b => VBool b
        | SInt z => VInt z
        | SFloat f => VFloat f
        | SStr s => VStr s
        | SRef a =>
            match load a h with
            | Some (ODict d) => VDict (map (fun kv => (fst kv, VNone)) d)
            | Some (OList l) => VList (map (fun _ => VNone) l)
            | None => VNone
            end
        end)).

Fixpoint mapM_option {A B} (f : A -> option B) (l : list A) : option (list B) :=
  match l with
  | [] => Some []
  | x :: l' =>
      match f x, mapM_option f l' with
      | Some y, Some ys => Some (y :: ys)
      | _, _ => None
      end
  end.

(** The value reachable from a slot, following at most [fuel] references
    in depth. *)
Fixpoint read (fuel : nat) (h : heap) (v : slot) : option value :=
  match v with
  | SNone => Some VNone
  | SBool b => Some (VBool b)
  | SInt z => Some (VInt z)
  | SFloat f => Some (VFloat f)
  | SStr s => Some (VStr s)
  | SRef a =>
      match fuel with
      | O => None
      | S fuel' =>
          match load a h with
          | Some (ODict d) =>
              option_map VDict
                (mapM_option
                   (fun kv => option_map (pair (fst kv)) (read fuel' h (snd kv))) d)
          | Some (OList l) => option_map VList (mapM_option (read fuel' h) l)
          | None => None
          end
      end
  end.

Section WithRuntime.
Context {RT : PyRuntime}.

(** [json.dumps(x, sort_keys=True)] for the object at [a]; a structure that
    contains itself is refused ([ValueError: Circular reference detected]). *)
Definition json_dumps_at (a : addr) (h : heap) : result string :=
  match read (S (List.length h)) h (SRef a) with
  | Some v => Ok (json_dumps float_repr v)
  | None => Raise (ValueError "Circular reference detected")
  end.

Definition _sign_secure_proof (proof commitment : addr) : M string :=
  reading (fun h =>
    p <- json_dumps_at proof h ;;
    c <- json_dumps_at commitment h ;;
    Ok (SHA256.hexdigest (encode p +++ encode c))).

Definition verify_secure_proof
    (self : SecureQuantumZKP.t) (commitment proof : addr) : M verdict :=
  temp_proof <~ obj_copy proof ;;
  signature <~ dict_pop temp_proof "signature" ;;
  computed_signature <~ _sign_secure_proof temp_proof commitment ;;
  signature <~ view signature ;;
  if negb (py_eq_str signature computed_signature) then
    ret (Rejected SignatureVerificationFailed)
  else
    quantum_dimensions <~ dict_getitem proof "quantum_dimensions" ;;
    quantum_dimensions <~ view quantum_dimensions ;;
    if negb (py_eq_int quantum_dimensions (SecureQuantumZKP.dimensions self)) then
      ret (Rejected DimensionMismatch)
    else
      entanglement_bound <~ dict_getitem proof "entanglement_bound" ;;
      entanglement_bound <~ view entanglement_bound ;;
      ent_negative <~ reading (fun _ => py_lt0 entanglement_bound) ;;
      coh_negative <~
        (if ent_negative then ret true
         else coherence_bound <~ dict_getitem proof "coherence_bound" ;;
              coherence_bound <~ view coherence_bound ;;
              reading (fun _ => py_lt0 coherence_bound)) ;;
      if coh_negative then ret (Rejected InvalidBounds)
      else
        exec_meta <~ dict_getitem proof "execution_metadata" ;;
        job_id <~ slot_get_none exec_meta "job_id" ;;
        backend <~ slot_get_none exec_meta "backend" ;;
        job_id <~ view job_id ;;
        backend <~ view backend ;;
        if negb (py_truthy job_id) || negb (py_truthy backend) then
          ret (Rejected MissingExecutionMetadata)
        else ret Accepted.

Definition verify_ultra_secure_proof
    (self : UltraSecureQuantumZKP.t) (commitment proof : addr) : M verdict :=
  (* the opening report reads proof.get('security_level', 'unknown') *)
  _ <~ dict_get_none proof "security_level" ;;
  temp_proof <~ obj_copy proof ;;
  signature <~ dict_pop_default temp_proof "signature" (SStr "") ;;
  signature <~ view signature ;;
  if negb (py_truthy signature) then ret (Rejected NoSignatureFound)
  else
    security_level <~ dict_get_none proof "security_level" ;;
    security_level <~ view security_level ;;
    if negb (py_eq_int security_level (UltraSecureQuantumZKP.security_level self)) then
      ret (Rejected SecurityLevelMismatch)
    else
      security_guarantees <~ dict_get_default_empty proof "security_guarantees" ;;
      zero_knowledge <~ slot_get_none security_guarantees "zero_knowledge" ;;
      post_quantum_secure <~
        slot_get_none security_guarantees "post_quantum_secure" ;;
      information_theoretic_security <~
        slot_get_none security_guarantees "information_theoretic_security" ;;
      long_term_secure <~ slot_get_none security_guarantees "long_term_secure" ;;
      zero_knowledge <~ view zero_knowledge ;;
      post_quantum_secure <~ view post_quantum_secure ;;
      information_theoretic_security <~ view information_theoretic_security ;;
      long_term_secure <~ view long_term_secure ;;
      if negb (forallb py_truthy
                 [zero_knowledge; post_quantum_secure;
                  information_theoretic_security; long_term_secure]) then
        ret (Rejected GuaranteesNotMet)
      else
        entanglement_bound <~ dict_getitem proof "entanglement_bound" ;;
        entanglement_bound <~ view entanglement_bound ;;
        ent_negative <~ reading (fun _ => py_lt0 entanglement_bound) ;;
        coh_negative <~
          (if ent_negative then ret true
           else coherence_bound <~ dict_getitem proof "coherence_bound" ;;
                coherence_bound <~ view coherence_bound ;;
                reading (fun _ => py_lt0 coherence_bound)) ;;
        if coh_negative then ret (Rejected InvalidBounds)
        else
          exec_meta <~ dict_getitem proof "execution_metadata" ;;
          job_id <~ slot_get_none exec_meta "job_id" ;;
          backend <~ slot_get_none exec_meta "backend" ;;
          job_id <~ view job_id ;;
          backend <~ view backend ;;
          if negb (py_truthy job_id) || negb (py_truthy backend) then
            ret (Rejected MissingExecutionMetadata)
          else
            _ <~ dict_getitem proof "security_level" ;;
            _ <~ dict_getitem proof "soundness_error" ;;
            ret Accepted.

End WithRuntime.

(** What [view] shows of a value: a scalar as it is, a container by its
    keys or length only (the verifiers test containers for emptiness). *)
Definition surface (v : value) : value :=
  match v with
  | VDict d => VDict (map (fun kv => (fst kv, VNone)) d)
  | VList l => VList (map (fun _ => VNone) l)
  | _ => v
  end.

(** ** Reading through the store *)

(** [json.dumps] of the object behind [s] succeeds and gives [v]. *)
Definition reads (h : heap) (s : slot) (v : value) : Prop :=
  read (S (List.length h)) h s = Some v.

(** [h'] has every object of [h], unchanged, and maybe more. *)
Definition agree (h h' : heap) : Prop :=
  (List.length h <= List.length h')%nat
  /\ forall a, (a < List.length h)%nat -> load a h' = load a h.

End Store.

(* ================================================================= *)
(** ** Vocabulary for stating what the verifiers check *)

(** A hexadecimal digit carries four bits. *)
Definition hex_bits (s : string) : Z := 4 * Z.of_nat (String.length s).

(** The first of the two bounds that the verifier gets to compare with zero
    and finds negative: the entanglement bound, or the coherence bound when
    the entanglement bound is a number that is not negative. *)
Definition negative_bound (proof : dict) : Prop :=
  exists e,
    dict_get "entanglement_bound" proof = Some e
    /\ (py_lt0 e = Ok true
        \/ (py_lt0 e = Ok false
            /\ exists c, dict_get "coherence_bound" proof = Some c
                         /\ py_lt0 c = Ok true)).

Definition nonnegative_bounds (proof : dict) : Prop :=
  exists e c,
    dict_get "entanglement_bound" proof = Some e /\ py_lt0 e = Ok false
    /\ dict_get "coherence_bound" proof = Some c /\ py_lt0 c = Ok false.

(** [execution_metadata] is a dictionary in which [job_id] or [backend] is
    absent or tests false (empty). *)
Definition evidence_absent_or_empty (proof : dict) : Prop :=
  exists m,
    dict_get "execution_metadata" proof = Some (VDict m)
    /\ (py_truthy (dict_get_none "job_id" m) = false
        \/ py_truthy (dict_get_none "backend" m) = false).

(** The checks of the 128-bit verifier that come before the bounds: the
    stored signature is the recomputed one and the dimensions agree. *)
Definition secure_earlier_checks_pass
    {RT : PyRuntime} (self : SecureQuantumZKP.t) (commitment proof : dict) : Prop :=
  exists sig qd,
    dict_get "signature" proof = Some sig
    /\ py_eq_str sig
         (SecureQuantumZKP._sign_secure_proof (dict_remove "signature" proof) commitment)
       = true
    /\ dict_get "quantum_dimensions" proof = Some qd
    /\ py_eq_int qd (SecureQuantumZKP.dimensions self) = true.

(** The 256-bit verifier finds a signature that tests true. *)
Definition ultra_signature_present (proof : dict) : Prop :=
  exists sig, dict_get "signature" proof = Some sig /\ py_truthy sig = true.

(** [security_guarantees] is a dictionary whose four flags test true. *)
Definition ultra_guarantees_hold (proof : dict) : Prop :=
  exists g,
    dict_get "security_guarantees" proof = Some (VDict g)
    /\ py_truthy (dict_get_none "zero_knowledge" g) = true
    /\ py_truthy (dict_get_none "post_quantum_secure" g) = true
    /\ py_truthy (dict_get_none "information_theoretic_security" g) = true
    /\ py_truthy (dict_get_none "long_term_secure" g) = true.

(** The checks of the 256-bit verifier that come before the bounds. *)
Definition ultra_earlier_checks_pass
    (self : UltraSecureQuantumZKP.t) (proof : dict) : Prop :=
  ultra_signature_present proof
  /\ py_eq_int (dict_get_none "security_level" proof)
       (UltraSecureQuantumZKP.security_level self) = true
  /\ ultra_guarantees_hold proof.

(* ================================================================= *)
(** ** Vocabulary for the counting loop, the published fields and the
       fields a verifier reads *)

(** One turn of the loop that counts bitstrings: the count of [b] goes up
    by one, from zero when [b] is new. *)
Definition count_one (b : string) (c : counts) : counts :=
  let c1 := match counts_get b c with
            | None => counts_set b 0 c
            | Some _ => c
            end in
  counts_set b ((match counts_get b c1 with Some n => n | None => 0 end) + 1) c1.

(** [c.get(k, 0)] *)
Definition count_of (k : string) (c : counts) : Z :=
  match counts_get k c with Some n => n | None => 0 end.

(** What a reader of the two published fields [hash_sha256] and [dimension]
    can compute without the secret bytes: the digest is read back from its
    hexadecimal text and goes through the byte-pair map, the padding and the
    normalization. *)
Definition state_from_published (hash_sha256 dimension : value) : vector :=
  match hash_sha256, dimension with
  | VStr hex, VInt d =>
      match bytes_fromhex hex with
      | Some digest =>
          np_normalize
            (firstn (Z.to_nat d)
               (map EncoderSpec.amplitude (EncoderSpec.byte_pairs digest)
                ++ repeat (0%float, 0%float) (Z.to_nat d)))
      | None => []
      end
  | _, _ => []
  end.

(** The same from a proof record of the bytes variant. *)
Definition state_from_proof (proof : dict) : vector :=
  match dict_get "bytes_metadata" proof, dict_get "quantum_state_metadata" proof with
  | Some (VDict b), Some (VDict q) =>
      state_from_published (dict_get_none "hash_sha256" b) (dict_get_none "dimension" q)
  | _, _ => []
  end.

(** The fields of a proof that [verify_secure_proof] reads. *)
Definition secure_checked_fields : list string :=
  [ "signature"; "quantum_dimensions"; "entanglement_bound"; "coherence_bound";
    "execution_metadata" ].

(** Values that an f-string formats whatever the interpreter's settings:
    [None], a [bool], a [float], a [str], and an [int] of at most 4300
    digits (from CPython 3.11 on, [str] refuses longer ones).  Lists and
    dictionaries are left out. *)
Definition formats_safely (v : value) : bool :=
  match v with
  | VNone | VBool _ | VFloat _ | VStr _ => true
  | VInt z => Z.abs z <? 10 ^ 4300
  | VList _ | VDict _ => false
  end.

(** The [security_level] entry of a proof, which the 256-bit verifier
    formats in its report lines, is absent or formats safely. *)
Definition level_formats (proof : dict) : bool :=
  match dict_get "security_level" proof with
  | None => true
  | Some v => formats_safely v
  end.

(** [execution_metadata] is a dictionary with a [job_id] and a [backend]
    that test true. *)
Definition evidence_present (proof : dict) : Prop :=
  exists m,
    dict_get "execution_metadata" proof = Some (VDict m)
    /\ py_truthy (dict_get_none "job_id" m) = true
    /\ py_truthy (dict_get_none "backend" m) = true.

(* ================================================================= *)
(** ** Data for the worked examples *)

Fixpoint frac_digits (fuel : nat) (num den : Z) : string :=
  match fuel with
  | O => EmptyString
  | S fuel' =>
      if num =? 0 then EmptyString
      else String (hex_digit (num * 10 / den))
                  (frac_digits fuel' (num * 10 mod den) den)
  end.

(** The exact decimal expansion of a float, with at least one digit after
    the point.  It is what [repr] prints for a float between [1e-4] and [1e16]
    in magnitude whose expansion has at most 15 significant digits, which
    covers every float of the worked examples. *)
Definition decimal_repr (x : float) : string :=
  match Prim2SF x with
  | S754_zero s => if s then "-0.0" else "0.0"
  | S754_infinity s => if s then "-inf" else "inf"
  | S754_nan => "nan"
  | S754_finite s m e =>
      let sign := if s then "-" else "" in
      if 0 <=? e then sign +++ str_of_Z (Z.pos m * 2 ^ e) +++ ".0"
      else
        let den := 2 ^ (- e) in
        let fr := frac_digits (Z.to_nat (- e)) (Z.pos m mod den) den in
        sign +++ str_of_Z (Z.pos m / den) +++ "."
             +++ (if String.eqb fr "" then "0" else fr)
  end.

(** The runtime used to run the model on concrete data: [np.log2] is given
    on the powers of two, where it is exact. *)
Definition example_runtime : PyRuntime :=
  {| float_repr := decimal_repr;
     np_log2 := fun n => float_of_Z (Z.log2 n) |}.

(** [np.array([1/np.sqrt(2), 0, 0, 1/np.sqrt(2)], dtype=complex)] *)
Definition bell_state : vector :=
  let a := PrimFloat.div 1%float (PrimFloat.sqrt 2%float) in
  [ (a, 0%float); (0%float, 0%float); (0%float, 0%float); (a, 0%float) ].

(** [np.zeros(4, dtype=complex)] *)
Definition zero_state : vector :=
  [ (0%float, 0%float); (0%float, 0%float); (0%float, 0%float); (0%float, 0%float) ].

Definition example_counts : counts :=
  [("00", 480); ("11", 470); ("01", 30); ("10", 20)].

(** A job whose result offers [data.meas.get_counts()]. *)
Definition example_job : job :=
  {| job_id := "d0qzkp7c9examplejob0";
     backend_name := "ibm_brisbane";
     execution_time := 12.5%float;
     circuit_depth := 7;
     job_data := {| data_meas := Some (Ok example_counts);
                    data_c := None;
                    data_get_bitstrings := Raise AttributeError |};
     finished_at := 1700000012.5%float |}.

(** A job whose result has [data.meas], but [get_counts()] on it raises. *)
Definition unreadable_job : job :=
  {| job_id := "d0qzkp7c9examplejob1";
     backend_name := "ibm_brisbane";
     execution_time := 12.5%float;
     circuit_depth := 7;
     job_data := {| data_meas := Some (Raise AttributeError);
                    data_c := None;
                    data_get_bitstrings := Raise AttributeError |};
     finished_at := 1700000012.5%float |}.

Definition nonce32 : bytes := "0123456789abcdef0123456789abcdef".
Definition nonce32' : bytes := "fedcba9876543210fedcba9876543210".
Definition nonce64 : bytes := nonce32 +++ nonce32'.

Definition secure_zkp : SecureQuantumZKP.t :=
  {| SecureQuantumZKP.dimensions := 4;
     SecureQuantumZKP.security_level := 128;
     SecureQuantumZKP.shots := 1000 |}.

Definition secure_env (run : result job) : SecureQuantumZKP.env :=
  {| SecureQuantumZKP.state_nonce := nonce32;
     SecureQuantumZKP.backend_run := run;
     SecureQuantumZKP.commit_hash_time := 1700000013.25%float;
     SecureQuantumZKP.commit_time := 1700000013.5%float;
     SecureQuantumZKP.proof_time := 1700000014%float |}.

Definition ultra_zkp : UltraSecureQuantumZKP.t :=
  {| UltraSecureQuantumZKP.dimensions := 4;
     UltraSecureQuantumZKP.security_level := 256;
     UltraSecureQuantumZKP.shots := 1000 |}.

Definition ultra_env (run : result job) (sign_nonce : bytes)
  : UltraSecureQuantumZKP.env :=
  {| UltraSecureQuantumZKP.state_nonce := nonce64;
     UltraSecureQuantumZKP.state_time_ns := 1700000011000000001;
     UltraSecureQuantumZKP.backend_run := run;
     UltraSecureQuantumZKP.commit_hash_time_ns := 1700000013000000002;
     UltraSecureQuantumZKP.commit_nonce := nonce32';
     UltraSecureQuantumZKP.commit_time_ns := 1700000013000000003;
     UltraSecureQuantumZKP.proof_time := 1700000014%float;
     UltraSecureQuantumZKP.sign_nonce := sign_nonce |}.



(** A prover configured for a 64-bit level. *)
Definition secure_zkp_64 : SecureQuantumZKP.t :=
  {| SecureQuantumZKP.dimensions := 4;
     SecureQuantumZKP.security_level := 64;
     SecureQuantumZKP.shots := 1000 |}.

(** Runs of the provers on the Bell state. *)
Definition secure_run (self : SecureQuantumZKP.t) (j : job) : result (dict * dict) :=
  @SecureQuantumZKP.secure_prove_vector_knowledge example_runtime
    self bell_state "secure-bell-state-test" (secure_env (Ok j)).

Definition ultra_run (j : job) (sign_nonce : bytes) : result (dict * dict) :=
  @UltraSecureQuantumZKP.ultra_secure_prove_vector_knowledge example_runtime
    ultra_zkp bell_state "ultra-secure-bell-state-256bit"
    (ultra_env (Ok j) sign_nonce).

(** The commitment and the signed proof of the 256-bit run. *)
Definition ultra_commitment : dict :=
  match ultra_run example_job nonce32 with
  | Ok (c, _) => c
  | Raise _ => []
  end.

Definition ultra_signed_proof : dict :=
  match ultra_run example_job nonce32 with
  | Ok (_, p) => p
  | Raise _ => []
  end.

(** Two small records with the same fields in another order. *)
Definition record_ab : dict := [ ("alpha", VInt 1); ("beta", VStr "x") ].
Definition record_ba : dict := [ ("beta", VStr "x"); ("alpha", VInt 1) ].
Definition record_c : dict := [ ("hash", VStr "00ff") ].

(** Ways of altering a signed proof. *)
Definition forged_metadata : value :=
  VDict [ ("job_id", VStr "forged-job-id");
          ("backend", VStr "ibm_brisbane");
          ("execution_time", VFloat 12.5%float);
          ("circuit_depth", VInt 7);
          ("shots", VInt 1000);
          ("security_level", VInt 256) ].

(** [BytesToQuantumStateConverter(1)], and bytes whose digest begins with
    the two bytes 0x80, 0x80. *)
Definition scalar_converter : BytesToQuantumStateConverter.t :=
  {| BytesToQuantumStateConverter.target_dimension := 1;
     BytesToQuantumStateConverter.num_qubits := 0 |}.

Definition example_zero_amplitude : bytes := "secret-58745".

(** [np.array([1, 0, 0, 0], dtype=complex)] *)
Definition basis_state : vector :=
  [ (1%float, 0%float); (0%float, 0%float); (0%float, 0%float); (0%float, 0%float) ].

(** [np.array([2.0**600], dtype=complex)]: one entry, whose square is
    beyond the largest float. *)
Definition overflowing_state : vector := [ (0x1p600%float, 0%float) ].

(** A store holding a commitment at address 0, the execution metadata of a
    proof at address 1 and the proof at address 2. *)
Definition example_heap : Store.heap :=
  [ Store.ODict [ ("hash", Store.SStr "8c04a87506239d4961ce33309c680e0b");
                  ("dimension", Store.SInt 4);
                  ("timestamp", Store.SFloat 1700000013.5%float) ];
    Store.ODict [ ("job_id", Store.SStr "d0qzkp7c9examplejob0");
                  ("backend", Store.SStr "ibm_brisbane") ];
    Store.ODict [ ("quantum_dimensions", Store.SInt 4);
                  ("security_level", Store.SInt 128);
                  ("entanglement_bound", Store.SFloat 1%float);
                  ("coherence_bound", Store.SFloat 4%float);
                  ("execution_metadata", Store.SRef 1%nat);
                  ("signature", Store.SStr "00ff") ] ].

(** The commitment and the signed proof of the 128-bit run. *)
Definition secure_commitment : dict :=
  match secure_run secure_zkp example_job with
  | Ok (c, _) => c
  | Raise _ => []
  end.

Definition secure_signed_proof : dict :=
  match secure_run secure_zkp example_job with
  | Ok (_, p) => p
  | Raise _ => []
  end.

(** A verifier configured for eight dimensions. *)
Definition secure_zkp_8 : SecureQuantumZKP.t :=
  {| SecureQuantumZKP.dimensions := 8;
     SecureQuantumZKP.security_level := 128;
     SecureQuantumZKP.shots := 1000 |}.

(** A job whose result offers neither [data.meas] nor [data.c]: six shots
    read as bitstrings. *)
Definition example_bitstrings : list string :=
  ["00"; "11"; "00"; "01"; "11"; "10"].

Definition bitstring_job : job :=
  job_with_data example_job
    {| data_meas := None;
       data_c := None;
       data_get_bitstrings := Ok example_bitstrings |}.

(** Two byte strings whose SHA-256 digests both begin [b6 5a ba c7]. *)
Definition example_collision_a : bytes := "secret-36533".
Definition example_collision_b : bytes := "secret-103289".

(** [BytesToQuantumStateConverter(2)] and [BytesToQuantumStateConverter(32)] *)
Definition one_qubit_converter : BytesToQuantumStateConverter.t :=
  {| BytesToQuantumStateConverter.target_dimension := 2;
     BytesToQuantumStateConverter.num_qubits := 1 |}.

Definition five_qubit_converter : BytesToQuantumStateConverter.t :=
  {| BytesToQuantumStateConverter.target_dimension := 32;
     BytesToQuantumStateConverter.num_qubits := 5 |}.

(** A [str] for the worked examples: exact on strings, integers, booleans
    and [None], which is all they pass to it. *)
Definition example_str_text (v : value) : string :=
  match v with
  | VStr s => s
  | VInt z => str_of_Z z
  | VBool b => if b then "True" else "False"
  | _ => "None"
  end.

Definition example_str : PyStr :=
  {| py_str := example_str_text; py_str_str := fun s => eq_refl |}.

Definition bytes_zkp : UltraSecureBytesQZKP.t :=
  {| UltraSecureBytesQZKP.security_level := 256 |}.

Definition bytes_env (run : result job) : UltraSecureBytesQZKP.env :=
  {| UltraSecureBytesQZKP.backend_run := run;
     UltraSecureBytesQZKP.commit_nonce := nonce32;
     UltraSecureBytesQZKP.commit_time_ns := 1700000013000000003;
     UltraSecureBytesQZKP.proof_time := 1700000014%float;
     UltraSecureBytesQZKP.sign_nonce := nonce32' |}.

(** The values held by the commitment and by the proof of [example_heap]. *)
Definition example_heap_commitment : dict :=
  [ ("hash", VStr "8c04a87506239d4961ce33309c680e0b");
    ("dimension", VInt 4);
    ("timestamp", VFloat 1700000013.5%float) ].

Definition example_heap_proof : dict :=
  [ ("quantum_dimensions", VInt 4);
    ("security_level", VInt 128);
    ("entanglement_bound", VFloat 1%float);
    ("coherence_bound", VFloat 4%float);
    ("execution_metadata",
      VDict [ ("job_id", VStr "d0qzkp7c9examplejob0");
              ("backend", VStr "ibm_brisbane") ]);
    ("signature", VStr "00ff") ].

(* ================================================================= *)
(** * Properties *)

(** ** The hash model against the published test vectors *)

Example sha256_constants :
  nth 0 SHA256.K 0 = 0x428a2f98
  /\ nth 63 SHA256.K 0 = 0xc67178f2
  /\ SHA256.ra SHA256.H0 = 0x6a09e667
  /\ SHA256.rh SHA256.H0 = 0x5be0cd19.
Proof. repeat split; reflexivity. Qed.

Example sha256_empty :
  SHA256.hexdigest "" =
  "e3b0c44298fc1c149afbf4c8996fb92427ae41e4649b934ca495991b7852b855".
Proof. vm_compute. reflexivity. Qed.

Example sha256_abc :
  SHA256.hexdigest "abc" =
  "ba7816bf8f01cfea414140de5dae2223b00361a396177a9cb410ff61f20015ad".
Proof. vm_compute. reflexivity. Qed.

Example sha256_two_blocks :
  SHA256.hexdigest "abcdbcdecdefdefgefghfghighijhijkijkljklmklmnlmnomnopnopq" =
  "248d6a61d20638b8e5c026930c3e6039a33ce45964ff2167f6ecedd419db06c1".
Proof. vm_compute. reflexivity. Qed.

(** ** The serializer on a small record *)

Example json_dumps_sorted :
  json_dumps (fun _ => "1.0")
    (VDict [("b", VInt 2); ("a", VDict [("z", VNone); ("y", VBool true)]);
            ("c", VList [VFloat 1; VStr ("q" +++ dquote)])]) =
  "{" +++ dquote +++ "a" +++ dquote +++ ": {" +++ dquote +++ "y" +++ dquote
      +++ ": true, " +++ dquote +++ "z" +++ dquote +++ ": null}, "
      +++ dquote +++ "b" +++ dquote +++ ": 2, " +++ dquote +++ "c" +++ dquote
      +++ ": [1.0, " +++ dquote +++ "q\" +++ dquote +++ dquote +++ "]}".
Proof. vm_compute. reflexivity. Qed.

(* ================================================================= *)
(** ** Strings, prefixes and the shape of a digest *)

Lemma append_length (a b : string) :
  String.length (a +++ b) = (String.length a + String.length b)%nat.
Proof.
  induction a as [|c a IH]; simpl; [reflexivity|now rewrite IH].
Qed.

Lemma append_assoc (a b c : string) : (a +++ b) +++ c = a +++ b +++ c.
Proof.
  induction a as [|x a IH]; simpl; [reflexivity|now rewrite IH].
Qed.

Lemma substring_0_length (n : nat) (s : string) :
  String.length (substring 0 n s) = Nat.min n (String.length s).
Proof.
  revert s; induction n as [|n IH]; intros [|c s]; simpl; try reflexivity.
  now rewrite IH.
Qed.

Lemma py_prefix_length (n : Z) (s : string) :
  0 <= n <= Z.of_nat (String.length s) ->
  Z.of_nat (String.length (py_prefix n s)) = n.
Proof.
  intros Hn; unfold py_prefix; rewrite substring_0_length; lia.
Qed.

Lemma hex_of_list_length (l : list Z) :
  String.length (hex_of_list l) = (2 * List.length l)%nat.
Proof.
  induction l as [|b l IH]; simpl; [reflexivity|rewrite IH; lia].
Qed.

Lemma digest_list_length (m : bytes) :
  List.length (SHA256.digest_list m) = 32%nat.
Proof. reflexivity. Qed.

Lemma hexdigest_length (m : bytes) :
  String.length (SHA256.hexdigest m) = 64%nat.
Proof.
  unfold SHA256.hexdigest; now rewrite hex_of_list_length, digest_list_length.
Qed.

Lemma digest_list_bytes (m : bytes) :
  Forall (fun b => 0 <= b < 256) (SHA256.digest_list m).
Proof.
  unfold SHA256.digest_list, SHA256.regs_bytes, SHA256.word_bytes.
  repeat (apply Forall_cons || apply Forall_app || split);
    try apply Forall_nil; apply Z.mod_pos_bound; reflexivity.
Qed.

Lemma hex_value_digit (x : Z) : 0 <= x < 16 -> hex_value (hex_digit x) = Some x.
Proof.
  intros Hx.
  assert (forallb (fun n => match hex_value (hex_digit (Z.of_nat n)) with
                            | Some y => y =? Z.of_nat n
                            | None => false
                            end) (seq 0 16) = true) as Hall by (vm_compute; reflexivity).
  rewrite forallb_forall in Hall.
  specialize (Hall (Z.to_nat x)); rewrite Z2Nat.id in Hall by lia.
  destruct (hex_value (hex_digit x)) as [y|].
  - f_equal; apply Z.eqb_eq, Hall, in_seq; lia.
  - discriminate Hall; apply in_seq; lia.
Qed.

(** Reading back the hexadecimal text of a byte sequence. *)
Lemma bytes_fromhex_hex (l : list Z) :
  Forall (fun b => 0 <= b < 256) l -> bytes_fromhex (hex_of_list l) = Some l.
Proof.
  induction 1 as [|b l Hb _ IH]; [reflexivity|].
  cbn [hex_of_list hex_byte String.append bytes_fromhex].
  rewrite !hex_value_digit, IH by (apply Z.mod_pos_bound; lia).
  do 2 f_equal. Z.to_euclidean_division_equations; lia.
Qed.

Lemma bytes_fromhex_hexdigest (m : bytes) :
  bytes_fromhex (SHA256.hexdigest m) = Some (SHA256.digest_list m).
Proof. apply bytes_fromhex_hex, digest_list_bytes. Qed.

Lemma hexdigest_nonempty (m : bytes) : (SHA256.hexdigest m =? "")%string = false.
Proof.
  apply String.eqb_neq; intros E.
  pose proof (hexdigest_length m) as L; rewrite E in L; discriminate.
Qed.

(** From here on the hash is used through the facts above only. *)
Opaque SHA256.hexdigest SHA256.digest_list SHA256.digest.

Lemma string_leb_trans (a b c : string) :
  String.leb a b = true -> String.leb b c = true -> String.leb a c = true.
Proof.
  unfold String.leb; revert b c.
  induction a as [|x a IH]; intros [|y b] [|z c]; simpl; try congruence.
  unfold Ascii.compare.
  destruct (N.compare_spec (N_of_ascii x) (N_of_ascii y)) as [Hxy|Hxy|Hxy];
    destruct (N.compare_spec (N_of_ascii y) (N_of_ascii z)) as [Hyz|Hyz|Hyz];
    destruct (N.compare_spec (N_of_ascii x) (N_of_ascii z)) as [Hxz|Hxz|Hxz];
    try congruence; try lia; auto.
  apply IH.
Qed.

Lemma string_leb_refl (a : string) : String.leb a a = true.
Proof.
  destruct (String.leb_total a a); assumption.
Qed.

(* ================================================================= *)
(** ** Bounds are ceilings computed from the dimension *)

Lemma int_log2_pow2 (k : nat) : int_log2 (2 ^ Z.of_nat k) = Z.of_nat k.
Proof. unfold int_log2; apply Z.log2_pow2; lia. Qed.

Lemma entanglement_ceiling (k : nat) :
  SecureQuantumStateVector._calculate_entanglement_bound (2 ^ Z.of_nat k)
  = float_of_Z (Z.max 0 (Z.of_nat k - 1)).
Proof.
  unfold SecureQuantumStateVector._calculate_entanglement_bound.
  rewrite int_log2_pow2.
  destruct (Z.ltb_spec (Z.of_nat k) 2) as [Hlt|Hge].
  - rewrite Z.max_l by lia; reflexivity.
  - rewrite Z.max_r by lia; reflexivity.
Qed.

Lemma ultra_bounds_agree (d : Z) :
  UltraSecureQuantumStateVector._calculate_entanglement_bound d
  = SecureQuantumStateVector._calculate_entanglement_bound d
  /\ UltraSecureQuantumStateVector._calculate_coherence_bound d
     = SecureQuantumStateVector._calculate_coherence_bound d.
Proof. split; reflexivity. Qed.

Lemma len_pow2_nonzero {A} (v : list A) (k : nat) :
  len v = 2 ^ Z.of_nat k -> (len v =? 0) = false.
Proof.
  intros H; apply Z.eqb_neq; rewrite H.
  apply Z.pow_nonzero; lia.
Qed.

(** C6.  For a state of dimension [2^k] the record holds the entanglement
    bound [max(0, k - 1)] and the coherence bound [2^k], as floats; two states
    of the same dimension get identical bounds whatever their coordinates and
    nonces; and dimension 4 gives 1.0 and 4.0.  Both state-vector classes. *)
Theorem bounds_depend_on_dimension_only
    (k : nat) (v1 v2 : vector) (n1 n2 m1 m2 : bytes) (t1 t2 : Z) :
  len v1 = 2 ^ Z.of_nat k ->
  len v2 = 2 ^ Z.of_nat k ->
  (exists r1 r2,
      SecureQuantumStateVector.__init__ v1 n1 = Ok r1
      /\ SecureQuantumStateVector.__init__ v2 n2 = Ok r2
      /\ SecureQuantumStateVector.entanglement_bound r1
         = float_of_Z (Z.max 0 (Z.of_nat k - 1))
      /\ SecureQuantumStateVector.coherence_bound r1 = float_of_Z (2 ^ Z.of_nat k)
      /\ SecureQuantumStateVector.entanglement_bound r2
         = SecureQuantumStateVector.entanglement_bound r1
      /\ SecureQuantumStateVector.coherence_bound r2
         = SecureQuantumStateVector.coherence_bound r1
      /\ (k = 2%nat ->
          SecureQuantumStateVector.entanglement_bound r1 = 1%float
          /\ SecureQuantumStateVector.coherence_bound r1 = 4%float))
  /\ (exists u1 u2,
      UltraSecureQuantumStateVector.__init__ v1 m1 t1 = Ok u1
      /\ UltraSecureQuantumStateVector.__init__ v2 m2 t2 = Ok u2
      /\ UltraSecureQuantumStateVector.entanglement_bound u1
         = float_of_Z (Z.max 0 (Z.of_nat k - 1))
      /\ UltraSecureQuantumStateVector.coherence_bound u1
         = float_of_Z (2 ^ Z.of_nat k)
      /\ UltraSecureQuantumStateVector.entanglement_bound u2
         = UltraSecureQuantumStateVector.entanglement_bound u1
      /\ UltraSecureQuantumStateVector.coherence_bound u2
         = UltraSecureQuantumStateVector.coherence_bound u1
      /\ (k = 2%nat ->
          UltraSecureQuantumStateVector.entanglement_bound u1 = 1%float
          /\ UltraSecureQuantumStateVector.coherence_bound u1 = 4%float)).
Proof.
  intros H1 H2.
  pose proof (len_pow2_nonzero v1 k H1) as E1.
  pose proof (len_pow2_nonzero v2 k H2) as E2.
  split.
  - unfold SecureQuantumStateVector.__init__; rewrite E1, E2.
    eexists; eexists; split; [reflexivity|]; split; [reflexivity|]; cbn.
    rewrite H1, H2, entanglement_ceiling.
    repeat split; try reflexivity; subst k; reflexivity.
  - unfold UltraSecureQuantumStateVector.__init__; rewrite E1, E2.
    eexists; eexists; split; [reflexivity|]; split; [reflexivity|]; cbn.
    rewrite H1, H2.
    destruct (ultra_bounds_agree (2 ^ Z.of_nat k)) as [-> _].
    rewrite entanglement_ceiling.
    repeat split; try reflexivity; subst k; reflexivity.
Qed.

(** The bounds of the Bell state and of the all-zero vector of the same
    length coincide. *)
Lemma bounds_depend_on_dimension_only_witness :
  len bell_state = 2 ^ Z.of_nat 2
  /\ len zero_state = 2 ^ Z.of_nat 2
  /\ (exists r1 r2,
      SecureQuantumStateVector.__init__ bell_state nonce32 = Ok r1
      /\ SecureQuantumStateVector.__init__ zero_state nonce32' = Ok r2
      /\ SecureQuantumStateVector.entanglement_bound r2
         = SecureQuantumStateVector.entanglement_bound r1
      /\ SecureQuantumStateVector.entanglement_bound r1 = 1%float
      /\ SecureQuantumStateVector.coherence_bound r1 = 4%float).
Proof.
  split; [reflexivity|]; split; [reflexivity|].
  destruct (bounds_depend_on_dimension_only 2 bell_state zero_state
              nonce32 nonce32' nonce64 nonce64 1 2 eq_refl eq_refl)
    as [(r1 & r2 & I1 & I2 & _ & _ & E & _ & F) _].
  exists r1, r2.
  destruct (F eq_refl) as [F1 F2].
  repeat split; assumption.
Defined.

(* ================================================================= *)
(** ** Measurement statistics disclose aggregates only *)

Lemma fold_left_add_acc (l : list Z) (a : Z) :
  fold_left Z.add l a = a + fold_left Z.add l 0.
Proof.
  revert a; induction l as [|x l IH]; intros a; cbn; [lia|].
  rewrite (IH (a + x)), (IH x); lia.
Qed.

Lemma counts_total_cons (k : string) (n : Z) (c : counts) :
  counts_total ((k, n) :: c) = n + counts_total c.
Proof. unfold counts_total; cbn; apply fold_left_add_acc. Qed.


Section Statistics.
Context {RT : PyRuntime}.






End Statistics.

(* ================================================================= *)
(** ** Verification leaves the objects it is given untouched *)

Module StoreFacts.
Import Store.

Lemma frames_weaken {A} lo (Q : A -> Prop) (m : M A) :
  frames lo Q m -> frames lo anything m.
Proof.
  intros H h Hh; destruct (H h Hh) as (F & L & _); repeat split; assumption.
Qed.

Lemma frames_ret {A} lo (a : A) : frames lo anything (ret a).
Proof. intros h _; cbn; repeat split; auto. Qed.

Lemma frames_raise {A} lo e : frames lo anything (@raise A e).
Proof. intros h _; cbn; repeat split; auto. Qed.

Lemma frames_reading {A} lo (f : heap -> result A) : frames lo anything (reading f).
Proof. intros h _; cbn; repeat split; auto. Qed.

Lemma frames_bind {A B} lo (Q : A -> Prop) (m : M A) (k : A -> M B) :
  frames lo Q m ->
  (forall a, Q a -> frames lo anything (k a)) ->
  frames lo anything (bindM m k).
Proof.
  intros Hm Hk h Hh; unfold bindM.
  destruct (Hm h Hh) as (F & L & P).
  destruct (m h) as [[a|e] h1]; cbn in *.
  - destruct (Hk a (P a eq_refl) h1 ltac:(lia)) as (F' & L' & _).
    repeat split; [congruence|lia].
  - repeat split; assumption.
Qed.

Lemma firstn_app_le {A} (n : nat) (l l' : list A) :
  (n <= List.length l)%nat -> firstn n (l ++ l') = firstn n l.
Proof.
  intros H; rewrite firstn_app.
  replace (n - List.length l)%nat with 0%nat by lia.
  cbn; apply app_nil_r.
Qed.

Lemma store_length a o (h : heap) : List.length (store a o h) = List.length h.
Proof.
  revert a; induction h as [|x h IH]; intros [|a]; cbn; auto.
Qed.

Lemma firstn_store lo a o (h : heap) :
  (lo <= a)%nat -> firstn lo (store a o h) = firstn lo h.
Proof.
  revert lo a; induction h as [|x h IH]; intros [|lo] [|a] H; cbn; auto; try lia.
  f_equal; apply IH; lia.
Qed.

(** A copy lands beyond every object that was there. *)
Lemma frames_obj_copy lo a : frames lo (fun t => (lo <= t)%nat) (obj_copy a).
Proof.
  intros h Hh; unfold obj_copy, alloc.
  destruct (load a h); cbn.
  - rewrite firstn_app_le, length_app by lia.
    repeat split; [lia|]. intros t [= <-]; lia.
  - repeat split; auto; discriminate.
Qed.

(** Removing a key writes to the popped dictionary only. *)
Lemma frames_dict_pop lo a k : (lo <= a)%nat -> frames lo anything (dict_pop a k).
Proof.
  intros Ha h Hh; unfold dict_pop.
  destruct (load a h) as [[d|l]|]; cbn; try (repeat split; auto; fail).
  destruct (slot_get k d); cbn; try (repeat split; auto; fail).
  rewrite firstn_store, store_length by lia; repeat split; auto.
Qed.

Lemma frames_dict_pop_default lo a k dflt :
  (lo <= a)%nat -> frames lo anything (dict_pop_default a k dflt).
Proof.
  intros Ha h Hh; unfold dict_pop_default.
  destruct (load a h) as [[d|l]|]; cbn; try (repeat split; auto; fail).
  destruct (slot_get k d); cbn; try (repeat split; auto; fail).
  rewrite firstn_store, store_length by lia; repeat split; auto.
Qed.

Lemma frames_dict_get_default_empty lo a k :
  frames lo anything (dict_get_default_empty a k).
Proof.
  intros h Hh; unfold dict_get_default_empty.
  destruct (load a h) as [[d|l]|]; cbn; try (repeat split; auto; fail).
  destruct (slot_get k d); cbn; try (repeat split; auto; fail).
  rewrite firstn_app_le, length_app by lia; repeat split; auto; lia.
Qed.

Lemma frames_slot_get_none lo v k : frames lo anything (slot_get_none v k).
Proof.
  destruct v; cbn; try apply frames_raise; apply frames_reading.
Qed.

(** One step of a frame argument, by the shape of the computation. *)
Ltac frame_step :=
  lazymatch goal with
  | |- frames _ _ (bindM (obj_copy _) _) =>
      eapply frames_bind; [apply frames_obj_copy|intros ? ?]
  | |- frames _ _ (bindM _ _) => eapply frames_bind; [|intros ? _]
  | |- frames _ _ (ret _) => apply frames_ret
  | |- frames _ _ (raise _) => apply frames_raise
  | |- frames _ _ (reading _) => apply frames_reading
  | |- frames _ _ (view _) => apply frames_reading
  | |- frames _ _ (dict_getitem _ _) => apply frames_reading
  | |- frames _ _ (dict_get_none _ _) => apply frames_reading
  | |- frames _ _ (_sign_secure_proof _ _) => apply frames_reading
  | |- frames _ _ (slot_get_none _ _) => apply frames_slot_get_none
  | |- frames _ _ (dict_get_default_empty _ _) => apply frames_dict_get_default_empty
  | |- frames _ _ (dict_pop _ _) => apply frames_dict_pop; assumption
  | |- frames _ _ (dict_pop_default _ _ _) =>
      apply frames_dict_pop_default; assumption
  | |- frames _ _ (if ?b then _ else _) => destruct b
  end.

Section WithRuntime.
Context {RT : PyRuntime}.

Lemma frames_verify_secure_proof lo self commitment proof :
  frames lo anything (verify_secure_proof self commitment proof).
Proof. unfold verify_secure_proof; repeat frame_step. Qed.

Lemma frames_verify_ultra_secure_proof lo self commitment proof :
  frames lo anything (verify_ultra_secure_proof self commitment proof).
Proof. unfold verify_ultra_secure_proof; repeat frame_step. Qed.

End WithRuntime.

End StoreFacts.

Section Frame.
Context {RT : PyRuntime}.

(** C10.  Whatever the store, the addresses handed in and the outcome
    (accepted, rejected or an exception), every object that existed before the
    call is the same after it: in particular the proof dictionary, with its
    signature, and the commitment dictionary.  The store can only have grown
    by the verifier's own temporaries.  Both verifiers. *)
Theorem verification_leaves_its_inputs_unchanged
    (self : SecureQuantumZKP.t) (uself : UltraSecureQuantumZKP.t)
    (commitment proof : Store.addr) (h : Store.heap) :
  let h1 := snd (Store.verify_secure_proof self commitment proof h) in
  let h2 := snd (Store.verify_ultra_secure_proof uself commitment proof h) in
  firstn (List.length h) h1 = h
  /\ firstn (List.length h) h2 = h
  /\ (forall a o, Store.load a h = Some o ->
        Store.load a h1 = Some o /\ Store.load a h2 = Some o).
Proof.
  intros h1 h2.
  destruct (StoreFacts.frames_verify_secure_proof
              (List.length h) self commitment proof h (le_n _)) as (F1 & _ & _).
  destruct (StoreFacts.frames_verify_ultra_secure_proof
              (List.length h) uself commitment proof h (le_n _)) as (F2 & _ & _).
  rewrite firstn_all in F1, F2.
  fold h1 in F1; fold h2 in F2.
  split; [exact F1|]; split; [exact F2|].
  intros a o Ha; unfold Store.load in *.
  assert (a < List.length h)%nat as Hlt
    by (apply nth_error_Some; congruence).
  rewrite <- F1 in Ha at 1.
  split.
  - rewrite nth_error_firstn in Ha.
    destruct (Nat.ltb_spec a (List.length h)); [exact Ha|lia].
  - pose proof Ha as Hb.
    rewrite F1 in Hb. rewrite <- F2 in Hb at 1.
    rewrite nth_error_firstn in Hb.
    destruct (Nat.ltb_spec a (List.length h)); [|lia].
    rewrite nth_error_firstn in Ha.
    destruct (Nat.ltb_spec a (List.length h)); [|lia].
    congruence.
Qed.

End Frame.

(* ================================================================= *)
(** ** The store verifiers compute the verdicts of the pure ones *)

Module StoreRefinement.

(* The operations on dictionary values, before [Store]'s take their names. *)
Local Abbreviation pure_dict_get_none := dict_get_none.
Local Abbreviation pure_dict_getitem := dict_getitem.
Local Abbreviation pure_dict_pop := dict_pop.
Local Abbreviation pure_dict_pop_default := dict_pop_default.

Import Store.

Lemma surface_truthy v : py_truthy (surface v) = py_truthy v.
Proof. destruct v as [| | | | |[|]|[|]]; reflexivity. Qed.
Lemma surface_lt0 v : py_lt0 (surface v) = py_lt0 v.
Proof. destruct v; reflexivity. Qed.
Lemma surface_eq_int v z : py_eq_int (surface v) z = py_eq_int v z.
Proof. destruct v; reflexivity. Qed.
Lemma surface_eq_str v s : py_eq_str (surface v) s = py_eq_str v s.
Proof. destruct v; reflexivity. Qed.

Lemma mapM_option_ext {A B} (f g : A -> option B) (l : list A) (ys : list B) :
  (forall x y, In x l -> f x = Some y -> g x = Some y) ->
  mapM_option f l = Some ys -> mapM_option g l = Some ys.
Proof.
  revert ys; induction l as [|x l IH]; intros ys H; cbn; [auto|].
  destruct (f x) as [y|] eqn:Fx; [|discriminate].
  destruct (mapM_option f l) as [zs|] eqn:Fl; [|discriminate].
  intros [= <-].
  rewrite (H x y (or_introl eq_refl) Fx).
  rewrite (IH zs); auto.
  intros x' y' Hin; apply H; right; exact Hin.
Qed.

Lemma mapM_option_length {A B} (f : A -> option B) (l : list A) (ys : list B) :
  mapM_option f l = Some ys -> List.length ys = List.length l.
Proof.
  revert ys; induction l as [|x l IH]; intros ys; cbn.
  - intros [= <-]; reflexivity.
  - destruct (f x); [|discriminate].
    destruct (mapM_option f l); [|discriminate].
    intros [= <-]; cbn; f_equal; apply IH; reflexivity.
Qed.

Section Entries.
Variable g : slot -> option value.
Let entry (kv : string * slot) := option_map (pair (fst kv)) (g (snd kv)).

Lemma entries_keys d dv :
  mapM_option entry d = Some dv -> map fst dv = map fst d.
Proof.
  revert dv; induction d as [|[k s] d IH]; intros dv; cbn.
  - intros [= <-]; reflexivity.
  - unfold entry at 1; cbn. destruct (g s); cbn; [|discriminate].
    destruct (mapM_option entry d); [|discriminate].
    intros [= <-]; cbn; f_equal; apply IH; reflexivity.
Qed.

Lemma entries_get k d dv :
  mapM_option entry d = Some dv ->
  match slot_get k d with
  | None => dict_get k dv = None
  | Some s => exists v, g s = Some v /\ dict_get k dv = Some v
  end.
Proof.
  revert dv; induction d as [|[k' s] d IH]; intros dv; cbn.
  - intros [= <-]; reflexivity.
  - unfold entry at 1; cbn. destruct (g s) as [v|] eqn:G; cbn; [|discriminate].
    destruct (mapM_option entry d) as [dv'|]; [|discriminate].
    intros [= <-]; cbn.
    destruct (String.eqb k k'); [exists v; auto|apply IH; reflexivity].
Qed.

Lemma entries_remove k d dv :
  mapM_option entry d = Some dv ->
  mapM_option entry (slot_remove k d) = Some (dict_remove k dv).
Proof.
  revert dv; induction d as [|[k' s] d IH]; intros dv; cbn.
  - intros [= <-]; reflexivity.
  - unfold entry at 1; cbn. destruct (g s) as [v|] eqn:G; cbn; [|discriminate].
    destruct (mapM_option entry d) as [dv'|]; [|discriminate].
    intros [= <-]; cbn.
    destruct (String.eqb k k'); [apply IH; reflexivity|].
    cbn; unfold entry at 1; cbn; rewrite G; cbn.
    rewrite (IH dv' eq_refl); reflexivity.
Qed.
End Entries.

Lemma read_mono f : forall f' h h' s v,
  (f <= f')%nat ->
  (forall a, (a < List.length h)%nat -> load a h' = load a h) ->
  read f h s = Some v -> read f' h' s = Some v.
Proof.
  induction f as [|f IH]; intros f' h h' s v Hf Hh; destruct s; cbn;
    try (destruct f'; cbn; congruence); try discriminate.
  destruct f' as [|f']; [lia|]; cbn.
  destruct (load a h) as [o|] eqn:L; [|discriminate].
  assert (a < List.length h)%nat as Ha by (apply nth_error_Some; unfold load in L; congruence).
  rewrite (Hh a Ha), L.
  destruct o as [d|l].
  - destruct (mapM_option _ d) as [dv|] eqn:M; [|discriminate].
    intros [= <-].
    erewrite mapM_option_ext; [reflexivity| |exact M].
    intros [k s] y _; cbn.
    destruct (read f h s) as [w|] eqn:R; [|discriminate].
    intros [= <-]. rewrite (IH f' h h' s w); auto; lia.
  - destruct (mapM_option _ l) as [lv|] eqn:M; [|discriminate].
    intros [= <-].
    erewrite mapM_option_ext; [reflexivity| |exact M].
    intros s y _ R. apply (IH f' h h' s y); auto; lia.
Qed.

Lemma view_surface f h s v :
  read (S f) h s = Some v -> fst (view s h) = Ok (surface v).
Proof.
  destruct s; cbn; try (intros [= <-]; reflexivity).
  destruct (load a h) as [[d|l]|]; [| |discriminate].
  - destruct (mapM_option _ d) as [dv|] eqn:M; [|discriminate].
    intros [= <-]; cbn. do 2 f_equal.
    apply entries_keys in M.
    rewrite <- (map_map fst (fun k => (k, VNone))), <- M, map_map; reflexivity.
  - destruct (mapM_option _ l) as [lv|] eqn:M; [|discriminate].
    intros [= <-]; cbn. do 2 f_equal.
    apply mapM_option_length in M.
    revert lv M; induction l as [|x l IH]; intros [|y lv] M; cbn in *; try discriminate; auto.
    f_equal; apply IH; lia.
Qed.


Lemma load_app_old (h ext : heap) a :
  (a < List.length h)%nat -> load a (h ++ ext) = load a h.
Proof. intros H; unfold load; now rewrite nth_error_app1. Qed.

Lemma load_app_new (h : heap) o : load (List.length h) (h ++ [o]) = Some o.
Proof. unfold load; rewrite nth_error_app2, Nat.sub_diag by lia; reflexivity. Qed.

Lemma load_store_same (h : heap) a o :
  (a < List.length h)%nat -> load a (store a o h) = Some o.
Proof.
  revert a; induction h as [|x h IH]; intros [|a] H; cbn in *; try lia; auto.
  apply IH; lia.
Qed.

Lemma load_store_other (h : heap) a b o :
  a <> b -> load b (store a o h) = load b h.
Proof.
  revert a b; induction h as [|x h IH]; intros [|a] [|b] H; cbn; auto; try congruence.
  apply IH; congruence.
Qed.


(** ** Reading through the store *)



Lemma agree_refl h : agree h h.
Proof. split; [lia|intros a _; reflexivity]. Qed.

Lemma agree_app h h' ext : agree h h' -> agree h (h' ++ ext).
Proof.
  intros [L H]; split; [rewrite length_app; lia|].
  intros a Ha; rewrite <- (H a Ha); apply load_app_old; lia.
Qed.

Lemma agree_store h h' a o :
  agree h h' -> (List.length h <= a)%nat -> agree h (store a o h').
Proof.
  intros [L H] Ha; split; [rewrite StoreFacts.store_length; lia|].
  intros b Hb; rewrite load_store_other by lia; now apply H.
Qed.

Lemma reads_agree h h' s v : agree h h' -> reads h s v -> reads h' s v.
Proof.
  intros [L H] R; unfold reads in *.
  apply (read_mono (S (List.length h)) _ h h'); auto; lia.
Qed.

Lemma reads_ref h a d dv :
  load a h = Some (ODict d) ->
  reads h (SRef a) (VDict dv) ->
  mapM_option
    (fun kv => option_map (pair (fst kv)) (read (List.length h) h (snd kv))) d
  = Some dv.
Proof.
  unfold reads; cbn [read]; intros ->.
  destruct (mapM_option _ d); cbn; congruence.
Qed.

Lemma reads_entry h s v : read (List.length h) h s = Some v -> reads h s v.
Proof.
  intros R; apply (read_mono (List.length h) _ h h); auto; apply agree_refl.
Qed.

Lemma reads_get h a d dv k :
  load a h = Some (ODict d) ->
  reads h (SRef a) (VDict dv) ->
  match slot_get k d with
  | None => dict_get k dv = None
  | Some s => exists v, reads h s v /\ dict_get k dv = Some v
  end.
Proof.
  intros L R.
  pose proof (entries_get _ k d dv (reads_ref h a d dv L R)) as G.
  destruct (slot_get k d); [|exact G].
  destruct G as (v & Rv & E); exists v; split; [now apply reads_entry|exact E].
Qed.

Lemma reads_dict h a dv :
  reads h (SRef a) (VDict dv) -> exists d, load a h = Some (ODict d).
Proof.
  unfold reads; cbn [read].
  destruct (load a h) as [[d|l]|]; [eauto| |discriminate].
  destruct (mapM_option _ l); discriminate.
Qed.

Lemma reads_removed h a d dv k :
  load a h = Some (ODict (slot_remove k d)) ->
  mapM_option
    (fun kv => option_map (pair (fst kv)) (read (List.length h) h (snd kv))) d
  = Some dv ->
  reads h (SRef a) (VDict (dict_remove k dv)).
Proof.
  intros L M; unfold reads; cbn [read]; rewrite L.
  now rewrite (entries_remove _ k d dv M).
Qed.

Lemma reads_view h s v : reads h s v -> fst (view s h) = Ok (surface v).
Proof. apply view_surface. Qed.

Lemma reads_scalar h s v :
  reads h s v ->
  match s with
  | SNone => v = VNone
  | SBool b => v = VBool b
  | SInt z => v = VInt z
  | SFloat x => v = VFloat x
  | SStr x => v = VStr x
  | SRef _ => True
  end.
Proof. unfold reads; destruct s; cbn; congruence || auto. Qed.

Lemma reads_none h : reads h SNone VNone.
Proof. reflexivity. Qed.

Section Refine.
Context {RT : PyRuntime}.

Lemma bind_fst {A B} (m : M A) (k : A -> M B) h :
  snd (m h) = h ->
  fst (bindM m k h)
  = match fst (m h) with Ok a => fst (k a h) | Raise e => Raise e end.
Proof. unfold bindM; destruct (m h) as [[a|e] h']; cbn; intros ->; reflexivity. Qed.

Lemma view_snd s h : snd (view s h) = h.
Proof. reflexivity. Qed.

Lemma slot_get_none_snd s k h : snd (slot_get_none s k h) = h.
Proof. destruct s; reflexivity. Qed.

Lemma bind_assoc {A B C} (m : result A) (f : A -> result B) (g : B -> result C) :
  bind (bind m f) g = bind m (fun x => bind (f x) g).
Proof. destruct m; reflexivity. Qed.

Lemma bindM_assoc {A B C} (m : M A) (f : A -> M B) (g : B -> M C) h :
  bindM (bindM m f) g h = bindM m (fun x => bindM (f x) g) h.
Proof. unfold bindM; destruct (m h) as [[a|e] h']; reflexivity. Qed.

Lemma json_dumps_at_reads h a dv :
  reads h (SRef a) (VDict dv) ->
  json_dumps_at a h = Ok (json_dumps float_repr (VDict dv)).
Proof. unfold reads, json_dumps_at; now intros ->. Qed.

Section OneHeap.
Variable h : heap.

Lemma view_step {B} s v (K : value -> M B) :
  reads h s v ->
  fst ((y <~ view s ;; K y) h) = fst (K (surface v) h).
Proof.
  intros R; rewrite bind_fst by apply view_snd.
  now rewrite (reads_view h s v R).
Qed.

Lemma slot_get_none_step {B} x xv (k : string) (K : slot -> M B) (K' : value -> result B) :
  reads h x xv ->
  (forall s v, reads h s v -> fst (K s h) = K' v) ->
  fst ((y <~ slot_get_none x k ;; K y) h) = (v <- value_get k xv ;; K' v).
Proof.
  intros R HK.
  rewrite bind_fst by apply slot_get_none_snd.
  pose proof (reads_scalar h x xv R) as Sc.
  destruct x; try (subst xv; reflexivity).
  unfold slot_get_none, dict_get_none, reading; cbn [fst].
  destruct (load a h) as [[m|l]|] eqn:La.
  - destruct xv as [| | | | | |mv];
      try (unfold reads in R; cbn [read] in R; rewrite La in R;
           destruct (mapM_option _ m); discriminate).
    cbn [value_get bind].
    pose proof (reads_get h a m mv k La R) as G.
    unfold pure_dict_get_none.
    destruct (slot_get k m) as [s|].
    + destruct G as (v & Rs & ->); now apply HK.
    + rewrite G; apply HK, reads_none.
  - unfold reads in R; cbn [read] in R; rewrite La in R.
    destruct (mapM_option _ l); [|discriminate].
    injection R as <-; reflexivity.
  - unfold reads in R; cbn [read] in R; rewrite La in R; discriminate.
Qed.

End OneHeap.

Section ReadPhase.
Variables (p : addr) (h : heap) (d : list (string * slot)) (pv : dict).
Hypothesis Lp : load p h = Some (ODict d).
Hypothesis Rp : reads h (SRef p) (VDict pv).

Lemma getitem_step {B} (k : string) (K : slot -> M B) (K' : value -> result B) :
  (forall s v, reads h s v -> fst (K s h) = K' v) ->
  fst ((x <~ dict_getitem p k ;; K x) h)
  = (v <- pure_dict_getitem k pv ;; K' v).
Proof.
  intros HK.
  rewrite bind_fst by reflexivity.
  unfold dict_getitem at 1, reading, pure_dict_getitem; cbn [fst].
  rewrite Lp.
  pose proof (reads_get h p d pv k Lp Rp) as G.
  destruct (slot_get k d) as [s|].
  - destruct G as (v & R & ->); cbn [bind]; now apply HK.
  - rewrite G; reflexivity.
Qed.

Lemma get_none_step {B} (k : string) (K : slot -> M B) (K' : value -> result B) :
  (forall s v, reads h s v -> fst (K s h) = K' v) ->
  fst ((x <~ dict_get_none p k ;; K x) h) = K' (pure_dict_get_none k pv).
Proof.
  intros HK.
  rewrite bind_fst by reflexivity.
  unfold dict_get_none at 1, reading, pure_dict_get_none; cbn [fst].
  rewrite Lp.
  pose proof (reads_get h p d pv k Lp Rp) as G.
  destruct (slot_get k d) as [s|].
  - destruct G as (v & R & ->); now apply HK.
  - rewrite G; apply HK, reads_none.
Qed.

Lemma get_none_view_step {B} (k : string) (K : value -> M B) :
  fst ((x <~ dict_get_none p k ;; y <~ view x ;; K y) h)
  = fst (K (surface (pure_dict_get_none k pv)) h).
Proof.
  rewrite bind_fst by reflexivity.
  unfold dict_get_none at 1, reading, pure_dict_get_none; cbn [fst].
  rewrite Lp.
  pose proof (reads_get h p d pv k Lp Rp) as G.
  destruct (slot_get k d) as [s|].
  - destruct G as (v & R & ->); now apply view_step.
  - rewrite G; now apply view_step.
Qed.

Lemma bounds_step {B} (K : bool -> M B) (K' : bool -> result B) :
  (forall b, fst (K b h) = K' b) ->
  fst ((entanglement_bound <~ dict_getitem p "entanglement_bound" ;;
        entanglement_bound <~ view entanglement_bound ;;
        ent_negative <~ reading (fun _ => py_lt0 entanglement_bound) ;;
        coh_negative <~
          (if ent_negative then ret true
           else coherence_bound <~ dict_getitem p "coherence_bound" ;;
                coherence_bound <~ view coherence_bound ;;
                reading (fun _ => py_lt0 coherence_bound)) ;;
        K coh_negative) h)
  = (negative <- bounds_negative pv ;; K' negative).
Proof.
  intros HK.
  unfold bounds_negative; rewrite bind_assoc.
  apply getitem_step; intros s e R.
  rewrite (view_step h s e _ R).
  rewrite bind_fst by reflexivity; unfold reading at 1; cbn [fst].
  rewrite surface_lt0, bind_assoc.
  destruct (py_lt0 e) as [[|]|]; cbn [bind]; [apply HK| |reflexivity].
  rewrite bindM_assoc, bind_assoc.
  apply getitem_step; intros s' c R'.
  rewrite bindM_assoc.
  rewrite (view_step h s' c _ R').
  rewrite bind_fst by reflexivity; unfold reading at 1; cbn [fst].
  rewrite surface_lt0.
  destruct (py_lt0 c) as [b|]; cbn [bind]; [apply HK|reflexivity].
Qed.

Lemma evidence_step {B} (K : bool -> M B) (K' : bool -> result B) :
  (forall b, fst (K b h) = K' b) ->
  fst ((exec_meta <~ dict_getitem p "execution_metadata" ;;
        job_id <~ slot_get_none exec_meta "job_id" ;;
        backend <~ slot_get_none exec_meta "backend" ;;
        job_id <~ view job_id ;;
        backend <~ view backend ;;
        K (negb (py_truthy job_id) || negb (py_truthy backend))) h)
  = (missing <- evidence_missing pv ;; K' missing).
Proof.
  intros HK.
  unfold evidence_missing; rewrite bind_assoc.
  apply getitem_step; intros x xv R.
  rewrite bind_assoc.
  apply (slot_get_none_step h x xv _ _ _ R); intros sj j Rj.
  rewrite bind_assoc.
  apply (slot_get_none_step h x xv _ _ _ R); intros sb b Rb.
  rewrite (view_step h sj j _ Rj), (view_step h sb b _ Rb).
  rewrite !surface_truthy; cbn [bind]; apply HK.
Qed.

End ReadPhase.

(** X13.  When the commitment and the proof are dictionaries of the store
    that [json.dumps] can serialise, the 128-bit verifier run on their
    addresses gives the verdict (or the exception) of the verifier on their
    values: copying the proof and popping the signature from the copy does
    not disturb what is read afterwards, whatever the sharing between the
    objects. *)
Theorem verify_secure_refines self c p h cv pv :
  reads h (SRef c) (VDict cv) ->
  reads h (SRef p) (VDict pv) ->
  fst (Store.verify_secure_proof self c p h)
  = SecureQuantumZKP.verify_secure_proof self cv pv.
Proof.
  intros Hc Hp.
  destruct (reads_dict h p pv Hp) as [d Lp].
  unfold verify_secure_proof.
  unfold bindM at 1, obj_copy; rewrite Lp; cbn [alloc].
  unfold bindM at 1, dict_pop; rewrite load_app_new.
  pose proof (reads_get h p d pv "signature" Lp Hp) as G.
  unfold SecureQuantumZKP.verify_secure_proof, pure_dict_pop.
  destruct (slot_get "signature" d) as [sg|]; [|rewrite G; reflexivity].
  destruct G as (sv & Rsg & ->); cbn [bind fst snd].
  set (h2 := store (List.length h) (ODict (slot_remove "signature" d)) (h ++ [ODict d])).
  assert (agree h h2) as Hagree
    by (apply agree_store; [apply agree_app, agree_refl|lia]).
  assert (load p h2 = Some (ODict d)) as Lp2.
  { rewrite (proj2 Hagree); [exact Lp|].
    apply nth_error_Some; unfold load in Lp; congruence. }
  pose proof (reads_agree h h2 _ _ Hagree Hp) as Hp2.
  pose proof (reads_agree h h2 _ _ Hagree Hc) as Hc2.
  pose proof (reads_agree h h2 _ _ Hagree Rsg) as Rsg2.
  assert (reads h2 (SRef (List.length h)) (VDict (dict_remove "signature" pv))) as Ht2.
  { apply (reads_removed h2 _ d).
    - unfold h2; apply load_store_same; rewrite length_app; cbn; lia.
    - now apply reads_ref with (a := p). }
  (* the signature is recomputed over the copy *)
  rewrite bind_fst by reflexivity.
  unfold _sign_secure_proof, reading; cbn [fst].
  rewrite (json_dumps_at_reads h2 _ _ Ht2), (json_dumps_at_reads h2 _ _ Hc2).
  cbn [bind].
  fold (SecureQuantumZKP._sign_secure_proof (dict_remove "signature" pv) cv).
  rewrite (view_step h2 sg sv _ Rsg2), surface_eq_str.
  destruct (negb (py_eq_str sv _)); [reflexivity|].
  apply (getitem_step p h2 d pv Lp2 Hp2); intros s qd R.
  rewrite (view_step h2 s qd _ R), surface_eq_int.
  destruct (negb (py_eq_int qd _)); [reflexivity|].
  apply (bounds_step p h2 d pv Lp2 Hp2); intros [|]; [reflexivity|].
  apply (evidence_step p h2 d pv Lp2 Hp2
           (fun b : bool =>
              if b then ret (Rejected MissingExecutionMetadata) else ret Accepted));
    intros [|]; reflexivity.
Qed.

Lemma bindM_run {A B} (m : M A) (k : A -> M B) h r h' :
  m h = (Ok r, h') -> fst (bindM m k h) = fst (k r h').
Proof. unfold bindM; now intros ->. Qed.

(** X14.  The same for the 256-bit verifier, which never serialises: only
    the proof has to be readable, and the commitment is not looked at. *)
Theorem verify_ultra_refines self c p h cv pv :
  reads h (SRef p) (VDict pv) ->
  fst (Store.verify_ultra_secure_proof self c p h)
  = UltraSecureQuantumZKP.verify_ultra_secure_proof self cv pv.
Proof.
  intros Hp.
  destruct (reads_dict h p pv Hp) as [d Lp].
  assert (p < List.length h)%nat as Hlt
    by (apply nth_error_Some; unfold load in Lp; congruence).
  unfold verify_ultra_secure_proof, UltraSecureQuantumZKP.verify_ultra_secure_proof.
  rewrite bind_fst by reflexivity.
  unfold dict_get_none at 1; unfold reading at 1; cbn [fst]; rewrite Lp.
  rewrite (bindM_run _ _ h (List.length h) (h ++ [ODict d]))
    by (unfold obj_copy; rewrite Lp; reflexivity).
  (* the store and the signature after the pop, in both cases *)
  assert (exists hX sg sv,
            agree h hX /\ reads hX sg sv
            /\ dict_pop_default (List.length h) "signature" (SStr "") (h ++ [ODict d])
               = (Ok sg, hX)
            /\ fst (pure_dict_pop_default "signature" (VStr "") pv) = sv)
    as (hX & sg & sv & Hagree & Rsg & E & ->).
  { pose proof (reads_get h p d pv "signature" Lp Hp) as G.
    unfold dict_pop_default, pure_dict_pop_default; rewrite load_app_new.
    destruct (slot_get "signature" d) as [sg|].
    - destruct G as (sv & Rsg & ->).
      eexists; exists sg, sv; split; [|split; [|split; reflexivity]].
      + apply agree_store; [apply agree_app, agree_refl|lia].
      + eapply reads_agree; [|exact Rsg].
        apply agree_store; [apply agree_app, agree_refl|lia].
    - rewrite G; eexists; exists (SStr ""), (VStr "").
      split; [apply agree_app, agree_refl|]; repeat split. }
  rewrite (bindM_run _ _ _ sg hX E); clear E.
  assert (load p hX = Some (ODict d)) as LpX by (rewrite (proj2 Hagree); assumption).
  pose proof (reads_agree h hX _ _ Hagree Hp) as HpX.
  rewrite (view_step hX sg sv _ Rsg), surface_truthy.
  destruct (negb (py_truthy sv)); [reflexivity|].
  rewrite (get_none_view_step p hX d pv LpX HpX), surface_eq_int.
  destruct (negb (py_eq_int _ _)); [reflexivity|].
  (* the guarantees, read from the proof or from a fresh empty dictionary *)
  match goal with
  | |- context [value_get "zero_knowledge" ?t] => set (guarantees := t)
  end.
  assert (exists hY x,
            agree h hY /\ reads hY x guarantees
            /\ dict_get_default_empty p "security_guarantees" hX = (Ok x, hY))
    as (hY & x & HagreeY & Rx & E).
  { pose proof (reads_get hX p d pv "security_guarantees" LpX HpX) as G.
    unfold dict_get_default_empty; rewrite LpX; subst guarantees.
    destruct (slot_get "security_guarantees" d) as [x|].
    - destruct G as (xv & Rx & ->).
      exists hX, x; repeat split; auto; apply Hagree.
    - rewrite G; eexists; exists (SRef (List.length hX)).
      split; [apply agree_app; exact Hagree|]; split; [|reflexivity].
      unfold reads; cbn [read]; now rewrite load_app_new. }
  rewrite (bindM_run _ _ _ x hY E); clear E.
  assert (load p hY = Some (ODict d)) as LpY by (rewrite (proj2 HagreeY); assumption).
  pose proof (reads_agree h hY _ _ HagreeY Hp) as HpY.
  apply (slot_get_none_step hY x guarantees _ _ _ Rx); intros s1 v1 R1.
  apply (slot_get_none_step hY x guarantees _ _ _ Rx); intros s2 v2 R2.
  apply (slot_get_none_step hY x guarantees _ _ _ Rx); intros s3 v3 R3.
  apply (slot_get_none_step hY x guarantees _ _ _ Rx); intros s4 v4 R4.
  rewrite (view_step hY s1 v1 _ R1), (view_step hY s2 v2 _ R2),
    (view_step hY s3 v3 _ R3), (view_step hY s4 v4 _ R4).
  cbn [forallb]; rewrite !surface_truthy.
  destruct (negb _); [reflexivity|].
  apply (bounds_step p hY d pv LpY HpY); intros [|]; [reflexivity|].
  apply (evidence_step p hY d pv LpY HpY
           (fun b : bool =>
              if b then ret (Rejected MissingExecutionMetadata)
              else _ <~ dict_getitem p "security_level" ;;
                   _ <~ dict_getitem p "soundness_error" ;;
                   ret Accepted));
    intros [|]; [reflexivity|].
  apply (getitem_step p hY d pv LpY HpY); intros ? ? _.
  apply (getitem_step p hY d pv LpY HpY); intros ? ? _.
  reflexivity.
Qed.

End Refine.
End StoreRefinement.

(* ================================================================= *)
(** ** The bytes encoder against its specification *)

Lemma pad_loop_repeat (n : nat) (l : vector) :
  BytesToQuantumStateConverter.pad_loop n l = l ++ repeat (0%float, 0%float) n.
Proof.
  revert l; induction n as [|n IH]; intros l; cbn.
  - now rewrite app_nil_r.
  - rewrite IH, <- app_assoc; reflexivity.
Qed.

Lemma firstn_repeat_le {A} (x : A) (n m : nat) :
  (n <= m)%nat -> firstn n (repeat x m) = repeat x n.
Proof.
  revert m; induction n as [|n IH]; intros [|m] H; cbn; auto; try lia.
  f_equal; apply IH; lia.
Qed.

Lemma In_firstn {A} (n : nat) (l : list A) (x : A) :
  In x (firstn n l) -> In x l.
Proof.
  revert l; induction n as [|n IH]; intros [|y l]; cbn; try tauto.
  intros [H|H]; [left; exact H|right; apply IH, H].
Qed.

Lemma range_step2_min (d : Z) :
  range_step2 (Z.min 32 (d * 2))
  = map (fun k => 2 * Z.of_nat k) (seq 0 (Nat.min 16 (Z.to_nat d))).
Proof.
  unfold range_step2; do 2 f_equal.
  destruct (Z.le_gt_cases 16 d).
  - rewrite Z.min_l by lia. rewrite Nat.min_l by lia. reflexivity.
  - rewrite Z.min_r by lia. rewrite Nat.min_r by lia.
    f_equal. Z.to_euclidean_division_equations; lia.
Qed.

(** On a 32-byte digest the loop takes the first [d] byte pairs, and its
    [else] branch, for a last byte without a partner, is never reached. *)
Lemma loop_takes_byte_pairs (hash_bytes : list Z) (d : Z) :
  List.length hash_bytes = 32%nat ->
  map (BytesToQuantumStateConverter.amplitude_at hash_bytes)
      (range_step2 (Z.min (len hash_bytes) (d * 2)))
  = firstn (Z.to_nat d) (map EncoderSpec.amplitude (EncoderSpec.byte_pairs hash_bytes)).
Proof.
  intros H32.
  assert (len hash_bytes = 32) as -> by (unfold len; rewrite H32; reflexivity).
  rewrite range_step2_min.
  assert (firstn (Z.to_nat d)
            (map EncoderSpec.amplitude (EncoderSpec.byte_pairs hash_bytes))
          = firstn (Nat.min 16 (Z.to_nat d))
              (map EncoderSpec.amplitude (EncoderSpec.byte_pairs hash_bytes))) as ->.
  { destruct (Nat.le_gt_cases (Z.to_nat d) 16).
    - now rewrite Nat.min_r.
    - rewrite Nat.min_l by lia.
      do 33 (destruct hash_bytes as [|? hash_bytes]; try discriminate H32).
      rewrite !firstn_all2; [reflexivity| |]; cbn; lia. }
  assert (Nat.min 16 (Z.to_nat d) <= 16)%nat as Hm by lia.
  revert Hm; generalize (Nat.min 16 (Z.to_nat d)) as m; intros m Hm.
  do 33 (destruct hash_bytes as [|? hash_bytes]; try discriminate H32).
  do 17 (destruct m as [|m]; [reflexivity|]).
  lia.
Qed.

Lemma amplitudes_follow_spec (self : BytesToQuantumStateConverter.t) (s : bytes) :
  BytesToQuantumStateConverter.amplitudes_of self s
  = EncoderSpec.amplitudes s (BytesToQuantumStateConverter.target_dimension self).
Proof.
  unfold BytesToQuantumStateConverter.amplitudes_of, EncoderSpec.amplitudes.
  set (d := BytesToQuantumStateConverter.target_dimension self).
  pose proof (digest_list_length s) as H32.
  rewrite loop_takes_byte_pairs by exact H32.
  set (all := map EncoderSpec.amplitude (EncoderSpec.byte_pairs (SHA256.digest_list s))).
  assert (List.length all = 16%nat) as H16.
  { subst all; rewrite length_map.
    generalize dependent (SHA256.digest_list s); intros l Hl.
    do 33 (destruct l as [|? l]; try discriminate Hl); reflexivity. }
  rewrite pad_loop_repeat.
  destruct (Nat.le_gt_cases (Z.to_nat d) 16) as [Hle|Hgt].
  - assert (len (firstn (Z.to_nat d) all) = Z.of_nat (Z.to_nat d)) as ->
      by (unfold len; rewrite length_firstn; lia).
    replace (Z.to_nat (d - Z.of_nat (Z.to_nat d))) with 0%nat by lia.
    cbn [repeat]; rewrite app_nil_r.
    rewrite firstn_firstn, Nat.min_id.
    symmetry; apply StoreFacts.firstn_app_le; lia.
  - rewrite (firstn_all2 (n := Z.to_nat d) all) by lia.
    unfold len; rewrite H16.
    rewrite !firstn_app, H16, (firstn_all2 (n := Z.to_nat d) all) by lia.
    f_equal.
    rewrite !firstn_repeat_le by lia.
    f_equal; lia.
Qed.

Lemma affine_in_range (b : Z) :
  0 <= b < 256 ->
  PrimFloat.leb (-1)%float (EncoderSpec.affine b) = true
  /\ PrimFloat.leb (EncoderSpec.affine b) 1%float = true.
Proof.
  intros Hb.
  assert (forallb (fun n =>
            PrimFloat.leb (-1)%float (EncoderSpec.affine (Z.of_nat n))
            && PrimFloat.leb (EncoderSpec.affine (Z.of_nat n)) 1%float)
          (seq 0 256) = true) as Hall by (vm_compute; reflexivity).
  rewrite forallb_forall in Hall.
  specialize (Hall (Z.to_nat b)).
  rewrite Z2Nat.id in Hall by lia.
  apply andb_true_iff, Hall, in_seq; lia.
Qed.

Lemma byte_pairs_Forall (P : Z -> Prop) (l : list Z) :
  Forall P l -> Forall (fun p => P (fst p) /\ P (snd p)) (EncoderSpec.byte_pairs l).
Proof.
  assert (forall l,
    (Forall P l -> Forall (fun p => P (fst p) /\ P (snd p)) (EncoderSpec.byte_pairs l))
    /\ (forall a, Forall P (a :: l) ->
          Forall (fun p => P (fst p) /\ P (snd p)) (EncoderSpec.byte_pairs (a :: l))))
    as H.
  { induction l0 as [|b l0 [IH1 IH2]]; split; cbn; intros; try constructor.
    - apply IH2; assumption.
    - inversion H as [|? ? Ha Hb]; inversion Hb; subst; cbn; auto.
    - apply IH1. inversion H as [|? ? Ha Hb]; inversion Hb; assumption. }
  apply H.
Qed.

Lemma spec_amplitudes_in_unit_square (s : bytes) (d : Z) :
  forallb EncoderSpec.in_unit_square (EncoderSpec.amplitudes s d) = true.
Proof.
  apply forallb_forall; intros c Hc.
  unfold EncoderSpec.amplitudes in Hc.
  apply In_firstn, in_app_or in Hc; destruct Hc as [Hc|Hc].
  - apply in_map_iff in Hc; destruct Hc as (p & <- & Hp).
    pose proof (byte_pairs_Forall _ _ (digest_list_bytes s)) as HF.
    rewrite Forall_forall in HF; destruct (HF p Hp) as [H1 H2].
    destruct (affine_in_range _ H1) as [A1 A2], (affine_in_range _ H2) as [B1 B2].
    unfold EncoderSpec.in_unit_square, EncoderSpec.amplitude; cbn [fst snd].
    now rewrite A1, A2, B1, B2.
  - apply repeat_spec in Hc; subst c; reflexivity.
Qed.

Lemma spec_amplitudes_length (s : bytes) (d : Z) :
  len (EncoderSpec.amplitudes s d) = Z.max 0 d.
Proof.
  unfold len, EncoderSpec.amplitudes.
  rewrite length_firstn, length_app, repeat_length; lia.
Qed.

(** C8.  The amplitudes handed to the normalization are those of the
    specification (the SHA-256 digest in byte pairs, each part mapped by
    [(b - 128) / 128], zero-padded or truncated to the target dimension);
    there are [max(0, d)] of them, each in the unit square; and the state
    vector returned is the normalization of exactly that sequence, so it
    depends on the secret and the dimension alone (not on the label): two
    runs give the same amplitudes and the same floats. *)
Theorem encoding_is_deterministic
    (self : BytesToQuantumStateConverter.t) (data_bytes : bytes)
    (label1 label2 : string) :
  let d := BytesToQuantumStateConverter.target_dimension self in
  let amplitudes := BytesToQuantumStateConverter.amplitudes_of self data_bytes in
  amplitudes = EncoderSpec.amplitudes data_bytes d
  /\ len amplitudes = Z.max 0 d
  /\ forallb EncoderSpec.in_unit_square amplitudes = true
  /\ fst (BytesToQuantumStateConverter.bytes_to_quantum_state self data_bytes label1)
     = np_normalize (EncoderSpec.amplitudes data_bytes d)
  /\ fst (BytesToQuantumStateConverter.bytes_to_quantum_state self data_bytes label1)
     = fst (BytesToQuantumStateConverter.bytes_to_quantum_state self data_bytes label2).
Proof.
  intros d amplitudes; subst amplitudes d.
  rewrite amplitudes_follow_spec.
  split; [reflexivity|].
  split; [apply spec_amplitudes_length|].
  split; [apply spec_amplitudes_in_unit_square|].
  unfold BytesToQuantumStateConverter.bytes_to_quantum_state; cbn [fst].
  rewrite amplitudes_follow_spec; split; reflexivity.
Qed.

Lemma init_nonempty (v : vector) (nonce ultra_nonce : bytes) (now_ns : Z) :
  v <> [] ->
  exists r u,
    SecureQuantumStateVector.__init__ v nonce = Ok r
    /\ UltraSecureQuantumStateVector.__init__ v ultra_nonce now_ns = Ok u
    /\ SecureQuantumStateVector.coordinates r = np_normalize v
    /\ UltraSecureQuantumStateVector.coordinates u = np_normalize v
    /\ SecureQuantumStateVector.dimension r = len v
    /\ UltraSecureQuantumStateVector.dimension u = len v.
Proof.
  intros Hv.
  unfold SecureQuantumStateVector.__init__, UltraSecureQuantumStateVector.__init__.
  assert ((len v =? 0) = false) as ->
    by (apply Z.eqb_neq; destruct v; [congruence|unfold len; cbn; lia]).
  eexists; eexists; repeat split.
Qed.

(* ================================================================= *)
(** ** Normalization has no guard on the norm *)

Lemma fold_left_add_zeros (n : nat) :
  fold_left PrimFloat.add (repeat (PrimFloat.mul 0 0) n) 0%float = 0%float.
Proof. induction n as [|n IH]; [reflexivity|exact IH]. Qed.

Lemma dot_zeros (n : nat) :
  dot float 0%float PrimFloat.add PrimFloat.mul (repeat 0%float n) (repeat 0%float n)
  = 0%float.
Proof.
  unfold dot.
  replace (combine (repeat 0%float n) (repeat 0%float n))
    with (repeat (0%float, 0%float) n)
    by (induction n as [|n IH]; cbn; [reflexivity|now rewrite <- IH]).
  rewrite map_repeat; apply fold_left_add_zeros.
Qed.

(** The norm of an all-zero vector is [0.0], and dividing it by that norm
    gives [nan+nanj] everywhere. *)
Lemma zeros_have_norm_zero (n : nat) :
  np_linalg_norm (repeat (0%float, 0%float) n) = 0%float.
Proof.
  unfold np_linalg_norm, linalg_norm, sqnorm.
  rewrite !map_repeat; cbn [fst snd]; rewrite dot_zeros; reflexivity.
Qed.

Lemma zeros_normalize_to_nans (n : nat) :
  np_normalize (repeat (0%float, 0%float) n) = repeat (PrimFloat.nan, PrimFloat.nan) n.
Proof.
  unfold np_normalize, np_divide.
  rewrite zeros_have_norm_zero, map_repeat; reflexivity.
Qed.

(** C7, on the code.  The state-vector classes test the length of the
    input and nothing else.  The all-zero vector of any positive length has
    norm exactly [0.0]; the constructor of either class returns for it a
    state record whose coordinates are all [nan+nanj] and whose dimension is
    its length, where the specification requires a failure; the empty vector
    alone is refused.  The bytes encoder divides by the norm in the same way: bytes
    whose amplitudes are all zero get [nan+nanj] coordinates, as the bytes
    [secret-58745] do at dimension 1.  And a non-zero vector need not
    come out with unit norm: for the single entry [2^600] the squared norm
    overflows, the norm is infinite and the coordinate returned is zero. *)
Theorem zero_norm_vectors_are_encoded
    (n : nat) (nonce ultra_nonce : bytes) (now_ns : Z)
    (conv : BytesToQuantumStateConverter.t) (data_bytes : bytes) (label : string) :
  let zeros := repeat (0%float, 0%float) (S n) in
  let nans := repeat (PrimFloat.nan, PrimFloat.nan) (S n) in
  np_linalg_norm zeros = 0%float
  /\ np_normalize zeros = nans
  /\ (exists r,
        SecureQuantumStateVector.__init__ zeros nonce = Ok r
        /\ SecureQuantumStateVector.coordinates r = nans
        /\ SecureQuantumStateVector.dimension r = Z.of_nat (S n))
  /\ (exists u,
        UltraSecureQuantumStateVector.__init__ zeros ultra_nonce now_ns = Ok u
        /\ UltraSecureQuantumStateVector.coordinates u = nans
        /\ UltraSecureQuantumStateVector.dimension u = Z.of_nat (S n))
  /\ (SecureQuantumStateVector.__init__ [] nonce
        = Raise (ValueError "State vector must not be empty.")
      /\ UltraSecureQuantumStateVector.__init__ [] ultra_nonce now_ns
         = Raise (ValueError "State vector must not be empty."))
  /\ (BytesToQuantumStateConverter.amplitudes_of conv data_bytes = zeros ->
      fst (BytesToQuantumStateConverter.bytes_to_quantum_state conv data_bytes label)
      = nans)
  /\ (BytesToQuantumStateConverter.amplitudes_of scalar_converter example_zero_amplitude
      = [ (0%float, 0%float) ]
      /\ fst (BytesToQuantumStateConverter.bytes_to_quantum_state
                scalar_converter example_zero_amplitude "zero")
         = [ (PrimFloat.nan, PrimFloat.nan) ])
  /\ (np_linalg_norm overflowing_state = PrimFloat.infinity
      /\ np_normalize overflowing_state = [ (0%float, 0%float) ]
      /\ np_linalg_norm (np_normalize overflowing_state) = 0%float).
Proof.
  intros zeros nans.
  pose proof (zeros_have_norm_zero (S n)) as Hnorm.
  pose proof (zeros_normalize_to_nans (S n)) as Hnans.
  split; [exact Hnorm|]; split; [exact Hnans|].
  split.
  { unfold SecureQuantumStateVector.__init__.
    assert ((len zeros =? 0) = false) as ->
      by (apply Z.eqb_neq; unfold len, zeros; rewrite repeat_length; lia).
    eexists; split; [reflexivity|]; split; [exact Hnans|].
    unfold len, zeros; now rewrite repeat_length. }
  split.
  { unfold UltraSecureQuantumStateVector.__init__.
    assert ((len zeros =? 0) = false) as ->
      by (apply Z.eqb_neq; unfold len, zeros; rewrite repeat_length; lia).
    eexists; split; [reflexivity|]; split; [exact Hnans|].
    unfold len, zeros; now rewrite repeat_length. }
  split; [split; reflexivity|].
  split.
  { intros E; unfold BytesToQuantumStateConverter.bytes_to_quantum_state; cbn [fst].
    rewrite E; exact Hnans. }
  split; [split; vm_compute; reflexivity|].
  vm_compute; repeat split; reflexivity.
Qed.

(* ================================================================= *)
(** ** How much of the digest a commitment hash keeps *)

Lemma prefix_of_hexdigest_length (n : Z) (m : bytes) :
  0 <= n <= 64 ->
  Z.of_nat (String.length (py_prefix n (SHA256.hexdigest m))) = n.
Proof.
  intros Hn; apply py_prefix_length; rewrite hexdigest_length; lia.
Qed.

(** C4, on the code.  Whatever the dimension, the nonce and the clock, the
    state's commitment hash of the 256-bit variant is 32 hexadecimal digits,
    128 bits of the digest, and that of the 128-bit variant is 16 digits, 64
    bits: half of the declared level in both cases.  The protocol-level
    commitment keeps 32 digits in the 128-bit variant and all 64 in the
    256-bit one, whatever level the instance was configured with. *)
Theorem commitment_hash_keeps_a_fixed_prefix
    {RT : PyRuntime} (dimension : Z) (nonce : bytes) (now_ns : Z)
    (self : SecureQuantumZKP.t) (uself : UltraSecureQuantumZKP.t)
    (st : SecureQuantumStateVector.t) (ust : UltraSecureQuantumStateVector.t)
    (identifier : string) (t1 t2 : float) (n1 n2 : Z) :
  hex_bits (UltraSecureQuantumStateVector._generate_ultra_secure_commitment
              dimension nonce now_ns) = 128
  /\ hex_bits (SecureQuantumStateVector._generate_secure_commitment dimension nonce)
     = 64
  /\ (exists h,
        dict_get "hash"
          (SecureQuantumZKP._generate_secure_commitment st identifier t1 t2)
        = Some (VStr h) /\ hex_bits h = 128)
  /\ (exists h,
        dict_get "hash"
          (UltraSecureQuantumZKP._generate_ultra_secure_commitment
             uself ust identifier n1 nonce n2)
        = Some (VStr h) /\ hex_bits h = 256).
Proof.
  unfold hex_bits.
  unfold UltraSecureQuantumStateVector._generate_ultra_secure_commitment,
    SecureQuantumStateVector._generate_secure_commitment.
  rewrite !prefix_of_hexdigest_length by lia.
  split; [reflexivity|]; split; [reflexivity|]; split.
  - eexists; split; [reflexivity|].
    rewrite prefix_of_hexdigest_length by lia; reflexivity.
  - eexists; split; [reflexivity|].
    rewrite hexdigest_length; reflexivity.
Qed.

(* ================================================================= *)
(** ** Dictionaries *)

Lemma dict_get_set_same (k : string) (v : value) (d : dict) :
  dict_get k (dict_set k v d) = Some v.
Proof.
  induction d as [|[k' v'] d IH]; cbn.
  - now rewrite String.eqb_refl.
  - destruct (String.eqb k k') eqn:E; cbn; rewrite ?String.eqb_refl, ?E; auto.
Qed.

Lemma dict_get_set_other (k k' : string) (v : value) (d : dict) :
  k <> k' -> dict_get k' (dict_set k v d) = dict_get k' d.
Proof.
  intros Hk; induction d as [|[k0 v0] d IH]; cbn.
  - destruct (String.eqb_spec k' k); [congruence|reflexivity].
  - destruct (String.eqb_spec k k0) as [->|Hne]; cbn.
    + destruct (String.eqb_spec k' k0); [congruence|reflexivity].
    + destruct (String.eqb_spec k' k0); [reflexivity|exact IH].
Qed.

Lemma dict_remove_set_fresh (k : string) (v : value) (d : dict) :
  dict_get k d = None -> dict_remove k (dict_set k v d) = d.
Proof.
  induction d as [|[k' v'] d IH]; cbn.
  - now rewrite String.eqb_refl.
  - destruct (String.eqb k k') eqn:E; [discriminate|].
    intros H; cbn; rewrite E; f_equal; auto.
Qed.

Lemma dict_get_remove_other (k k' : string) (d : dict) :
  k <> k' -> dict_get k' (dict_remove k d) = dict_get k' d.
Proof.
  intros Hk; induction d as [|[k0 v0] d IH]; cbn; [reflexivity|].
  destruct (String.eqb_spec k k0) as [->|Hne]; cbn.
  - destruct (String.eqb_spec k' k0); [congruence|exact IH].
  - destruct (String.eqb_spec k' k0); [reflexivity|exact IH].
Qed.

(** Signing then popping the signature gives back the record that was
    signed. *)
Lemma dict_pop_set_fresh (k : string) (v : value) (d : dict) :
  dict_get k d = None ->
  dict_pop k (dict_set k v d) = Ok (v, d).
Proof.
  intros H; unfold dict_pop.
  now rewrite dict_get_set_same, dict_remove_set_fresh.
Qed.

(* ================================================================= *)
(** ** Canonical JSON: the order of the fields does not matter *)

Section Sorting.
Context {A : Type}.

Lemma insert_item_comm (x y : string * A) (l : list (string * A)) :
  fst x <> fst y ->
  insert_item x (insert_item y l) = insert_item y (insert_item x l).
Proof.
  intros Hxy.
  assert (String.leb (fst x) (fst y) = true -> String.leb (fst y) (fst x) = false)
    as Hasym.
  { intros H; destruct (String.leb (fst y) (fst x)) eqn:E; [|reflexivity].
    exfalso; apply Hxy, String.leb_antisym; assumption. }
  assert (String.leb (fst x) (fst y) = false -> String.leb (fst y) (fst x) = true)
    as Htot.
  { intros H; destruct (String.leb_total (fst x) (fst y)); congruence. }
  induction l as [|z l IH]; cbn.
  - destruct (String.leb (fst x) (fst y)) eqn:E.
    + now rewrite (Hasym eq_refl).
    + now rewrite (Htot eq_refl).
  - destruct (String.leb (fst y) (fst z)) eqn:Eyz;
      destruct (String.leb (fst x) (fst z)) eqn:Exz; cbn.
    + destruct (String.leb (fst x) (fst y)) eqn:E.
      * now rewrite (Hasym eq_refl), Eyz.
      * now rewrite (Htot eq_refl), Exz.
    + rewrite Eyz.
      destruct (String.leb (fst x) (fst y)) eqn:E.
      * rewrite (string_leb_trans _ _ _ E Eyz) in Exz; discriminate.
      * now rewrite Exz.
    + rewrite Exz.
      destruct (String.leb (fst y) (fst x)) eqn:E.
      * rewrite (string_leb_trans _ _ _ E Exz) in Eyz; discriminate.
      * now rewrite Eyz.
    + now rewrite Exz, Eyz, IH.
Qed.

Lemma sort_items_perm (l1 l2 : list (string * A)) :
  Permutation l1 l2 -> NoDup (map fst l1) -> sort_items l1 = sort_items l2.
Proof.
  induction 1 as [|x l1 l2 HP IH|x y l|l1 l2 l3 HP1 IH1 HP2 IH2]; intros ND.
  - reflexivity.
  - cbn; f_equal; apply IH; now inversion ND.
  - cbn; apply insert_item_comm.
    cbn in ND; inversion ND as [|? ? Hin _]; subst.
    intros E; apply Hin; left; symmetry; exact E.
  - rewrite IH1 by exact ND; apply IH2.
    eapply Permutation_NoDup; [apply Permutation_map; exact HP1|exact ND].
Qed.

End Sorting.

Section Canonical.
Context {RT : PyRuntime}.

Lemma json_dumps_field_order (d1 d2 : dict) :
  Permutation d1 d2 -> NoDup (dict_keys d1) ->
  json_dumps float_repr (VDict d1) = json_dumps float_repr (VDict d2).
Proof.
  intros HP ND; cbn [json_dumps].
  do 4 f_equal.
  apply sort_items_perm.
  - apply Permutation_map; exact HP.
  - rewrite map_map; cbn [fst]; exact ND.
Qed.

Lemma secure_sign_field_order (p p' c c' : dict) :
  Permutation p p' -> Permutation c c' ->
  NoDup (dict_keys p) -> NoDup (dict_keys c) ->
  SecureQuantumZKP._sign_secure_proof p' c' = SecureQuantumZKP._sign_secure_proof p c.
Proof.
  intros Hp Hc Np Nc; unfold SecureQuantumZKP._sign_secure_proof.
  now rewrite (json_dumps_field_order p p' Hp Np), (json_dumps_field_order c c' Hc Nc).
Qed.

(** The verifier of the 128-bit variant, once the signature is found. *)
Lemma secure_verify_unfold (self : SecureQuantumZKP.t) (c p : dict) (sig : value) :
  dict_get "signature" p = Some sig ->
  SecureQuantumZKP.verify_secure_proof self c p
  = if negb (py_eq_str sig
               (SecureQuantumZKP._sign_secure_proof (dict_remove "signature" p) c))
    then Ok (Rejected SignatureVerificationFailed)
    else
      quantum_dimensions <- dict_getitem "quantum_dimensions" p ;;
      if negb (py_eq_int quantum_dimensions (SecureQuantumZKP.dimensions self))
      then Ok (Rejected DimensionMismatch)
      else
        negative <- bounds_negative p ;;
        if negative then Ok (Rejected InvalidBounds)
        else
          missing <- evidence_missing p ;;
          if missing then Ok (Rejected MissingExecutionMetadata)
          else Ok Accepted.
Proof.
  intros H; unfold SecureQuantumZKP.verify_secure_proof, dict_pop.
  rewrite H; reflexivity.
Qed.

(** What the 128-bit verifier does with a signature that is not the
    recomputed one. *)
Lemma secure_verify_rejects_other_signatures
    (self : SecureQuantumZKP.t) (c p : dict) (sig : value) :
  dict_get "signature" p = Some sig ->
  py_eq_str sig (SecureQuantumZKP._sign_secure_proof (dict_remove "signature" p) c)
  = false ->
  SecureQuantumZKP.verify_secure_proof self c p
  = Ok (Rejected SignatureVerificationFailed).
Proof.
  intros H E; rewrite (secure_verify_unfold self c p sig H), E; reflexivity.
Qed.

(** The 256-bit verifier reads neither the commitment nor the content of
    the signature: any two non-empty signatures, under any two commitments,
    get the same verdict. *)
Lemma ultra_verify_ignores_signature
    (self : UltraSecureQuantumZKP.t) (c c' p : dict) (sig sig' : value) :
  py_truthy sig = true -> py_truthy sig' = true ->
  UltraSecureQuantumZKP.verify_ultra_secure_proof self c
    (dict_set "signature" sig p)
  = UltraSecureQuantumZKP.verify_ultra_secure_proof self c'
      (dict_set "signature" sig' p).
Proof.
  intros T T'.
  unfold UltraSecureQuantumZKP.verify_ultra_secure_proof, dict_pop_default,
    bounds_negative, evidence_missing, dict_getitem, dict_get_none.
  rewrite !dict_get_set_same; cbn [fst]; rewrite T, T'; cbn [negb].
  rewrite !(dict_get_set_other "signature") by discriminate.
  reflexivity.
Qed.

End Canonical.

(* ================================================================= *)
(** ** Signing *)

Section Signing.
Context {RT : PyRuntime}.

Lemma secure_verify_accepts_own_signature
    (self : SecureQuantumZKP.t) (c p : dict) :
  dict_get "signature" p = None ->
  SecureQuantumZKP.verify_secure_proof self c
    (dict_set "signature" (VStr (SecureQuantumZKP._sign_secure_proof p c)) p)
  <> Ok (Rejected SignatureVerificationFailed).
Proof.
  intros Hfresh.
  rewrite (secure_verify_unfold self c _ _ (dict_get_set_same _ _ _)).
  rewrite dict_remove_set_fresh by exact Hfresh.
  cbn [py_eq_str]; rewrite String.eqb_refl; cbn [negb].
  destruct (dict_getitem _ _) as [qd|]; cbn [bind]; [|discriminate].
  destruct (negb _); [discriminate|].
  destruct (bounds_negative _) as [[|]|]; cbn [bind]; try discriminate.
  destruct (evidence_missing _) as [[|]|]; cbn [bind]; discriminate.
Qed.

(** C2, as the code has it.  The signer of the 128-bit variant is the hash
    of the key-sorted JSON text of the proof followed by that of the
    commitment: it does not depend on the order of the fields of either
    record, and the verifier, which removes the signature and signs again,
    recomputes exactly the stored value.  The signers of the 256-bit and of
    the bytes variant hash, after the same two texts, the security level
    (respectively the digest of the data) and 32 bytes drawn at random: their
    value is fixed only together with that draw. *)
Theorem signing_contract
    (p p' c c' : dict) (uself : UltraSecureQuantumZKP.t)
    (data_bytes nonce : bytes) :
  Permutation p p' -> Permutation c c' ->
  NoDup (dict_keys p) -> NoDup (dict_keys c) ->
  dict_get "signature" p = None ->
  let signature := SecureQuantumZKP._sign_secure_proof p c in
  let signed := dict_set "signature" (VStr signature) p in
  signature
  = SHA256.hexdigest (encode (json_dumps float_repr (VDict p))
                      +++ encode (json_dumps float_repr (VDict c)))
  /\ SecureQuantumZKP._sign_secure_proof p' c' = signature
  /\ dict_pop "signature" signed = Ok (VStr signature, p)
  /\ (forall self,
        SecureQuantumZKP.verify_secure_proof self c signed
        <> Ok (Rejected SignatureVerificationFailed))
  /\ UltraSecureQuantumZKP._sign_ultra_secure_proof uself p c nonce
     = SHA256.hexdigest
         (encode (json_dumps float_repr (VDict p))
          +++ encode (json_dumps float_repr (VDict c))
          +++ encode (str_of_Z (UltraSecureQuantumZKP.security_level uself))
          +++ nonce)
  /\ UltraSecureBytesQZKP._sign_bytes_proof p c data_bytes nonce
     = SHA256.hexdigest
         (encode (json_dumps float_repr (VDict p))
          +++ encode (json_dumps float_repr (VDict c))
          +++ SHA256.digest data_bytes
          +++ nonce).
Proof.
  intros Hp Hc Np Nc Hfresh signature signed.
  split; [reflexivity|].
  split; [now apply secure_sign_field_order|].
  split; [now apply dict_pop_set_fresh|].
  split; [intros self; now apply secure_verify_accepts_own_signature|].
  split; reflexivity.
Qed.

End Signing.

(* ================================================================= *)
(** ** When the counts cannot be read *)

Section Fallback.
Context {RT : PyRuntime}.

Lemma extract_counts_fallback (fallback : counts) (d : pub_data) (err : exn) :
  read_counts d = Raise err -> extract_counts fallback d = fallback.
Proof. intros H; unfold extract_counts; now rewrite H. Qed.

Lemma secure_proof_record_unsigned self st x identifier now :
  dict_get "signature" (SecureQuantumZKP.proof_record self st x identifier now) = None.
Proof. reflexivity. Qed.

Lemma ultra_proof_record_unsigned self st x identifier now :
  dict_get "signature" (UltraSecureQuantumZKP.proof_record self st x identifier now)
  = None.
Proof. reflexivity. Qed.

Lemma secure_prove_on_fallback
    (self : SecureQuantumZKP.t) (v : vector) (identifier : string)
    (e : SecureQuantumZKP.env) (j : job) (err : exn) :
  v <> [] ->
  SecureQuantumZKP.backend_run e = Ok j ->
  read_counts (job_data j) = Raise err ->
  exists c p,
    SecureQuantumZKP.secure_prove_vector_knowledge self v identifier e = Ok (c, p)
    /\ dict_get "measurement_statistics" p
       = Some (VDict (SecureQuantumZKP._secure_measurement_analysis
                        SecureQuantumZKP.synthetic_counts))
    /\ dict_get "signature" p
       = Some (VStr (SecureQuantumZKP._sign_secure_proof
                       (dict_remove "signature" p) c)).
Proof.
  intros Hv Hrun Hread.
  destruct (init_nonempty v (SecureQuantumZKP.state_nonce e) "" 0 Hv)
    as (st & _ & Hst & _).
  unfold SecureQuantumZKP.secure_prove_vector_knowledge.
  rewrite Hst, Hrun; cbn [bind SecureQuantumZKP.execute_on_real_hardware].
  eexists; eexists; split; [reflexivity|].
  split.
  - rewrite dict_get_set_other by discriminate.
    cbn [SecureQuantumZKP.proof_record dict_get String.eqb Ascii.eqb Bool.eqb
         SecureQuantumZKP.er_counts].
    now rewrite (extract_counts_fallback _ _ _ Hread).
  - rewrite dict_get_set_same.
    now rewrite dict_remove_set_fresh by apply secure_proof_record_unsigned.
Qed.

Lemma ultra_prove_on_fallback
    (self : UltraSecureQuantumZKP.t) (v : vector) (identifier : string)
    (e : UltraSecureQuantumZKP.env) (j : job) (err : exn) :
  v <> [] ->
  UltraSecureQuantumZKP.backend_run e = Ok j ->
  read_counts (job_data j) = Raise err ->
  exists c p,
    UltraSecureQuantumZKP.ultra_secure_prove_vector_knowledge self v identifier e
    = Ok (c, p)
    /\ dict_get "measurement_statistics" p
       = Some (VDict (UltraSecureQuantumZKP._ultra_secure_measurement_analysis self
                        UltraSecureQuantumZKP.synthetic_counts))
    /\ dict_get "signature" p
       = Some (VStr (UltraSecureQuantumZKP._sign_ultra_secure_proof self
                       (dict_remove "signature" p) c
                       (UltraSecureQuantumZKP.sign_nonce e))).
Proof.
  intros Hv Hrun Hread.
  destruct (init_nonempty v "" (UltraSecureQuantumZKP.state_nonce e)
              (UltraSecureQuantumZKP.state_time_ns e) Hv)
    as (_ & st & _ & Hst & _).
  unfold UltraSecureQuantumZKP.ultra_secure_prove_vector_knowledge.
  rewrite Hst, Hrun; cbn [bind UltraSecureQuantumZKP.execute_on_real_hardware].
  eexists; eexists; split; [reflexivity|].
  split.
  - rewrite dict_get_set_other by discriminate.
    cbn [UltraSecureQuantumZKP.proof_record dict_get String.eqb Ascii.eqb Bool.eqb
         UltraSecureQuantumZKP.er_counts].
    now rewrite (extract_counts_fallback _ _ _ Hread).
  - rewrite dict_get_set_same.
    now rewrite dict_remove_set_fresh by apply ultra_proof_record_unsigned.
Qed.

(** The prover stops only where the state vector is refused or the run
    (circuit construction, then the backend call) raises. *)
Lemma secure_prove_raises_only
    (self : SecureQuantumZKP.t) (v : vector) (identifier : string)
    (e : SecureQuantumZKP.env) (err : exn) :
  SecureQuantumZKP.secure_prove_vector_knowledge self v identifier e = Raise err ->
  v = [] \/ SecureQuantumZKP.backend_run e = Raise err.
Proof.
  destruct v as [|a v]; [now left|right].
  revert H; unfold SecureQuantumZKP.secure_prove_vector_knowledge.
  destruct (init_nonempty (a :: v) (SecureQuantumZKP.state_nonce e) "" 0
              ltac:(discriminate)) as (st & _ & -> & _).
  cbn [bind]; unfold SecureQuantumZKP.execute_on_real_hardware.
  destruct (SecureQuantumZKP.backend_run e); cbn [bind]; congruence.
Qed.

(** C3, as the code has it.  When reading the counts raises, the executor
    catches the exception and goes on with its hard-coded counts; for a
    non-empty state vector and a backend call that returned, proof generation
    then completes: it yields a commitment and a signed proof whose
    measurement statistics are those of the hard-coded counts.  Both protocol
    variants. *)
Theorem unreadable_counts_are_replaced
    (self : SecureQuantumZKP.t) (uself : UltraSecureQuantumZKP.t)
    (v : vector) (identifier : string)
    (e : SecureQuantumZKP.env) (ue : UltraSecureQuantumZKP.env)
    (j : job) (err : exn) :
  v <> [] ->
  read_counts (job_data j) = Raise err ->
  SecureQuantumZKP.backend_run e = Ok j ->
  UltraSecureQuantumZKP.backend_run ue = Ok j ->
  extract_counts SecureQuantumZKP.synthetic_counts (job_data j)
  = [("00", 450); ("11", 507); ("01", 28); ("10", 15)]
  /\ extract_counts UltraSecureQuantumZKP.synthetic_counts (job_data j)
     = [("00", 485); ("11", 492); ("01", 12); ("10", 11)]
  /\ (exists c p,
        SecureQuantumZKP.secure_prove_vector_knowledge self v identifier e = Ok (c, p)
        /\ dict_get "measurement_statistics" p
           = Some (VDict (SecureQuantumZKP._secure_measurement_analysis
                            SecureQuantumZKP.synthetic_counts))
        /\ dict_get "signature" p
           = Some (VStr (SecureQuantumZKP._sign_secure_proof
                           (dict_remove "signature" p) c)))
  /\ (exists c p,
        UltraSecureQuantumZKP.ultra_secure_prove_vector_knowledge uself v identifier ue
        = Ok (c, p)
        /\ dict_get "measurement_statistics" p
           = Some (VDict (UltraSecureQuantumZKP._ultra_secure_measurement_analysis uself
                            UltraSecureQuantumZKP.synthetic_counts))
        /\ dict_get "signature" p
           = Some (VStr (UltraSecureQuantumZKP._sign_ultra_secure_proof uself
                           (dict_remove "signature" p) c
                           (UltraSecureQuantumZKP.sign_nonce ue)))).
Proof.
  intros Hv Hread Hrun Hurun.
  split; [now rewrite (extract_counts_fallback _ _ _ Hread)|].
  split; [now rewrite (extract_counts_fallback _ _ _ Hread)|].
  split.
  - now apply secure_prove_on_fallback with (j := j) (err := err).
  - now apply ultra_prove_on_fallback with (j := j) (err := err).
Qed.

End Fallback.

(* ================================================================= *)
(** ** What the verifiers reject, and how *)

Section Rejections.
Context {RT : PyRuntime}.

Lemma negative_bound_check (p : dict) :
  negative_bound p -> bounds_negative p = Ok true.
Proof.
  intros (e & He & [Hn|(Hn & c & Hc & Hcn)]);
    unfold bounds_negative, dict_getitem; rewrite He; cbn [bind]; rewrite Hn;
    cbn [bind]; [reflexivity|].
  rewrite Hc; cbn [bind]; exact Hcn.
Qed.

Lemma nonnegative_bounds_check (p : dict) :
  nonnegative_bounds p -> bounds_negative p = Ok false.
Proof.
  intros (e & c & He & Hn & Hc & Hcn).
  unfold bounds_negative, dict_getitem; rewrite He; cbn [bind]; rewrite Hn;
    cbn [bind]; rewrite Hc; cbn [bind]; exact Hcn.
Qed.

Lemma evidence_check (p : dict) :
  evidence_absent_or_empty p -> evidence_missing p = Ok true.
Proof.
  intros (m & Hm & H).
  unfold evidence_missing, dict_getitem; rewrite Hm; cbn [bind value_get].
  f_equal; destruct H as [-> | ->]; cbn [negb orb]; [reflexivity|].
  apply orb_true_r.
Qed.

Lemma secure_verify_after_earlier_checks (self : SecureQuantumZKP.t) (c p : dict) :
  secure_earlier_checks_pass self c p ->
  SecureQuantumZKP.verify_secure_proof self c p
  = (negative <- bounds_negative p ;;
     if negative then Ok (Rejected InvalidBounds)
     else
       missing <- evidence_missing p ;;
       if missing then Ok (Rejected MissingExecutionMetadata)
       else Ok Accepted).
Proof.
  intros (sig & qd & Hsig & Heq & Hqd & Hdim).
  rewrite (secure_verify_unfold self c p sig Hsig), Heq; cbn [negb].
  unfold dict_getitem at 1; rewrite Hqd; cbn [bind]; rewrite Hdim; reflexivity.
Qed.

Lemma ultra_verify_after_earlier_checks (self : UltraSecureQuantumZKP.t) (c p : dict) :
  ultra_earlier_checks_pass self p ->
  UltraSecureQuantumZKP.verify_ultra_secure_proof self c p
  = (negative <- bounds_negative p ;;
     if negative then Ok (Rejected InvalidBounds)
     else
       missing <- evidence_missing p ;;
       if missing then Ok (Rejected MissingExecutionMetadata)
       else
         _ <- dict_getitem "security_level" p ;;
         _ <- dict_getitem "soundness_error" p ;;
         Ok Accepted).
Proof.
  intros ((sig & Hsig & Ht) & Hlevel & (g & Hg & G1 & G2 & G3 & G4)).
  unfold UltraSecureQuantumZKP.verify_ultra_secure_proof, dict_pop_default.
  rewrite Hsig; cbn [fst]; rewrite Ht, Hlevel, Hg; cbn [negb bind value_get].
  cbn [forallb]; rewrite G1, G2, G3, G4; reflexivity.
Qed.

Lemma ultra_verify_level_mismatch (self : UltraSecureQuantumZKP.t) (c p : dict) :
  ultra_signature_present p ->
  py_eq_int (dict_get_none "security_level" p)
    (UltraSecureQuantumZKP.security_level self) = false ->
  UltraSecureQuantumZKP.verify_ultra_secure_proof self c p
  = Ok (Rejected SecurityLevelMismatch).
Proof.
  intros (sig & Hsig & Ht) Hlevel.
  unfold UltraSecureQuantumZKP.verify_ultra_secure_proof, dict_pop_default.
  rewrite Hsig; cbn [fst]; rewrite Ht, Hlevel; reflexivity.
Qed.

(** C5, on the code.  With the earlier checks passed, either
    verifier answers "Invalid bounds" when a bound is negative, and "Missing
    execution metadata" when the bounds are fine and [job_id] or [backend] is
    absent or empty.  The 256-bit verifier answers "Security level mismatch"
    when the proof's level is not its own; the 128-bit verifier never
    consults its level: two instances of equal dimensions give the same
    answer.  A rejection returns [False].  A proof without an
    [entanglement_bound] entry makes either verifier raise [KeyError]. *)
Theorem verifier_rejections
    (self self' : SecureQuantumZKP.t) (uself : UltraSecureQuantumZKP.t)
    (c p : dict) :
  (secure_earlier_checks_pass self c p -> negative_bound p ->
     SecureQuantumZKP.verify_secure_proof self c p = Ok (Rejected InvalidBounds))
  /\ (ultra_earlier_checks_pass uself p -> negative_bound p ->
        UltraSecureQuantumZKP.verify_ultra_secure_proof uself c p
        = Ok (Rejected InvalidBounds))
  /\ (secure_earlier_checks_pass self c p -> nonnegative_bounds p ->
        evidence_absent_or_empty p ->
        SecureQuantumZKP.verify_secure_proof self c p
        = Ok (Rejected MissingExecutionMetadata))
  /\ (ultra_earlier_checks_pass uself p -> nonnegative_bounds p ->
        evidence_absent_or_empty p ->
        UltraSecureQuantumZKP.verify_ultra_secure_proof uself c p
        = Ok (Rejected MissingExecutionMetadata))
  /\ (ultra_signature_present p ->
        py_eq_int (dict_get_none "security_level" p)
          (UltraSecureQuantumZKP.security_level uself) = false ->
        UltraSecureQuantumZKP.verify_ultra_secure_proof uself c p
        = Ok (Rejected SecurityLevelMismatch))
  /\ (SecureQuantumZKP.dimensions self' = SecureQuantumZKP.dimensions self ->
        SecureQuantumZKP.verify_secure_proof self' c p
        = SecureQuantumZKP.verify_secure_proof self c p)
  /\ (secure_earlier_checks_pass self c p ->
        dict_get "entanglement_bound" p = None ->
        SecureQuantumZKP.verify_secure_proof self c p
        = Raise (KeyError "entanglement_bound"))
  /\ (ultra_earlier_checks_pass uself p ->
        dict_get "entanglement_bound" p = None ->
        UltraSecureQuantumZKP.verify_ultra_secure_proof uself c p
        = Raise (KeyError "entanglement_bound"))
  /\ (forall why, returned (Rejected why) = false).
Proof.
  split.
  { intros H N; rewrite secure_verify_after_earlier_checks by exact H.
    now rewrite negative_bound_check. }
  split.
  { intros H N; rewrite ultra_verify_after_earlier_checks by exact H.
    now rewrite negative_bound_check. }
  split.
  { intros H N E; rewrite secure_verify_after_earlier_checks by exact H.
    rewrite nonnegative_bounds_check by exact N; cbn [bind].
    now rewrite evidence_check. }
  split.
  { intros H N E; rewrite ultra_verify_after_earlier_checks by exact H.
    rewrite nonnegative_bounds_check by exact N; cbn [bind].
    now rewrite evidence_check. }
  split; [apply ultra_verify_level_mismatch|].
  split.
  { intros Hd; unfold SecureQuantumZKP.verify_secure_proof; now rewrite Hd. }
  split.
  { intros H N; rewrite secure_verify_after_earlier_checks by exact H.
    unfold bounds_negative, dict_getitem; now rewrite N. }
  split.
  { intros H N; rewrite ultra_verify_after_earlier_checks by exact H.
    unfold bounds_negative, dict_getitem; now rewrite N. }
  intros why; reflexivity.
Qed.

End Rejections.

(* ================================================================= *)
(** ** Floats of the integers a bound is made of *)

(** Rounding a magnitude with the sign of a non-negative number never gives
    a float below zero. *)
Lemma binary_round_aux_not_negative (m e : Z) (l : SpecFloat.location) :
  SFltb (SpecFloat.binary_round_aux prec emax false m e l) (S754_zero false) = false.
Proof.
  unfold SpecFloat.binary_round_aux.
  destruct (SpecFloat.shr_fexp prec emax m e l) as [mrs' e'].
  destruct (SpecFloat.shr_fexp prec emax _ e' _) as [mrs'' e''].
  destruct (SpecFloat.shr_m mrs''); [reflexivity| |reflexivity].
  destruct (Z.leb _ _); reflexivity.
Qed.

Lemma binary_normalize_not_negative (z : Z) :
  0 <= z ->
  SFltb (SpecFloat.binary_normalize prec emax z 0 false) (S754_zero false) = false.
Proof.
  intros Hz; destruct z as [|p|p]; [reflexivity| |lia].
  unfold SpecFloat.binary_normalize, SpecFloat.binary_round.
  destruct (SpecFloat.shl_align _ _ _) as [mz ez].
  apply binary_round_aux_not_negative.
Qed.

(** [float(z)] for a non-negative integer of machine size is the conversion
    of the hardware. *)
Lemma float_of_Z_of_uint63 (z : Z) :
  0 <= z < 2 ^ 63 -> float_of_Z z = PrimFloat.of_uint63 (Uint63.of_Z z).
Proof.
  intros Hz; unfold float_of_Z.
  rewrite <- (SF2Prim_Prim2SF (PrimFloat.of_uint63 (Uint63.of_Z z))).
  rewrite FloatAxioms.of_uint63_spec.
  rewrite Uint63.of_Z_spec, Z.mod_small; [reflexivity|].
  change Uint63.wB with (2 ^ 63); lia.
Qed.

Lemma float_of_Z_not_negative (z : Z) :
  0 <= z < 2 ^ 63 -> PrimFloat.ltb (float_of_Z z) 0%float = false.
Proof.
  intros Hz; rewrite float_of_Z_of_uint63 by exact Hz.
  rewrite FloatAxioms.ltb_spec, FloatAxioms.of_uint63_spec.
  rewrite Uint63.of_Z_spec, Z.mod_small by (change Uint63.wB with (2 ^ 63); lia).
  change (Prim2SF 0%float) with (S754_zero false).
  apply binary_normalize_not_negative; lia.
Qed.

Lemma entanglement_bound_not_negative (d : Z) :
  0 < d < 2 ^ 63 ->
  PrimFloat.ltb (SecureQuantumStateVector._calculate_entanglement_bound d) 0%float
  = false.
Proof.
  intros Hd; unfold SecureQuantumStateVector._calculate_entanglement_bound, int_log2.
  destruct (Z.ltb_spec (Z.log2 d) 2) as [Hlt|Hge]; [reflexivity|].
  apply float_of_Z_not_negative.
  pose proof (Z.log2_lt_lin d); lia.
Qed.

Lemma coherence_bound_not_negative (d : Z) :
  0 < d < 2 ^ 63 ->
  PrimFloat.ltb (SecureQuantumStateVector._calculate_coherence_bound d) 0%float
  = false.
Proof.
  intros Hd; apply float_of_Z_not_negative; lia.
Qed.

Lemma len_nonempty {A} (v : list A) : v <> [] -> 0 < len v.
Proof. destruct v; [congruence|unfold len; cbn; lia]. Qed.

(* ================================================================= *)
(** ** What the provers return, the verifiers accept *)

Section Completeness.
Context {RT : PyRuntime}.

(** X1.  128-bit variant.  For a non-empty vector, of a length a Python
    sequence can have, and a backend run that returned, the prover returns a
    commitment that records the length of the vector and a proof that records
    the prover's own [dimensions]; the two are never compared.  A verifier
    of other dimensions answers "Dimension mismatch"; one of the same
    dimensions answers "Missing execution metadata" when the job id or the
    backend name is empty, and accepts otherwise. *)
Theorem secure_prover_output_verifies
    (self self' : SecureQuantumZKP.t) (v : vector) (identifier : string)
    (e : SecureQuantumZKP.env) (j : job) :
  v <> [] -> len v < 2 ^ 63 ->
  SecureQuantumZKP.backend_run e = Ok j ->
  exists c p,
    SecureQuantumZKP.secure_prove_vector_knowledge self v identifier e = Ok (c, p)
    /\ dict_get "dimension" c = Some (VInt (len v))
    /\ dict_get "quantum_dimensions" p = Some (VInt (SecureQuantumZKP.dimensions self))
    /\ SecureQuantumZKP.verify_secure_proof self' c p
       = Ok (if negb (SecureQuantumZKP.dimensions self
                      =? SecureQuantumZKP.dimensions self')
             then Rejected DimensionMismatch
             else if ((job_id j =? "") || (backend_name j =? ""))%string
                  then Rejected MissingExecutionMetadata
                  else Accepted).
Proof.
  intros Hv Hlen Hrun.
  pose proof (len_nonempty v Hv) as Hpos.
  unfold SecureQuantumZKP.secure_prove_vector_knowledge.
  unfold SecureQuantumStateVector.__init__.
  assert ((len v =? 0) = false) as -> by (apply Z.eqb_neq; lia).
  rewrite Hrun; cbn [bind SecureQuantumZKP.execute_on_real_hardware].
  eexists; eexists; split; [reflexivity|].
  split; [reflexivity|].
  split; [now rewrite dict_get_set_other by discriminate|].
  rewrite (secure_verify_unfold self' _ _ _ (dict_get_set_same _ _ _)).
  rewrite dict_remove_set_fresh by apply secure_proof_record_unsigned.
  cbn [py_eq_str]; rewrite String.eqb_refl; cbn [negb].
  unfold bounds_negative, evidence_missing, dict_getitem.
  rewrite !(dict_get_set_other "signature") by discriminate.
  cbn [SecureQuantumZKP.proof_record dict_get String.eqb Ascii.eqb Bool.eqb bind
       py_eq_int].
  destruct (_ =? _); cbn [negb]; [|reflexivity].
  cbn [py_lt0 bind SecureQuantumStateVector.entanglement_bound
       SecureQuantumStateVector.coherence_bound].
  rewrite entanglement_bound_not_negative by lia; cbn [bind].
  rewrite coherence_bound_not_negative by lia; cbn [bind value_get].
  cbn [dict_get_none dict_get String.eqb Ascii.eqb Bool.eqb py_truthy
       SecureQuantumZKP.er_job_id SecureQuantumZKP.er_backend].
  destruct (job_id j =? "")%string, (backend_name j =? "")%string; reflexivity.
Qed.

(** X2.  256-bit variant.  Under the same conditions the proof that the
    prover returns is answered by a verifier of another security level with
    "Security level mismatch", and by one of the same level with "Missing
    execution metadata" when the job id or the backend name is empty and with
    acceptance otherwise: whatever commitment it is presented with, and
    whatever the verifier's [dimensions]. *)
Theorem ultra_prover_output_verifies
    (self self' : UltraSecureQuantumZKP.t) (v : vector) (identifier : string)
    (e : UltraSecureQuantumZKP.env) (j : job) (c' : dict) :
  v <> [] -> len v < 2 ^ 63 ->
  UltraSecureQuantumZKP.backend_run e = Ok j ->
  exists c p,
    UltraSecureQuantumZKP.ultra_secure_prove_vector_knowledge self v identifier e
    = Ok (c, p)
    /\ dict_get "dimension" c = Some (VInt (len v))
    /\ dict_get "quantum_dimensions" p
       = Some (VInt (UltraSecureQuantumZKP.dimensions self))
    /\ UltraSecureQuantumZKP.verify_ultra_secure_proof self' c' p
       = Ok (if negb (UltraSecureQuantumZKP.security_level self
                      =? UltraSecureQuantumZKP.security_level self')
             then Rejected SecurityLevelMismatch
             else if ((job_id j =? "") || (backend_name j =? ""))%string
                  then Rejected MissingExecutionMetadata
                  else Accepted).
Proof.
  intros Hv Hlen Hrun.
  pose proof (len_nonempty v Hv) as Hpos.
  unfold UltraSecureQuantumZKP.ultra_secure_prove_vector_knowledge.
  unfold UltraSecureQuantumStateVector.__init__.
  assert ((len v =? 0) = false) as -> by (apply Z.eqb_neq; lia).
  rewrite Hrun; cbn [bind UltraSecureQuantumZKP.execute_on_real_hardware].
  eexists; eexists; split; [reflexivity|].
  split; [reflexivity|].
  split; [now rewrite dict_get_set_other by discriminate|].
  unfold UltraSecureQuantumZKP.verify_ultra_secure_proof, dict_pop_default.
  rewrite dict_get_set_same; cbn [fst py_truthy].
  unfold UltraSecureQuantumZKP._sign_ultra_secure_proof at 1.
  rewrite hexdigest_nonempty; cbn [negb].
  unfold bounds_negative, evidence_missing, dict_getitem, dict_get_none.
  rewrite !(dict_get_set_other "signature") by discriminate.
  cbn [UltraSecureQuantumZKP.proof_record dict_get String.eqb Ascii.eqb Bool.eqb bind
       py_eq_int].
  destruct (_ =? _); cbn [negb]; [|reflexivity].
  cbn [value_get bind dict_get_none dict_get String.eqb Ascii.eqb Bool.eqb
       forallb py_truthy andb negb].
  cbn [py_lt0 bind UltraSecureQuantumStateVector.entanglement_bound
       UltraSecureQuantumStateVector.coherence_bound].
  change (UltraSecureQuantumStateVector._calculate_entanglement_bound (len v))
    with (SecureQuantumStateVector._calculate_entanglement_bound (len v)).
  change (UltraSecureQuantumStateVector._calculate_coherence_bound (len v))
    with (SecureQuantumStateVector._calculate_coherence_bound (len v)).
  rewrite entanglement_bound_not_negative by lia; cbn [bind].
  rewrite coherence_bound_not_negative by lia; cbn [bind value_get].
  cbn [dict_get_none dict_get String.eqb Ascii.eqb Bool.eqb py_truthy
       UltraSecureQuantumZKP.er_job_id UltraSecureQuantumZKP.er_backend].
  destruct (job_id j =? "")%string, (backend_name j =? "")%string; reflexivity.
Qed.

(** X3.  After its call of the circuit builder and the backend, a prover
    uses the vector through its length only: when that call has the same
    outcome [r] for two vectors of the same length (a job, or an exception),
    then with the same nonces and clock readings the two get the same
    commitment and the same proof, or the same exception.  The amplitudes
    enter what is published through the outcome of the run and nowhere
    else. *)
Theorem amplitudes_enter_through_the_run_only
    (self : SecureQuantumZKP.t) (uself : UltraSecureQuantumZKP.t)
    (v1 v2 : vector) (identifier : string)
    (e : SecureQuantumZKP.env) (ue : UltraSecureQuantumZKP.env) (r : result job) :
  len v1 = len v2 ->
  SecureQuantumZKP.secure_prove_vector_knowledge self v1 identifier
    (SecureQuantumZKP.env_with_run e r)
  = SecureQuantumZKP.secure_prove_vector_knowledge self v2 identifier
      (SecureQuantumZKP.env_with_run e r)
  /\ UltraSecureQuantumZKP.ultra_secure_prove_vector_knowledge uself v1 identifier
       (UltraSecureQuantumZKP.env_with_run ue r)
     = UltraSecureQuantumZKP.ultra_secure_prove_vector_knowledge uself v2 identifier
         (UltraSecureQuantumZKP.env_with_run ue r).
Proof.
  intros H.
  unfold SecureQuantumZKP.secure_prove_vector_knowledge,
    UltraSecureQuantumZKP.ultra_secure_prove_vector_knowledge,
    SecureQuantumStateVector.__init__, UltraSecureQuantumStateVector.__init__.
  rewrite H; destruct (len v2 =? 0); cbn [bind]; [split; reflexivity|].
  split.
  - destruct (SecureQuantumZKP.execute_on_real_hardware _ _); cbn [bind]; reflexivity.
  - destruct (UltraSecureQuantumZKP.execute_on_real_hardware _ _); cbn [bind];
      reflexivity.
Qed.

End Completeness.

(* ================================================================= *)
(** ** Counting bitstrings *)

Lemma counts_get_set_same (k : string) (n : Z) (c : counts) :
  counts_get k (counts_set k n c) = Some n.
Proof.
  induction c as [|[k' n'] c IH]; cbn.
  - now rewrite String.eqb_refl.
  - destruct (String.eqb k k') eqn:E; cbn; rewrite ?String.eqb_refl, ?E; auto.
Qed.

Lemma counts_get_set_other (k k' : string) (n : Z) (c : counts) :
  k <> k' -> counts_get k (counts_set k' n c) = counts_get k c.
Proof.
  intros Hk; apply String.eqb_neq in Hk.
  induction c as [|[k'' n''] c IH]; cbn.
  - now rewrite Hk.
  - destruct (String.eqb k' k'') eqn:E; cbn.
    + apply String.eqb_eq in E; subst k''; now rewrite Hk.
    + now rewrite IH.
Qed.

Lemma counts_get_None (k : string) (c : counts) :
  counts_get k c = None <-> ~ In k (map fst c).
Proof.
  induction c as [|[k' n'] c IH]; cbn; [tauto|].
  destruct (String.eqb_spec k k') as [->|Hne].
  - split; [discriminate|intros H; exfalso; apply H; now left].
  - rewrite IH; split; [intros H [E|I]; [congruence|tauto]|tauto].
Qed.

Lemma counts_set_keys (k : string) (n : Z) (c : counts) :
  map fst (counts_set k n c)
  = match counts_get k c with
    | Some _ => map fst c
    | None => map fst c ++ [k]
    end.
Proof.
  induction c as [|[k' n'] c IH]; cbn; [reflexivity|].
  destruct (String.eqb_spec k k') as [->|Hne]; cbn; [reflexivity|].
  rewrite IH; destruct (counts_get k c); reflexivity.
Qed.

Lemma counts_total_set (k : string) (n : Z) (c : counts) :
  counts_total (counts_set k n c) = counts_total c + n - count_of k c.
Proof.
  unfold count_of.
  induction c as [|[k' n'] c IH]; cbn [counts_set counts_get].
  - unfold counts_total; cbn; lia.
  - destruct (String.eqb k k'); rewrite !counts_total_cons; [lia|rewrite IH; lia].
Qed.

Lemma count_bitstrings_cons (b : string) (rest : list string) (c : counts) :
  count_bitstrings (b :: rest) c = count_bitstrings rest (count_one b c).
Proof. reflexivity. Qed.

Lemma count_one_get (b k : string) (c : counts) :
  counts_get k (count_one b c)
  = if String.eqb k b then Some (count_of b c + 1) else counts_get k c.
Proof.
  unfold count_one, count_of.
  destruct (String.eqb_spec k b) as [->|Hne].
  - rewrite counts_get_set_same.
    destruct (counts_get b c) eqn:E; [now rewrite E|].
    now rewrite counts_get_set_same.
  - rewrite counts_get_set_other by exact Hne.
    destruct (counts_get b c); [reflexivity|].
    now rewrite counts_get_set_other.
Qed.

Lemma count_one_keys (b : string) (c : counts) :
  map fst (count_one b c)
  = if in_dec string_dec b (map fst c) then map fst c else map fst c ++ [b].
Proof.
  unfold count_one.
  destruct (counts_get b c) as [n|] eqn:E.
  - rewrite counts_set_keys, E.
    destruct (in_dec string_dec b (map fst c)) as [_|N]; [reflexivity|].
    apply counts_get_None in N; congruence.
  - rewrite counts_set_keys, counts_get_set_same, counts_set_keys, E.
    destruct (in_dec string_dec b (map fst c)) as [I|_]; [|reflexivity].
    apply counts_get_None in E; tauto.
Qed.

Lemma count_one_total (b : string) (c : counts) :
  counts_total (count_one b c) = counts_total c + 1.
Proof.
  unfold count_one.
  destruct (counts_get b c) as [n|] eqn:E.
  - rewrite counts_total_set; unfold count_of; rewrite E; lia.
  - rewrite counts_total_set; unfold count_of.
    rewrite counts_get_set_same, counts_total_set; unfold count_of; rewrite E; lia.
Qed.

Lemma count_bitstrings_get (bitstrings : list string) (c : counts) (k : string) :
  counts_get k (count_bitstrings bitstrings c)
  = match count_occ string_dec bitstrings k with
    | O => counts_get k c
    | S n => Some (count_of k c + Z.of_nat (S n))
    end.
Proof.
  revert c; induction bitstrings as [|b rest IH]; intros c; [reflexivity|].
  rewrite count_bitstrings_cons, IH; cbn [count_occ].
  assert (count_of k (count_one b c)
          = if String.eqb k b then count_of b c + 1 else count_of k c) as ->
    by (unfold count_of at 1; rewrite count_one_get; now destruct (String.eqb k b)).
  rewrite count_one_get.
  destruct (string_dec b k) as [->|Hne].
  - rewrite String.eqb_refl.
    destruct (count_occ string_dec rest k); apply f_equal; lia.
  - assert (String.eqb k b = false) as -> by (apply String.eqb_neq; congruence).
    reflexivity.
Qed.

Lemma count_bitstrings_total (bitstrings : list string) (c : counts) :
  counts_total (count_bitstrings bitstrings c) = counts_total c + len bitstrings.
Proof.
  revert c; induction bitstrings as [|b rest IH]; intros c.
  - unfold len; cbn [count_bitstrings List.length]; lia.
  - rewrite count_bitstrings_cons, IH, count_one_total; unfold len; cbn [List.length]; lia.
Qed.

Lemma count_bitstrings_keys (bitstrings : list string) (c : counts) :
  NoDup (map fst c) ->
  NoDup (map fst (count_bitstrings bitstrings c))
  /\ (forall k, In k (map fst (count_bitstrings bitstrings c))
                <-> In k (map fst c) \/ In k bitstrings).
Proof.
  revert c; induction bitstrings as [|b rest IH]; intros c ND.
  - cbn; split; [exact ND|tauto].
  - rewrite count_bitstrings_cons.
    assert (NoDup (map fst (count_one b c))) as ND'.
    { rewrite count_one_keys; destruct (in_dec _ _ _) as [I|N]; [exact ND|].
      apply NoDup_app; repeat split; auto.
      - constructor; [tauto|constructor].
      - intros x Hx [<-|[]]; tauto. }
    destruct (IH _ ND') as [H1 H2]; split; [exact H1|].
    intros k; rewrite H2, count_one_keys.
    destruct (in_dec _ _ _) as [I|N]; cbn [In]; [|rewrite in_app_iff; cbn [In]].
    + split; [tauto|]. intros [H|[<-|H]]; tauto.
    + tauto.
Qed.

Lemma count_bitstrings_distinct (bitstrings : list string) :
  len (count_bitstrings bitstrings []) = len (nodup string_dec bitstrings).
Proof.
  destruct (count_bitstrings_keys bitstrings [] (NoDup_nil _)) as [ND Hin].
  unfold len; f_equal.
  rewrite <- (length_map fst).
  apply Permutation_length, NoDup_Permutation;
    [exact ND|apply NoDup_nodup|].
  intros k; rewrite Hin, nodup_In; cbn [map In]; tauto.
Qed.

(** X4.  The loop that counts bitstrings (the path taken when the result
    has neither [meas] nor [c]) builds a dictionary with one key per distinct
    bitstring, whose value is the number of times the bitstring occurs; the
    values add up to the number of bitstrings. *)
Theorem bitstrings_are_counted_by_occurrence (bitstrings : list string) :
  let c := count_bitstrings bitstrings [] in
  NoDup (map fst c)
  /\ (forall b,
        counts_get b c
        = if in_dec string_dec b bitstrings
          then Some (Z.of_nat (count_occ string_dec bitstrings b))
          else None)
  /\ counts_total c = len bitstrings
  /\ len c = len (nodup string_dec bitstrings).
Proof.
  intros c; subst c.
  split; [apply (count_bitstrings_keys bitstrings [] (NoDup_nil _))|].
  split.
  { intros b; rewrite count_bitstrings_get.
    destruct (in_dec string_dec b bitstrings) as [I|N].
    - apply (count_occ_In string_dec) in I.
      destruct (count_occ string_dec bitstrings b); [lia|].
      unfold count_of; cbn [counts_get]; f_equal; lia.
    - apply (count_occ_not_In string_dec) in N; now rewrite N. }
  split; [rewrite count_bitstrings_total; reflexivity|].
  apply count_bitstrings_distinct.
Qed.

Section Bitstrings.
Context {RT : PyRuntime}.

Lemma extract_counts_bitstrings (d : pub_data) (bs : list string) :
  data_meas d = None -> data_c d = None -> data_get_bitstrings d = Ok bs ->
  forall fallback, extract_counts fallback d = count_bitstrings bs [].
Proof.
  intros Hm Hc Hb fallback; unfold extract_counts, read_counts.
  now rewrite Hm, Hc, Hb.
Qed.

(** X5.  When the result of the job has neither [meas] nor [c] and
    [get_bitstrings()] returns, the proof of either variant reports as
    [total_measurements] the number of bitstrings, as [unique_outcomes] the
    number of distinct ones, and as [entropy_bound] the [np.log2] of the
    latter. *)
Theorem statistics_of_counted_bitstrings
    (self : SecureQuantumZKP.t) (uself : UltraSecureQuantumZKP.t)
    (v : vector) (identifier : string)
    (e : SecureQuantumZKP.env) (ue : UltraSecureQuantumZKP.env)
    (j : job) (bitstrings : list string) :
  v <> [] ->
  data_meas (job_data j) = None ->
  data_c (job_data j) = None ->
  data_get_bitstrings (job_data j) = Ok bitstrings ->
  SecureQuantumZKP.backend_run e = Ok j ->
  UltraSecureQuantumZKP.backend_run ue = Ok j ->
  let distinct := len (nodup string_dec bitstrings) in
  (exists c p,
     SecureQuantumZKP.secure_prove_vector_knowledge self v identifier e = Ok (c, p)
     /\ dict_get "measurement_statistics" p
        = Some (VDict
            [ ("total_measurements", VInt (len bitstrings));
              ("unique_outcomes", VInt distinct);
              ("entropy_bound", VFloat (np_log2 distinct));
              ("distribution_type", VStr "quantum_measurement") ]))
  /\ (exists c p,
        UltraSecureQuantumZKP.ultra_secure_prove_vector_knowledge uself v identifier ue
        = Ok (c, p)
        /\ dict_get "measurement_statistics" p
           = Some (VDict
               [ ("total_measurements", VInt (len bitstrings));
                 ("unique_outcomes", VInt distinct);
                 ("entropy_bound", VFloat (np_log2 distinct));
                 ("distribution_type", VStr "ultra_secure_quantum_measurement");
                 ("security_level",
                   VInt (UltraSecureQuantumZKP.security_level uself)) ])).
Proof.
  intros Hv Hm Hc Hb Hrun Hurun distinct.
  pose proof (count_bitstrings_total bitstrings []) as Ht.
  pose proof (count_bitstrings_distinct bitstrings) as Hn.
  change (counts_total []) with 0 in Ht; rewrite Z.add_0_l in Ht.
  split.
  - destruct (init_nonempty v (SecureQuantumZKP.state_nonce e) "" 0 Hv)
      as (st & _ & Hst & _).
    unfold SecureQuantumZKP.secure_prove_vector_knowledge.
    rewrite Hst, Hrun; cbn [bind SecureQuantumZKP.execute_on_real_hardware].
    eexists; eexists; split; [reflexivity|].
    rewrite dict_get_set_other by discriminate.
    cbn [SecureQuantumZKP.proof_record dict_get String.eqb Ascii.eqb Bool.eqb
         SecureQuantumZKP.er_counts].
    rewrite (extract_counts_bitstrings _ _ Hm Hc Hb).
    unfold SecureQuantumZKP._secure_measurement_analysis.
    now rewrite Ht, Hn.
  - destruct (init_nonempty v "" (UltraSecureQuantumZKP.state_nonce ue)
                (UltraSecureQuantumZKP.state_time_ns ue) Hv)
      as (_ & st & _ & Hst & _).
    unfold UltraSecureQuantumZKP.ultra_secure_prove_vector_knowledge.
    rewrite Hst, Hurun; cbn [bind UltraSecureQuantumZKP.execute_on_real_hardware].
    eexists; eexists; split; [reflexivity|].
    rewrite dict_get_set_other by discriminate.
    cbn [UltraSecureQuantumZKP.proof_record dict_get String.eqb Ascii.eqb Bool.eqb
         UltraSecureQuantumZKP.er_counts].
    rewrite (extract_counts_bitstrings _ _ Hm Hc Hb).
    unfold UltraSecureQuantumZKP._ultra_secure_measurement_analysis.
    now rewrite Ht, Hn.
Qed.

End Bitstrings.

(* ================================================================= *)
(** ** The bytes encoder: how much of the secret reaches the state *)

Lemma byte_pairs_firstn (n : nat) (l : list Z) :
  EncoderSpec.byte_pairs (firstn (2 * n) l) = firstn n (EncoderSpec.byte_pairs l).
Proof.
  revert l; induction n as [|n IH]; intros l; [reflexivity|].
  replace (2 * S n)%nat with (S (S (2 * n))) by lia.
  destruct l as [|a [|b l]]; try reflexivity.
  cbn [firstn EncoderSpec.byte_pairs]; f_equal; apply IH.
Qed.

Lemma byte_pairs_length_32 (l : list Z) :
  List.length l = 32%nat -> List.length (EncoderSpec.byte_pairs l) = 16%nat.
Proof.
  intros Hl; do 33 (destruct l as [|? l]; try discriminate Hl); reflexivity.
Qed.

(** X6.  A digest has 32 bytes, that is 16 amplitudes: for a target
    dimension of 16 or more, the amplitudes handed to the normalization are
    those 16 followed by zeros only. *)
Theorem amplitudes_past_the_digest_are_padding
    (self : BytesToQuantumStateConverter.t) (data_bytes : bytes) (label : string) :
  let d := BytesToQuantumStateConverter.target_dimension self in
  let from_digest :=
    map EncoderSpec.amplitude
        (EncoderSpec.byte_pairs (SHA256.digest_list data_bytes)) in
  16 <= d ->
  List.length from_digest = 16%nat
  /\ BytesToQuantumStateConverter.amplitudes_of self data_bytes
     = from_digest ++ repeat (0%float, 0%float) (Z.to_nat (d - 16))
  /\ fst (BytesToQuantumStateConverter.bytes_to_quantum_state self data_bytes label)
     = np_normalize (from_digest ++ repeat (0%float, 0%float) (Z.to_nat (d - 16))).
Proof.
  intros d from_digest Hd.
  assert (List.length from_digest = 16%nat) as H16
    by (subst from_digest; rewrite length_map;
        apply byte_pairs_length_32, digest_list_length).
  assert (BytesToQuantumStateConverter.amplitudes_of self data_bytes
          = from_digest ++ repeat (0%float, 0%float) (Z.to_nat (d - 16))) as E.
  { rewrite amplitudes_follow_spec; unfold EncoderSpec.amplitudes; fold d from_digest.
    rewrite firstn_app, H16, (firstn_all2 (n := Z.to_nat d) from_digest) by lia.
    f_equal; rewrite firstn_repeat_le by lia; f_equal; lia. }
  split; [exact H16|]; split; [exact E|].
  unfold BytesToQuantumStateConverter.bytes_to_quantum_state; cbn [fst]; now rewrite E.
Qed.

(** X7.  The state vector depends on the secret through the first [2 d]
    bytes of its digest only, [d] being the target dimension: two secrets
    whose digests agree there are encoded as the same state. *)
Theorem state_depends_on_a_digest_prefix
    (self : BytesToQuantumStateConverter.t) (data1 data2 : bytes)
    (label1 label2 : string) :
  let d := BytesToQuantumStateConverter.target_dimension self in
  firstn (2 * Z.to_nat d) (SHA256.digest_list data1)
  = firstn (2 * Z.to_nat d) (SHA256.digest_list data2) ->
  fst (BytesToQuantumStateConverter.bytes_to_quantum_state self data1 label1)
  = fst (BytesToQuantumStateConverter.bytes_to_quantum_state self data2 label2).
Proof.
  intros d H.
  unfold BytesToQuantumStateConverter.bytes_to_quantum_state; cbn [fst]; f_equal.
  rewrite !amplitudes_follow_spec; unfold EncoderSpec.amplitudes; fold d.
  rewrite !firstn_app, !length_map, !byte_pairs_length_32
    by apply digest_list_length.
  rewrite !firstn_map, <- !byte_pairs_firstn, H; reflexivity.
Qed.

(** The affine map of the encoder sends different bytes to different
    floats: checked on the 256 x 256 pairs. *)
Lemma affine_injective (b1 b2 : Z) :
  0 <= b1 < 256 -> 0 <= b2 < 256 ->
  EncoderSpec.affine b1 = EncoderSpec.affine b2 -> b1 = b2.
Proof.
  intros H1 H2 E.
  assert (forallb (fun i =>
            forallb (fun j =>
              implb (PrimFloat.eqb (EncoderSpec.affine (Z.of_nat i))
                                   (EncoderSpec.affine (Z.of_nat j)))
                    (Nat.eqb i j))
              (seq 0 256))
            (seq 0 256) = true) as Hall by (vm_compute; reflexivity).
  rewrite forallb_forall in Hall.
  specialize (Hall (Z.to_nat b1) ltac:(apply in_seq; lia)).
  rewrite forallb_forall in Hall.
  specialize (Hall (Z.to_nat b2) ltac:(apply in_seq; lia)).
  cbv beta in Hall.
  rewrite (Z2Nat.id b1), (Z2Nat.id b2) in Hall by lia.
  rewrite <- E in Hall.
  destruct (PrimFloat.eqb (EncoderSpec.affine b1) (EncoderSpec.affine b1)) eqn:Eq.
  - cbn [implb] in Hall; apply Nat.eqb_eq in Hall; lia.
  - (* the float is not a NaN *)
    assert (forallb (fun i => PrimFloat.eqb (EncoderSpec.affine (Z.of_nat i))
                                            (EncoderSpec.affine (Z.of_nat i)))
              (seq 0 256) = true) as Hnan by (vm_compute; reflexivity).
    rewrite forallb_forall in Hnan.
    specialize (Hnan (Z.to_nat b1) ltac:(apply in_seq; lia)).
    cbv beta in Hnan; rewrite Z2Nat.id in Hnan by lia; congruence.
Qed.

Lemma amplitudes_determine_bytes (n : nat) : forall l1 l2 : list Z,
  Forall (fun b => 0 <= b < 256) l1 -> Forall (fun b => 0 <= b < 256) l2 ->
  (2 * n <= List.length l1)%nat -> (2 * n <= List.length l2)%nat ->
  firstn n (map EncoderSpec.amplitude (EncoderSpec.byte_pairs l1))
  = firstn n (map EncoderSpec.amplitude (EncoderSpec.byte_pairs l2)) ->
  firstn (2 * n) l1 = firstn (2 * n) l2.
Proof.
  induction n as [|n IH]; intros l1 l2 F1 F2 L1 L2 E; [reflexivity|].
  replace (2 * S n)%nat with (S (S (2 * n))) in * by lia.
  destruct l1 as [|a1 [|b1 l1]]; cbn [List.length] in L1; try lia.
  destruct l2 as [|a2 [|b2 l2]]; cbn [List.length] in L2; try lia.
  cbn [EncoderSpec.byte_pairs map firstn] in E.
  injection E as Ea Eb E.
  inversion F1 as [|? ? Ha1 F1']; inversion F1' as [|? ? Hb1 F1'']; subst.
  inversion F2 as [|? ? Ha2 F2']; inversion F2' as [|? ? Hb2 F2'']; subst.
  cbn [firstn]; f_equal; [now apply affine_injective|].
  f_equal; [now apply affine_injective|].
  apply IH; auto; lia.
Qed.

(** X15.  Before the normalization, the amplitudes are an exact image of
    the digest prefix: two secrets get the same amplitudes exactly when their
    SHA-256 digests agree on the first [2 d] bytes, [d] being the target
    dimension (the whole digest from [d = 16] on). *)
Theorem amplitudes_encode_the_digest_prefix
    (self : BytesToQuantumStateConverter.t) (data1 data2 : bytes) :
  let d := BytesToQuantumStateConverter.target_dimension self in
  BytesToQuantumStateConverter.amplitudes_of self data1
  = BytesToQuantumStateConverter.amplitudes_of self data2
  <-> firstn (2 * Z.to_nat d) (SHA256.digest_list data1)
      = firstn (2 * Z.to_nat d) (SHA256.digest_list data2).
Proof.
  intros d.
  rewrite !amplitudes_follow_spec; unfold EncoderSpec.amplitudes; fold d.
  set (l1 := SHA256.digest_list data1); set (l2 := SHA256.digest_list data2).
  pose proof (digest_list_length data1 : List.length l1 = 32%nat) as L1.
  pose proof (digest_list_length data2 : List.length l2 = 32%nat) as L2.
  pose proof (digest_list_bytes data1 : Forall _ l1) as F1.
  pose proof (digest_list_bytes data2 : Forall _ l2) as F2.
  rewrite !firstn_app, !length_map, !byte_pairs_length_32 by assumption.
  split.
  - intros E; apply app_inv_tail in E.
    destruct (Nat.le_gt_cases (Z.to_nat d) 16) as [Hle|Hgt].
    + apply amplitudes_determine_bytes; auto; lia.
    + rewrite !(firstn_all2 (n := 2 * Z.to_nat d)) by lia.
      rewrite <- (firstn_all l1), <- (firstn_all l2), L1, L2.
      apply (amplitudes_determine_bytes 16); auto; try lia.
      rewrite !(firstn_all2 (n := Z.to_nat d)) in E
        by (rewrite length_map, byte_pairs_length_32; auto; lia).
      now rewrite E.
  - intros E; f_equal.
    rewrite !firstn_map, <- !byte_pairs_firstn, E; reflexivity.
Qed.

Lemma state_from_published_digest (data_bytes : bytes) (d : Z) :
  state_from_published (VStr (SHA256.hexdigest data_bytes)) (VInt d)
  = np_normalize (EncoderSpec.amplitudes data_bytes d).
Proof.
  unfold state_from_published; now rewrite bytes_fromhex_hexdigest.
Qed.

(** X8.  The metadata returned with the state vector holds the hexadecimal
    SHA-256 digest of the secret and the dimension, and the state vector is a
    function of these two fields: it can be computed from the metadata,
    without the bytes. *)
Theorem state_is_computable_from_the_metadata
    (self : BytesToQuantumStateConverter.t) (data_bytes : bytes) (label : string) :
  let conversion :=
    BytesToQuantumStateConverter.bytes_to_quantum_state self data_bytes label in
  dict_get "hash_sha256" (snd conversion) = Some (VStr (SHA256.hexdigest data_bytes))
  /\ dict_get "dimension" (snd conversion)
     = Some (VInt (BytesToQuantumStateConverter.target_dimension self))
  /\ fst conversion
     = state_from_published (dict_get_none "hash_sha256" (snd conversion))
                            (dict_get_none "dimension" (snd conversion)).
Proof.
  intros conversion; subst conversion.
  unfold BytesToQuantumStateConverter.bytes_to_quantum_state; cbn [fst snd].
  split; [reflexivity|]; split; [reflexivity|].
  cbn [dict_get_none dict_get String.eqb Ascii.eqb Bool.eqb].
  now rewrite state_from_published_digest, amplitudes_follow_spec.
Qed.

(* ================================================================= *)
(** ** The bytes prover *)

Section BytesProver.
Context {RT : PyRuntime} {ST : PyStr}.

Lemma bytes_prove_returns (self : UltraSecureBytesQZKP.t) (data_bytes : bytes)
    (label : string) (e : UltraSecureBytesQZKP.env) (j : job) :
  UltraSecureBytesQZKP.backend_run e = Ok j ->
  exists c p,
    UltraSecureBytesQZKP.prove_bytes_knowledge self data_bytes label e
    = Ok (c, p,
          snd (BytesToQuantumStateConverter.bytes_to_quantum_state
                 UltraSecureBytesQZKP.converter data_bytes label))
    /\ dict_get "bytes_metadata" p
       = Some (VDict
           [ ("label", VStr label);
             ("bytes_length", VInt (Z.of_nat (String.length data_bytes)));
             ("hash_sha256", VStr (SHA256.hexdigest data_bytes));
             ("conversion_method", VStr "sha256_hash_to_complex_amplitudes") ])
    /\ dict_get "quantum_state_metadata" p
       = Some (VDict
           [ ("dimension", VInt 4);
             ("num_qubits", VInt (int_log2 4));
             ("norm",
               VFloat (np_linalg_norm
                  (fst (BytesToQuantumStateConverter.bytes_to_quantum_state
                          UltraSecureBytesQZKP.converter data_bytes label)))) ])
    /\ forall d : pub_data,
         UltraSecureBytesQZKP.prove_bytes_knowledge self data_bytes label
           {| UltraSecureBytesQZKP.backend_run := Ok (job_with_data j d);
              UltraSecureBytesQZKP.commit_nonce := UltraSecureBytesQZKP.commit_nonce e;
              UltraSecureBytesQZKP.commit_time_ns :=
                UltraSecureBytesQZKP.commit_time_ns e;
              UltraSecureBytesQZKP.proof_time := UltraSecureBytesQZKP.proof_time e;
              UltraSecureBytesQZKP.sign_nonce := UltraSecureBytesQZKP.sign_nonce e |}
         = Ok (c, p,
               snd (BytesToQuantumStateConverter.bytes_to_quantum_state
                      UltraSecureBytesQZKP.converter data_bytes label)).
Proof.
  intros Hrun.
  unfold UltraSecureBytesQZKP.prove_bytes_knowledge,
    UltraSecureBytesQZKP._execute_on_real_hardware,
    UltraSecureBytesQZKP.proof_record,
    BytesToQuantumStateConverter.bytes_to_quantum_state.
  rewrite Hrun;
    cbn [fst snd bind dict_getitem dict_get String.eqb Ascii.eqb Bool.eqb
         UltraSecureBytesQZKP.backend_run UltraSecureBytesQZKP.commit_nonce
         UltraSecureBytesQZKP.commit_time_ns UltraSecureBytesQZKP.proof_time
         UltraSecureBytesQZKP.sign_nonce].
  rewrite py_str_str.
  eexists; eexists; split; [reflexivity|].
  split; [reflexivity|].
  split; [reflexivity|].
  intros d; reflexivity.
Qed.

(** X9.  The bytes prover returns for every byte string, the empty one
    included, as soon as the backend run returned; and nothing that was
    measured enters what it returns: with any other result payload for the
    same job, readable or not, the commitment, the proof and the metadata are
    the same. *)
Theorem bytes_proof_ignores_the_measurement
    (self : UltraSecureBytesQZKP.t) (data_bytes : bytes) (label : string)
    (e : UltraSecureBytesQZKP.env) (j : job) :
  UltraSecureBytesQZKP.backend_run e = Ok j ->
  exists c p m,
    UltraSecureBytesQZKP.prove_bytes_knowledge self data_bytes label e = Ok (c, p, m)
    /\ forall d : pub_data,
         UltraSecureBytesQZKP.prove_bytes_knowledge self data_bytes label
           {| UltraSecureBytesQZKP.backend_run := Ok (job_with_data j d);
              UltraSecureBytesQZKP.commit_nonce := UltraSecureBytesQZKP.commit_nonce e;
              UltraSecureBytesQZKP.commit_time_ns :=
                UltraSecureBytesQZKP.commit_time_ns e;
              UltraSecureBytesQZKP.proof_time := UltraSecureBytesQZKP.proof_time e;
              UltraSecureBytesQZKP.sign_nonce := UltraSecureBytesQZKP.sign_nonce e |}
         = Ok (c, p, m).
Proof.
  intros Hrun.
  destruct (bytes_prove_returns self data_bytes label e j Hrun)
    as (c & p & Hp & _ & _ & Hd).
  exists c, p; eexists; split; [exact Hp|exact Hd].
Qed.

(** X10.  The proof of the bytes variant carries the SHA-256 digest of the
    secret, and with it the quantum state: the state vector that the prover
    prepares is a function of the proof record alone. *)
Theorem bytes_proof_discloses_the_state
    (self : UltraSecureBytesQZKP.t) (data_bytes : bytes) (label : string)
    (e : UltraSecureBytesQZKP.env) (c p m : dict) :
  UltraSecureBytesQZKP.prove_bytes_knowledge self data_bytes label e = Ok (c, p, m) ->
  fst (BytesToQuantumStateConverter.bytes_to_quantum_state
         UltraSecureBytesQZKP.converter data_bytes label)
  = state_from_proof p.
Proof.
  intros H.
  destruct (UltraSecureBytesQZKP.backend_run e) as [j|err] eqn:Hrun.
  2:{ unfold UltraSecureBytesQZKP.prove_bytes_knowledge,
        UltraSecureBytesQZKP._execute_on_real_hardware in H.
      rewrite Hrun in H; discriminate. }
  destruct (bytes_prove_returns self data_bytes label e j Hrun)
    as (c0 & p0 & Hp & Hb & Hq & _).
  rewrite Hp in H; injection H as <- <- <-.
  unfold state_from_proof; rewrite Hb, Hq.
  cbn [dict_get_none dict_get String.eqb Ascii.eqb Bool.eqb].
  rewrite state_from_published_digest.
  unfold BytesToQuantumStateConverter.bytes_to_quantum_state; cbn [fst].
  now rewrite amplitudes_follow_spec.
Qed.

End BytesProver.

(* ================================================================= *)
(** ** A signature that anyone can compute *)

Lemma dict_get_remove_same (k : string) (d : dict) :
  dict_get k (dict_remove k d) = None.
Proof.
  induction d as [|[k' v'] d IH]; cbn; [reflexivity|].
  destruct (String.eqb k k') eqn:E; cbn; rewrite ?E; exact IH.
Qed.

Section Resigning.
Context {RT : PyRuntime}.

(** After the signature, the 128-bit verifier reads four fields. *)
Lemma secure_checks_read_four_fields (self : SecureQuantumZKP.t) (p q : dict) :
  (forall k, In k (tl secure_checked_fields) -> dict_get k q = dict_get k p) ->
  (quantum_dimensions <- dict_getitem "quantum_dimensions" q ;;
   if negb (py_eq_int quantum_dimensions (SecureQuantumZKP.dimensions self))
   then Ok (Rejected DimensionMismatch)
   else
     negative <- bounds_negative q ;;
     if negative then Ok (Rejected InvalidBounds)
     else
       missing <- evidence_missing q ;;
       if missing then Ok (Rejected MissingExecutionMetadata)
       else Ok Accepted)
  = (quantum_dimensions <- dict_getitem "quantum_dimensions" p ;;
     if negb (py_eq_int quantum_dimensions (SecureQuantumZKP.dimensions self))
     then Ok (Rejected DimensionMismatch)
     else
       negative <- bounds_negative p ;;
       if negative then Ok (Rejected InvalidBounds)
       else
         missing <- evidence_missing p ;;
         if missing then Ok (Rejected MissingExecutionMetadata)
         else Ok Accepted).
Proof.
  intros H.
  unfold bounds_negative, evidence_missing, dict_getitem.
  rewrite (H "quantum_dimensions"), (H "entanglement_bound"),
    (H "coherence_bound"), (H "execution_metadata") by (cbn; tauto).
  reflexivity.
Qed.

(** X11.  The signature of the 128-bit variant is a hash without a key.
    Take a proof that is accepted, give any field that the verifier does not
    read any value, pair it with any commitment and sign again with
    [_sign_secure_proof]: the result is accepted. *)
Theorem unchecked_fields_can_be_rewritten
    (self : SecureQuantumZKP.t) (c c' p : dict) (k : string) (v : value) :
  SecureQuantumZKP.verify_secure_proof self c p = Ok Accepted ->
  ~ In k secure_checked_fields ->
  let q := dict_set k v (dict_remove "signature" p) in
  SecureQuantumZKP.verify_secure_proof self c'
    (dict_set "signature" (VStr (SecureQuantumZKP._sign_secure_proof q c')) q)
  = Ok Accepted.
Proof.
  intros Hacc Hk q.
  assert (k <> "signature") as Hks by (intros ->; apply Hk; cbn; tauto).
  assert (dict_get "signature" q = None) as Hfresh.
  { subst q; rewrite dict_get_set_other by exact Hks. apply dict_get_remove_same. }
  destruct (dict_get "signature" p) as [sig|] eqn:Hsig.
  2:{ unfold SecureQuantumZKP.verify_secure_proof, dict_pop in Hacc.
      rewrite Hsig in Hacc; discriminate. }
  rewrite (secure_verify_unfold self c p sig Hsig) in Hacc.
  destruct (negb (py_eq_str sig _)); [discriminate|].
  rewrite (secure_verify_unfold self c' _ _ (dict_get_set_same _ _ _)).
  rewrite dict_remove_set_fresh by exact Hfresh.
  cbn [py_eq_str]; rewrite String.eqb_refl; cbn [negb].
  etransitivity; [|exact Hacc]; apply secure_checks_read_four_fields.
  intros k' Hk'.
  assert (k <> k') as Hne by (intros ->; apply Hk; cbn in *; tauto).
  assert ("signature" <> k') as Hns
    by (intros <-; cbn in Hk'; intuition discriminate).
  rewrite dict_get_set_other by exact Hns.
  subst q; rewrite dict_get_set_other by exact Hne.
  now apply dict_get_remove_other.
Qed.

End Resigning.

(* ================================================================= *)
(** ** When a verifier raises instead of answering *)

Section Raising.
Context {RT : PyRuntime}.

Lemma evidence_present_check (p : dict) :
  evidence_present p -> evidence_missing p = Ok false.
Proof.
  intros (m & Hm & Hj & Hb).
  unfold evidence_missing, dict_getitem; rewrite Hm; cbn [bind value_get].
  now rewrite Hj, Hb.
Qed.

(** X12.  A proof without a [signature] entry makes the 128-bit verifier
    raise [KeyError], whatever else it holds: the entry is popped before
    anything is computed.  The 256-bit verifier answers "No signature found"
    on such a proof, provided its [security_level] entry, which the report
    line before the test formats, is absent or formats safely.  A proof
    that passes every check of the 256-bit verifier but has no
    [soundness_error] entry makes it raise [KeyError] in its closing report,
    where an answer was due. *)
Theorem when_the_verifiers_raise
    (self : SecureQuantumZKP.t) (uself : UltraSecureQuantumZKP.t) (c p : dict) :
  (dict_get "signature" p = None ->
     SecureQuantumZKP.verify_secure_proof self c p = Raise (KeyError "signature"))
  /\ (dict_get "signature" p = None ->
      level_formats p = true ->
      UltraSecureQuantumZKP.verify_ultra_secure_proof uself c p
      = Ok (Rejected NoSignatureFound))
  /\ (level_formats p = true ->
      ultra_earlier_checks_pass uself p ->
      nonnegative_bounds p ->
      evidence_present p ->
      dict_get "soundness_error" p = None ->
      UltraSecureQuantumZKP.verify_ultra_secure_proof uself c p
      = Raise (KeyError "soundness_error")).
Proof.
  split.
  { intros Hsig.
    unfold SecureQuantumZKP.verify_secure_proof, dict_pop; now rewrite Hsig. }
  split.
  { intros Hsig _.
    unfold UltraSecureQuantumZKP.verify_ultra_secure_proof, dict_pop_default.
    now rewrite Hsig. }
  intros _ Hearlier Hb He Hse.
  rewrite (ultra_verify_after_earlier_checks uself c p Hearlier).
  rewrite (nonnegative_bounds_check p Hb); cbn [bind].
  rewrite (evidence_present_check p He); cbn [bind].
  destruct Hearlier as (_ & Hlevel & _).
  unfold dict_get_none in Hlevel; unfold dict_getitem.
  destruct (dict_get "security_level" p); [|discriminate].
  now rewrite Hse.
Qed.

End Raising.

(* ================================================================= *)
(** * Worked examples

    The model run on concrete data, with [example_runtime]. *)

(** The end-to-end scenario on the 128-bit variant: the Bell state is
    proved, the proof verifies, and a proof whose [quantum_dimensions] was
    changed to 8 is answered with "Signature verification failed". *)
Example secure_end_to_end :
  match secure_run secure_zkp example_job with
  | Ok (c, p) =>
      dict_get "entanglement_bound" p = Some (VFloat 1%float)
      /\ dict_get "coherence_bound" p = Some (VFloat 4%float)
      /\ dict_get "signature" p
         = Some (VStr "f1cb07f79f2dc719f3de09c747f4d9f2a79ecca517f587c72ca80fc6390481da")
      /\ @SecureQuantumZKP.verify_secure_proof example_runtime secure_zkp c p
         = Ok Accepted
      /\ @SecureQuantumZKP.verify_secure_proof example_runtime secure_zkp c
           (dict_set "quantum_dimensions" (VInt 8) p)
         = Ok (Rejected SignatureVerificationFailed)
      /\ @SecureQuantumZKP.verify_secure_proof example_runtime secure_zkp c
           (dict_set "execution_metadata" forged_metadata p)
         = Ok (Rejected SignatureVerificationFailed)
  | Raise _ => False
  end.
Proof. vm_compute. repeat split; reflexivity. Qed.

(** C1, on the code.  The verifier of the 256-bit variant accepts the
    proof it was given, and accepts it as well after its entanglement bound,
    its execution metadata (another [job_id]) or its signature has been
    replaced: it never recomputes the signature. *)
Theorem ultra_verifier_accepts_altered_proofs :
  match ultra_run example_job nonce32 with
  | Ok (c, p) =>
      @UltraSecureQuantumZKP.verify_ultra_secure_proof ultra_zkp c p = Ok Accepted
      /\ @UltraSecureQuantumZKP.verify_ultra_secure_proof ultra_zkp c
           (dict_set "entanglement_bound" (VFloat 3%float) p)
         = Ok Accepted
      /\ @UltraSecureQuantumZKP.verify_ultra_secure_proof ultra_zkp c
           (dict_set "execution_metadata" forged_metadata p)
         = Ok Accepted
      /\ @UltraSecureQuantumZKP.verify_ultra_secure_proof ultra_zkp c
           (dict_set "signature" (VStr "00") p)
         = Ok Accepted
  | Raise _ => False
  end.
Proof. vm_compute. repeat split; reflexivity. Qed.

(** C2 fails on the 256-bit and the bytes signer: the same proof and
    commitment signed with two draws of the nonce get two signatures, and
    neither is the hash of the two JSON texts alone. *)
Lemma randomized_signatures_differ :
  match ultra_run example_job nonce32 with
  | Ok (c, signed) =>
      let p := dict_remove "signature" signed in
      String.eqb
        (@UltraSecureQuantumZKP._sign_ultra_secure_proof example_runtime
           ultra_zkp p c nonce32)
        (@UltraSecureQuantumZKP._sign_ultra_secure_proof example_runtime
           ultra_zkp p c nonce32') = false
      /\ String.eqb
           (@UltraSecureQuantumZKP._sign_ultra_secure_proof example_runtime
              ultra_zkp p c nonce32)
           (SHA256.hexdigest (encode (json_dumps decimal_repr (VDict p))
                              +++ encode (json_dumps decimal_repr (VDict c))))
         = false
      /\ String.eqb
           (@UltraSecureBytesQZKP._sign_bytes_proof example_runtime
              p c "Hello, Quantum World!" nonce32)
           (@UltraSecureBytesQZKP._sign_bytes_proof example_runtime
              p c "Hello, Quantum World!" nonce32') = false
  | Raise _ => False
  end.
Proof. vm_compute. repeat split; reflexivity. Qed.

(** C3 fails: with counts that cannot be read, the prover returns a signed
    proof over the hard-coded counts, and the verifier accepts it. *)
Lemma proof_over_synthetic_counts :
  read_counts (job_data unreadable_job) = Raise AttributeError
  /\ match secure_run secure_zkp unreadable_job with
     | Ok (c, p) =>
         dict_get "measurement_statistics" p
         = Some (VDict [ ("total_measurements", VInt 1000);
                         ("unique_outcomes", VInt 4);
                         ("entropy_bound", VFloat 2%float);
                         ("distribution_type", VStr "quantum_measurement") ])
         /\ @SecureQuantumZKP.verify_secure_proof example_runtime secure_zkp c p
            = Ok Accepted
     | Raise _ => False
     end.
Proof. vm_compute. repeat split; reflexivity. Qed.

(** The 128-bit verifier configured for 128 bits accepts a correctly signed
    proof that declares 64, where the 256-bit verifier compares the levels. *)
Lemma secure_verifier_accepts_another_level :
  SecureQuantumZKP.security_level secure_zkp = 128
  /\ match secure_run secure_zkp_64 example_job with
     | Ok (c, p) =>
         dict_get "security_level" p = Some (VInt 64)
         /\ @SecureQuantumZKP.verify_secure_proof example_runtime secure_zkp c p
            = Ok Accepted
     | Raise _ => False
     end.
Proof. vm_compute. repeat split; reflexivity. Qed.

(** The literal secret of the specification, at dimension 4. *)
Example hello_quantum_world_amplitudes :
  BytesToQuantumStateConverter.amplitudes_of
    {| BytesToQuantumStateConverter.target_dimension := 4;
       BytesToQuantumStateConverter.num_qubits := 2 |}
    "Hello Quantum World!"
  = [ ((-0.1640625)%float, (-0.6796875)%float);
      (0.25%float, 0.9453125%float);
      (0.5234375%float, (-0.28125)%float);
      (0.7734375%float, (-0.0625)%float) ].
Proof. vm_compute. reflexivity. Qed.

(** The signing contract on two records that differ in the order of their
    fields only. *)
Lemma signing_contract_witness :
  Permutation record_ab record_ba
  /\ dict_get "signature" record_ab = None
  /\ @SecureQuantumZKP._sign_secure_proof example_runtime record_ba record_c
     = @SecureQuantumZKP._sign_secure_proof example_runtime record_ab record_c
  /\ dict_pop "signature"
       (dict_set "signature"
          (VStr (@SecureQuantumZKP._sign_secure_proof example_runtime
                   record_ab record_c)) record_ab)
     = Ok (VStr (@SecureQuantumZKP._sign_secure_proof example_runtime
                   record_ab record_c), record_ab).
Proof.
  assert (NoDup (dict_keys record_ab)) as Nab
    by (repeat constructor; cbn; intuition discriminate).
  assert (NoDup (dict_keys record_c)) as Nc
    by (repeat constructor; cbn; intuition discriminate).
  pose proof (@signing_contract example_runtime record_ab record_ba record_c record_c
                ultra_zkp "Hello, Quantum World!" nonce32
                (perm_swap _ _ _) (Permutation_refl _) Nab Nc eq_refl)
    as (_ & Horder & Hpop & _).
  split; [apply perm_swap|]; split; [reflexivity|]; split; assumption.
Defined.

(** The fallback on the job whose counts cannot be read. *)
Lemma unreadable_counts_are_replaced_witness :
  bell_state <> []
  /\ read_counts (job_data unreadable_job) = Raise AttributeError
  /\ extract_counts SecureQuantumZKP.synthetic_counts (job_data unreadable_job)
     = [("00", 450); ("11", 507); ("01", 28); ("10", 15)]
  /\ exists c p,
       secure_run secure_zkp unreadable_job = Ok (c, p)
       /\ dict_get "measurement_statistics" p
          = Some (VDict (@SecureQuantumZKP._secure_measurement_analysis
                           example_runtime SecureQuantumZKP.synthetic_counts)).
Proof.
  assert (bell_state <> []) as Hv by discriminate.
  destruct (@unreadable_counts_are_replaced example_runtime secure_zkp ultra_zkp
              bell_state "secure-bell-state-test"
              (secure_env (Ok unreadable_job))
              (ultra_env (Ok unreadable_job) nonce32)
              unreadable_job AttributeError Hv eq_refl eq_refl eq_refl)
    as (Hc & _ & (c & p & Hrun & Hstats & _) & _).
  split; [exact Hv|]; split; [reflexivity|]; split; [exact Hc|].
  exists c, p; split; assumption.
Defined.

(** The verifier of the 256-bit variant on its own proof with a negative
    entanglement bound. *)
Lemma verifier_rejections_witness :
  ultra_earlier_checks_pass ultra_zkp
    (dict_set "entanglement_bound" (VFloat (-1)%float) ultra_signed_proof)
  /\ negative_bound
       (dict_set "entanglement_bound" (VFloat (-1)%float) ultra_signed_proof)
  /\ @UltraSecureQuantumZKP.verify_ultra_secure_proof ultra_zkp ultra_commitment
       (dict_set "entanglement_bound" (VFloat (-1)%float) ultra_signed_proof)
     = Ok (Rejected InvalidBounds).
Proof.
  assert (ultra_earlier_checks_pass ultra_zkp
            (dict_set "entanglement_bound" (VFloat (-1)%float) ultra_signed_proof))
    as Hpass.
  { split; [|split].
    - eexists; split; [vm_compute; reflexivity|reflexivity].
    - vm_compute; reflexivity.
    - eexists; split; [vm_compute; reflexivity|repeat split]. }
  assert (negative_bound
            (dict_set "entanglement_bound" (VFloat (-1)%float) ultra_signed_proof))
    as Hneg.
  { exists (VFloat (-1)%float); split; [vm_compute; reflexivity|left; reflexivity]. }
  split; [exact Hpass|]; split; [exact Hneg|].
  exact (proj1 (proj2 (@verifier_rejections example_runtime secure_zkp secure_zkp
                         ultra_zkp ultra_commitment _)) Hpass Hneg).
Defined.


(** On the example store the 128-bit verifier rejects the proof at address
    2; afterwards the proof still has its signature, and the copy the verifier
    made, at address 3, is the one that lost it. *)
Lemma verification_leaves_its_inputs_unchanged_witness :
  let run := @Store.verify_secure_proof example_runtime secure_zkp 0%nat 2%nat
               example_heap in
  fst run = Ok (Rejected SignatureVerificationFailed)
  /\ firstn 3 (snd run) = example_heap
  /\ match Store.load 2%nat (snd run), Store.load 3%nat (snd run) with
     | Some (Store.ODict p), Some (Store.ODict t) =>
         Store.slot_get "signature" p = Some (Store.SStr "00ff")
         /\ Store.slot_get "signature" t = None
     | _, _ => False
     end.
Proof.
  intros run.
  pose proof (@verification_leaves_its_inputs_unchanged example_runtime
                secure_zkp ultra_zkp 0%nat 2%nat example_heap) as (H & _).
  split; [vm_compute; reflexivity|]; split; [exact H|].
  vm_compute; split; reflexivity.
Defined.

(** X1 on the Bell state: the proof of the 128-bit prover is accepted by
    a verifier of four dimensions and refused by one of eight. *)
Lemma secure_prover_output_verifies_witness :
  bell_state <> [] /\ len bell_state < 2 ^ 63
  /\ exists c p,
       secure_run secure_zkp example_job = Ok (c, p)
       /\ @SecureQuantumZKP.verify_secure_proof example_runtime secure_zkp c p
          = Ok Accepted
       /\ @SecureQuantumZKP.verify_secure_proof example_runtime secure_zkp_8 c p
          = Ok (Rejected DimensionMismatch).
Proof.
  split; [discriminate|]; split; [reflexivity|].
  destruct (@secure_prover_output_verifies example_runtime secure_zkp secure_zkp
              bell_state "secure-bell-state-test" (secure_env (Ok example_job))
              example_job) as (c & p & Hp & _ & _ & Hv);
    [discriminate|reflexivity|reflexivity|].
  destruct (@secure_prover_output_verifies example_runtime secure_zkp secure_zkp_8
              bell_state "secure-bell-state-test" (secure_env (Ok example_job))
              example_job) as (c' & p' & Hp' & _ & _ & Hv');
    [discriminate|reflexivity|reflexivity|].
  rewrite Hp in Hp'; injection Hp' as <- <-.
  exists c, p; split; [exact Hp|]; split; [exact Hv|exact Hv'].
Defined.

(** X2 on the Bell state: the proof of the 256-bit prover is accepted next
    to a commitment that has nothing to do with it. *)
Lemma ultra_prover_output_verifies_witness :
  bell_state <> [] /\ len bell_state < 2 ^ 63
  /\ exists c p,
       ultra_run example_job nonce32 = Ok (c, p)
       /\ UltraSecureQuantumZKP.verify_ultra_secure_proof ultra_zkp record_c p
          = Ok Accepted.
Proof.
  split; [discriminate|]; split; [reflexivity|].
  destruct (@ultra_prover_output_verifies example_runtime ultra_zkp ultra_zkp
              bell_state "ultra-secure-bell-state-256bit"
              (ultra_env (Ok example_job) nonce32) example_job record_c)
    as (c & p & Hp & _ & _ & Hv); [discriminate|reflexivity|reflexivity|].
  exists c, p; split; [exact Hp|exact Hv].
Defined.

(** X3: the Bell state and the basis state |00>, with the same job as the
    outcome of the run, get the same commitment and proof. *)
Lemma amplitudes_enter_through_the_run_only_witness :
  len bell_state = len basis_state
  /\ (exists c p, secure_run secure_zkp example_job = Ok (c, p))
  /\ secure_run secure_zkp example_job
     = @SecureQuantumZKP.secure_prove_vector_knowledge example_runtime
         secure_zkp basis_state "secure-bell-state-test" (secure_env (Ok example_job)).
Proof.
  split; [reflexivity|].
  split; [eexists; eexists; vm_compute; reflexivity|].
  exact (proj1 (@amplitudes_enter_through_the_run_only example_runtime
                  secure_zkp ultra_zkp bell_state basis_state "secure-bell-state-test"
                  (secure_env (Ok example_job)) (ultra_env (Ok example_job) nonce32)
                  (Ok example_job) eq_refl)).
Defined.

(** X5: six shots over four outcomes. *)
Lemma statistics_of_counted_bitstrings_witness :
  data_get_bitstrings (job_data bitstring_job) = Ok example_bitstrings
  /\ exists c p,
       secure_run secure_zkp bitstring_job = Ok (c, p)
       /\ dict_get "measurement_statistics" p
          = Some (VDict
              [ ("total_measurements", VInt 6);
                ("unique_outcomes", VInt 4);
                ("entropy_bound", VFloat 2%float);
                ("distribution_type", VStr "quantum_measurement") ]).
Proof.
  split; [reflexivity|].
  destruct (@statistics_of_counted_bitstrings example_runtime secure_zkp ultra_zkp
              bell_state "secure-bell-state-test"
              (secure_env (Ok bitstring_job)) (ultra_env (Ok bitstring_job) nonce32)
              bitstring_job example_bitstrings)
    as [(c & p & Hp & Hs) _];
    [discriminate|reflexivity|reflexivity|reflexivity|reflexivity|reflexivity|].
  exists c, p; split; [exact Hp|exact Hs].
Defined.

(** X6: thirty-two dimensions, of which the last sixteen are padding. *)
Lemma amplitudes_past_the_digest_are_padding_witness :
  16 <= BytesToQuantumStateConverter.target_dimension five_qubit_converter
  /\ skipn 16 (BytesToQuantumStateConverter.amplitudes_of five_qubit_converter
                 "Hello, Quantum World!")
     = repeat (0%float, 0%float) 16.
Proof.
  assert (16 <= BytesToQuantumStateConverter.target_dimension five_qubit_converter)
    as Hd by (cbn; lia).
  split; [exact Hd|].
  destruct (amplitudes_past_the_digest_are_padding five_qubit_converter
              "Hello, Quantum World!" "" Hd) as (H16 & -> & _).
  rewrite <- H16 at 1; rewrite skipn_app, skipn_all, Nat.sub_diag; reflexivity.
Defined.

(** X7: two different secrets, one state of one qubit. *)
Lemma state_depends_on_a_digest_prefix_witness :
  firstn 4 (SHA256.digest_list example_collision_a)
  = firstn 4 (SHA256.digest_list example_collision_b)
  /\ (example_collision_a =? example_collision_b)%string = false
  /\ fst (BytesToQuantumStateConverter.bytes_to_quantum_state
            one_qubit_converter example_collision_a "a")
     = fst (BytesToQuantumStateConverter.bytes_to_quantum_state
              one_qubit_converter example_collision_b "b").
Proof.
  assert (firstn 4 (SHA256.digest_list example_collision_a)
          = firstn 4 (SHA256.digest_list example_collision_b)) as H
    by (vm_compute; reflexivity).
  split; [exact H|]; split; [reflexivity|].
  exact (state_depends_on_a_digest_prefix one_qubit_converter
           example_collision_a example_collision_b "a" "b" H).
Defined.

(** X9: the empty byte string, and a result that cannot be read. *)
Lemma bytes_proof_ignores_the_measurement_witness :
  exists c p m,
    @UltraSecureBytesQZKP.prove_bytes_knowledge example_runtime example_str
      bytes_zkp "" "empty" (bytes_env (Ok example_job)) = Ok (c, p, m)
    /\ @UltraSecureBytesQZKP.prove_bytes_knowledge example_runtime example_str
         bytes_zkp "" "empty"
         (bytes_env (Ok (job_with_data example_job (job_data unreadable_job))))
       = Ok (c, p, m).
Proof.
  destruct (@bytes_proof_ignores_the_measurement example_runtime example_str
              bytes_zkp "" "empty" (bytes_env (Ok example_job)) example_job eq_refl)
    as (c & p & m & H1 & H2).
  exists c, p, m; split; [exact H1|exact (H2 (job_data unreadable_job))].
Defined.

(** X10: the state of "Hello, Quantum World!" read off its proof. *)
Lemma bytes_proof_discloses_the_state_witness :
  exists c p m,
    @UltraSecureBytesQZKP.prove_bytes_knowledge example_runtime example_str
      bytes_zkp "Hello, Quantum World!" "text_message" (bytes_env (Ok example_job))
    = Ok (c, p, m)
    /\ fst (BytesToQuantumStateConverter.bytes_to_quantum_state
              UltraSecureBytesQZKP.converter "Hello, Quantum World!" "text_message")
       = state_from_proof p.
Proof.
  eexists; eexists; eexists.
  split; [vm_compute; reflexivity|].
  eapply (@bytes_proof_discloses_the_state example_runtime example_str
            bytes_zkp "Hello, Quantum World!" "text_message"
            (bytes_env (Ok example_job))).
  vm_compute; reflexivity.
Defined.

(** X11: the statistics of the Bell proof replaced, the proof signed again
    next to another commitment, and accepted. *)
Lemma unchecked_fields_can_be_rewritten_witness :
  @SecureQuantumZKP.verify_secure_proof example_runtime
    secure_zkp secure_commitment secure_signed_proof = Ok Accepted
  /\ let q := dict_set "measurement_statistics" (VStr "none taken")
                (dict_remove "signature" secure_signed_proof) in
     @SecureQuantumZKP.verify_secure_proof example_runtime secure_zkp record_c
       (dict_set "signature"
          (VStr (@SecureQuantumZKP._sign_secure_proof example_runtime q record_c)) q)
     = Ok Accepted.
Proof.
  assert (@SecureQuantumZKP.verify_secure_proof example_runtime
            secure_zkp secure_commitment secure_signed_proof = Ok Accepted) as H
    by (vm_compute; reflexivity).
  split; [exact H|].
  apply (@unchecked_fields_can_be_rewritten example_runtime secure_zkp
           secure_commitment record_c secure_signed_proof
           "measurement_statistics" (VStr "none taken") H).
  cbn; intuition discriminate.
Defined.

(** X13 and X14 on the store of the examples. *)
Lemma verify_secure_refines_witness :
  Store.reads example_heap (Store.SRef 0%nat) (VDict example_heap_commitment)
  /\ Store.reads example_heap (Store.SRef 2%nat) (VDict example_heap_proof)
  /\ fst (@Store.verify_secure_proof example_runtime secure_zkp 0%nat 2%nat example_heap)
     = @SecureQuantumZKP.verify_secure_proof example_runtime
         secure_zkp example_heap_commitment example_heap_proof.
Proof.
  assert (Store.reads example_heap (Store.SRef 0%nat) (VDict example_heap_commitment))
    as Hc by reflexivity.
  assert (Store.reads example_heap (Store.SRef 2%nat) (VDict example_heap_proof))
    as Hp by reflexivity.
  split; [exact Hc|]; split; [exact Hp|].
  exact (@StoreRefinement.verify_secure_refines example_runtime secure_zkp
           0%nat 2%nat example_heap example_heap_commitment example_heap_proof Hc Hp).
Defined.

Lemma verify_ultra_refines_witness :
  Store.reads example_heap (Store.SRef 2%nat) (VDict example_heap_proof)
  /\ fst (Store.verify_ultra_secure_proof ultra_zkp 0%nat 2%nat example_heap)
     = UltraSecureQuantumZKP.verify_ultra_secure_proof
         ultra_zkp example_heap_commitment example_heap_proof.
Proof.
  assert (Store.reads example_heap (Store.SRef 2%nat) (VDict example_heap_proof))
    as Hp by reflexivity.
  split; [exact Hp|].
  exact (StoreRefinement.verify_ultra_refines ultra_zkp
           0%nat 2%nat example_heap example_heap_commitment example_heap_proof Hp).
Defined.

(** X12: the proof of the 256-bit run without its signature, given to both
    verifiers, and without its [soundness_error], given to its own. *)
Lemma when_the_verifiers_raise_witness :
  (dict_get "signature" (dict_remove "signature" ultra_signed_proof) = None
   /\ level_formats (dict_remove "signature" ultra_signed_proof) = true
   /\ @SecureQuantumZKP.verify_secure_proof example_runtime secure_zkp ultra_commitment
        (dict_remove "signature" ultra_signed_proof)
      = Raise (KeyError "signature")
   /\ UltraSecureQuantumZKP.verify_ultra_secure_proof ultra_zkp ultra_commitment
        (dict_remove "signature" ultra_signed_proof)
      = Ok (Rejected NoSignatureFound))
  /\ (dict_get "soundness_error" (dict_remove "soundness_error" ultra_signed_proof) = None
      /\ UltraSecureQuantumZKP.verify_ultra_secure_proof ultra_zkp ultra_commitment
           ultra_signed_proof
         = Ok Accepted
      /\ UltraSecureQuantumZKP.verify_ultra_secure_proof ultra_zkp ultra_commitment
           (dict_remove "soundness_error" ultra_signed_proof)
         = Raise (KeyError "soundness_error")).
Proof.
  pose proof (@when_the_verifiers_raise example_runtime secure_zkp ultra_zkp
                ultra_commitment (dict_remove "signature" ultra_signed_proof))
    as (H128 & H256 & _).
  pose proof (@when_the_verifiers_raise example_runtime secure_zkp ultra_zkp
                ultra_commitment (dict_remove "soundness_error" ultra_signed_proof))
    as (_ & _ & Hreport).
  assert (dict_get "signature" (dict_remove "signature" ultra_signed_proof) = None)
    as Hsig by (vm_compute; reflexivity).
  assert (level_formats (dict_remove "signature" ultra_signed_proof) = true)
    as Hfmt by (vm_compute; reflexivity).
  split.
  { split; [exact Hsig|]; split; [exact Hfmt|].
    split; [exact (H128 Hsig)|exact (H256 Hsig Hfmt)]. }
  split; [vm_compute; reflexivity|].
  split; [vm_compute; reflexivity|].
  apply Hreport.
  - vm_compute; reflexivity.
  - split; [|split].
    + eexists; split; [vm_compute; reflexivity|reflexivity].
    + vm_compute; reflexivity.
    + eexists; split; [vm_compute; reflexivity|repeat split].
  - eexists; eexists; split; [vm_compute; reflexivity|].
    split; [reflexivity|]; split; [vm_compute; reflexivity|reflexivity].
  - eexists; split; [vm_compute; reflexivity|]; split; reflexivity.
  - vm_compute; reflexivity.
Defined.
